(** * cirm-data: import, merge and change log of the data portal

    A shallow embedding of the data-management core of the portal:
    - [useCIRMData] (the hook holding the persisted data set and the
      change log): [recordChange], [parseExcelFile], [importData],
      [updateData];
    - [DataManagementSection] (the editor): [detectSheetType],
      [processEditorFile], [handleApplyChanges].

    Modelling conventions.
    - A JS string is a [string] holding its UTF-8 bytes.  Substring search
      on well-formed UTF-8 agrees with substring search on code points.
      [toLowerCase]/[toUpperCase] map the ASCII letters only: the CJK
      vocabulary of the sheet names has no case mapping.
    - Numeric fields ([awardValue], [totalAwards], the summary counters)
      are integers [Z]: the sheet parsers never store NaN in them
      ([Number(x) || 0]) and JSON has no NaN.  The code's numbers are
      doubles, whose [+] rounds and is not associative, so a total is
      stated below as the expression the code evaluates, the same
      additions in the same order; of the laws of [+] only [x + 0 = x]
      is used.
    - [localStorage] holds the JSON text of what is saved; [storedData]
      and [storedChanges] are the values whose text was written last,
      and a write is taken to go through (no quota error).
    - A JS object with optional properties is a record of [option]s;
      [undefined] and [null] are both [None].  Reading a property of
      [undefined] throws, which the [js] monad below records.
    - [Date.now()], [Math.random()] and [new Date().toISOString()] are
      read from an explicit environment [Env]. *)

From Stdlib Require Import ZArith List String Ascii Bool Lia.
From Stdlib Require Import DecimalString DecimalPos DecimalZ.
Import ListNotations.
Open Scope string_scope.
Open Scope Z_scope.

Set Implicit Arguments.

(** ** Strings, as the JS string methods used by the code *)

Module Str.

Definition lowerAscii (c : ascii) : ascii :=
  let n := nat_of_ascii c in
  if (Nat.leb 65 n && Nat.leb n 90)%bool then ascii_of_nat (n + 32) else c.

Definition upperAscii (c : ascii) : ascii :=
  let n := nat_of_ascii c in
  if (Nat.leb 97 n && Nat.leb n 122)%bool then ascii_of_nat (n - 32) else c.

Fixpoint map (f : ascii -> ascii) (s : string) : string :=
  match s with
  | EmptyString => EmptyString
  | String c s' => String (f c) (map f s')
  end.

(** [s.toLowerCase()] and [s.toUpperCase()] *)
Definition toLowerCase : string -> string := map lowerAscii.
Definition toUpperCase : string -> string := map upperAscii.

(** [s.startsWith(p)] *)
Fixpoint startsWith (p s : string) : bool :=
  match p, s with
  | EmptyString, _ => true
  | String a p', String b s' => (Ascii.eqb a b && startsWith p' s')%bool
  | String _ _, EmptyString => false
  end.

(** [s.includes(p)] *)
Fixpoint includes (p s : string) : bool :=
  (startsWith p s ||
   match s with
   | EmptyString => false
   | String _ s' => includes p s'
   end)%bool.

(** [s.endsWith(p)] *)
Fixpoint endsWith (p s : string) : bool :=
  (String.eqb p s ||
   match s with
   | EmptyString => false
   | String _ s' => endsWith p s'
   end)%bool.

(** truthiness of a string: non-empty *)
Definition nonEmpty (s : string) : bool :=
  match s with EmptyString => false | String _ _ => true end.

End Str.

(** ** Sheet classification *)

Inductive SheetType := grants_t | papers_t | activeGrants_t | unknown_t.

(** [detectSheetType] of the data editor. *)
Definition detectSheetType (sheetName : string) : SheetType :=
  let lowerName := Str.toLowerCase sheetName in
  if (Str.includes "active" lowerName || Str.includes "进行中" lowerName
      || Str.includes "具体项目" lowerName)%bool
  then activeGrants_t
  else if (Str.includes "grant" lowerName
           && negb (Str.includes "active" lowerName))%bool
  then grants_t
  else if (Str.includes "paper" lowerName || Str.includes "文献" lowerName
           || Str.includes "论文" lowerName
           || Str.includes "publication" lowerName)%bool
  then papers_t
  else unknown_t.

(** The [if / else if] chain on the sheet name inside [parseExcelFile] of
    the hook: which of the three parsers a sheet is handed to. *)
Definition parseExcelFile_sheetType (sheetName : string) : SheetType :=
  let lowerName := Str.toLowerCase sheetName in
  if (Str.includes "grant" lowerName || Str.includes "资助" lowerName)%bool
  then grants_t
  else if (Str.includes "active" lowerName || Str.includes "进行中" lowerName
           || Str.includes "项目" lowerName)%bool
  then activeGrants_t
  else if (Str.includes "paper" lowerName || Str.includes "文献" lowerName
           || Str.includes "论文" lowerName)%bool
  then papers_t
  else unknown_t.

(** ** Spreadsheet cells and JS coercions *)

(** A JS number that may be NaN (only [sortOrder] and a parsed
    [previousAwardValue] can hold one). *)
Inductive number := NaN | Fin (z : Z).

(** A cell of [XLSX.utils.sheet_to_json(worksheet, { header: 1 })]. *)
Inductive Cell :=
| Undefined
| Null
| CStr (s : string)
| CNum (z : Z)
| CBool (b : bool).

Definition Row := list Cell.
(** the rows of one sheet, header row first *)
Definition Sheet := list Row.
(** [workbook.SheetNames] paired with [workbook.Sheets[name]] *)
Definition Workbook := list (string * Sheet).

(** [row[i]]: reading past the end of a JS array gives [undefined]. *)
Definition cell (row : Row) (i : nat) : Cell := nth i row Undefined.

(** JS truthiness *)
Definition truthy (c : Cell) : bool :=
  match c with
  | Undefined | Null => false
  | CStr s => Str.nonEmpty s
  | CNum z => negb (z =? 0)
  | CBool b => b
  end.

(** [a || b] *)
Definition orElse (a b : Cell) : Cell := if truthy a then a else b.

(** [x !== undefined && x !== null] *)
Definition present (c : Cell) : bool :=
  match c with Undefined | Null => false | _ => true end.

(** [x !== undefined] *)
Definition defined (c : Cell) : bool :=
  match c with Undefined => false | _ => true end.

Definition decimal (z : Z) : string := NilZero.string_of_int (Z.to_int z).

(** [String(x)] *)
Definition String_ (c : Cell) : string :=
  match c with
  | Undefined => "undefined"
  | Null => "null"
  | CStr s => s
  | CNum z => decimal z
  | CBool true => "true"
  | CBool false => "false"
  end.

(** [String(x || d)] for a string literal [d] *)
Definition strOr (c : Cell) (d : string) : string := String_ (orElse c (CStr d)).

(** [x ? String(x) : null] *)
Definition strOrNull (c : Cell) : option string :=
  if truthy c then Some (String_ c) else None.

(** [String(x).toUpperCase() === 'TRUE'] *)
Definition isTRUE (c : Cell) : bool :=
  String.eqb (Str.toUpperCase (String_ c)) "TRUE".

(** [x !== undefined ? String(x).toUpperCase() === 'TRUE' : d] *)
Definition flagOr (c : Cell) (d : bool) : bool :=
  if defined c then isTRUE c else d.

(** ** The grant-number pattern [/[A-Z]+\d+[A-Z]?-?[\dA-Z]*/g] *)

Module GrantNumberRe.

Definition isUpper (c : ascii) : bool :=
  let n := nat_of_ascii c in (Nat.leb 65 n && Nat.leb n 90)%bool.
Definition isDigit (c : ascii) : bool :=
  let n := nat_of_ascii c in (Nat.leb 48 n && Nat.leb n 57)%bool.
Definition isHyphen (c : ascii) : bool := Ascii.eqb c "-"%char.

(** the longest prefix of [s] made of characters in [p], and the rest *)
Fixpoint span (p : ascii -> bool) (s : string) : string * string :=
  match s with
  | String c s' =>
      if p c then let (a, b) := span p s' in (String c a, b)
      else (EmptyString, s)
  | EmptyString => (EmptyString, EmptyString)
  end.

(** at most one character in [p] *)
Definition opt (p : ascii -> bool) (s : string) : string * string :=
  match s with
  | String c s' => if p c then (String c EmptyString, s') else (EmptyString, s)
  | EmptyString => (EmptyString, EmptyString)
  end.

(** The match starting at the first character of [s], if any.  The
    letter class and the digit class are disjoint and everything after
    [\d+] is optional, so the greedy choice is the only candidate. *)
Definition matchAt (s : string) : option string :=
  let (ls, r1) := span isUpper s in
  if negb (Str.nonEmpty ls) then None else
  let (ds, r2) := span isDigit r1 in
  if negb (Str.nonEmpty ds) then None else
  let (l1, r3) := opt isUpper r2 in
  let (h, r4) := opt isHyphen r3 in
  let (tl, _) := span (fun c => (isDigit c || isUpper c)%bool) r4 in
  Some (ls ++ ds ++ l1 ++ h ++ tl).

(** the global scan: [skip] characters of the last match are still to
    be passed over *)
Fixpoint scan (s : string) (skip : nat) : list string :=
  match s with
  | EmptyString => []
  | String _ s' =>
      match skip with
      | S k => scan s' k
      | O =>
          match matchAt s with
          | Some m => m :: scan s' (Nat.pred (String.length m))
          | None => scan s' O
          end
      end
  end.

(** [s.match(re) || []] *)
Definition matchAll (s : string) : list string := scan s O.

End GrantNumberRe.

(** ** Record schemas ([src/types/index.ts]) *)

Module Grant.
Record t := mk {
  id : Z;
  programType : string;
  grantType : string;
  icocApproval : string;
  totalAwards : Z;
  awardValue : Z;
  awardStatus : string;
  notes : option string;
  isNew : bool
}.
End Grant.

Module ActiveGrant.
Record t := mk {
  grantNumber : string;
  programType : string;
  grantType : string;
  grantTitle : string;
  diseaseFocus : option string;
  principalInvestigator : string;
  awardValue : Z;
  icocApproval : option string;
  awardStatus : string;
  sortOrder : option number;
  isNew : option bool;
  previousAwardValue : option number;
  previousAwardStatus : option string;
  showValueChange : option bool;
  showStatusChange : option bool;
  detailUrl : option string
}.

(** [ag.previousAwardValue = v] *)
Definition set_previousAwardValue (v : Z) (ag : t) : t :=
  mk (grantNumber ag) (programType ag) (grantType ag) (grantTitle ag)
     (diseaseFocus ag) (principalInvestigator ag) (awardValue ag)
     (icocApproval ag) (awardStatus ag) (sortOrder ag) (isNew ag)
     (Some (Fin v)) (previousAwardStatus ag)
     (showValueChange ag) (showStatusChange ag) (detailUrl ag).

(** [ag.previousAwardStatus = s] *)
Definition set_previousAwardStatus (s : string) (ag : t) : t :=
  mk (grantNumber ag) (programType ag) (grantType ag) (grantTitle ag)
     (diseaseFocus ag) (principalInvestigator ag) (awardValue ag)
     (icocApproval ag) (awardStatus ag) (sortOrder ag) (isNew ag)
     (previousAwardValue ag) (Some s)
     (showValueChange ag) (showStatusChange ag) (detailUrl ag).
End ActiveGrant.

Module Paper.
Record t := mk {
  title : string;
  researchTopic : string;
  authors : string;
  publication : string;
  publishedOnline : option string;
  manualUpdateDate : option string;
  grantNumber : string;
  grantNumbers : list string;
  grantType : string;
  programType : string;
  grantTitle : string;
  awardStatus : string
}.
End Paper.

Module DataSummary.
Record t := mk {
  totalGrants : Z;
  totalProjects : Z;
  totalAmount : Z;
  activeProjects : Z;
  totalPapers : Z;
  (** never written by the code below; missing from a summary that
      [handleApplyChanges] builds over a data set without one *)
  activeGrants : option Z
}.
End DataSummary.

(** [CIRMData] as the object it is at run time: [Partial<CIRMData>] and
    [CIRMData] have the same shape, a property may be missing.
    [programStats], [yearlyStats] and [visualization] are never read by
    the code below and are carried along as raw properties. *)
Module CIRMData.
Record t := mk {
  summary : option DataSummary.t;
  updateDate : option string;
  grants : option (list Grant.t);
  activeGrants : option (list ActiveGrant.t);
  papers : option (list Paper.t);
  extras : list (string * string)
}.

(** every property the merge reads is there *)
Definition complete (d : t) : Prop :=
  summary d <> None /\ grants d <> None /\
  activeGrants d <> None /\ papers d <> None.
End CIRMData.

Inductive ChangeType := add | update | delete.
Inductive EntityType := grant | paper.

(** the [any] values stored in [changes] *)
Inductive Payload :=
| PNull
| PImportCounts (grants papers : Z)
| PTotals (totalGrants totalPapers : Z)
| PGrant (g : Grant.t)
| PPaper (p : Paper.t).

Module Snapshot.
Record t := mk {
  grants : option (list Grant.t);
  activeGrants : option (list ActiveGrant.t);
  papers : option (list Paper.t);
  summary : option DataSummary.t
}.
End Snapshot.

(** [Omit<DataChange, 'id' | 'timestamp'>] *)
Module ChangeDescr.
Record t := mk {
  type : ChangeType;
  entityType : EntityType;
  entityId : string;
  changes : list (string * (Payload * Payload));
  snapshot : option Snapshot.t
}.
End ChangeDescr.

Module DataChange.
Record t := mk {
  id : string;
  type : ChangeType;
  entityType : EntityType;
  entityId : string;
  changes : list (string * (Payload * Payload));
  timestamp : string;
  snapshot : option Snapshot.t
}.
End DataChange.

(** ** Exceptions *)

Inductive Exn :=
| Error (message : string)   (* [throw new Error(message)] *)
| TypeError                  (* a property of [undefined] was read *)
| ReadError.                 (* [XLSX.read] or [JSON.parse] threw *)

Inductive js (A : Type) :=
| Ret (a : A)
| Throw (e : Exn).
Arguments Ret {A} a.
Arguments Throw {A} e.

Definition bind {A B} (m : js A) (k : A -> js B) : js B :=
  match m with
  | Ret a => k a
  | Throw e => Throw e
  end.

Notation "x <- m ;; k" := (bind m (fun x => k))
  (at level 61, m at next level, right associativity).

(** [o.p] where the code goes on to use the value as an array or object *)
Definition prop {A} (o : option A) : js A :=
  match o with
  | Some a => Ret a
  | None => Throw TypeError
  end.

(** ** [Map<string, V>]: a JS Map keeps its keys in insertion order, and
    [set] on a key that is there keeps the key's position *)

Module JsMap.
Section WithValue.
Variable V : Type.

Definition t := list (string * V).

Fixpoint get (m : t) (k : string) : option V :=
  match m with
  | [] => None
  | (k', v) :: m' => if String.eqb k' k then Some v else get m' k
  end.

Fixpoint set (m : t) (k : string) (v : V) : t :=
  match m with
  | [] => [(k, v)]
  | (k', v') :: m' =>
      if String.eqb k' k then (k', v) :: m' else (k', v') :: set m' k v
  end.

(** [new Map(entries)] *)
Definition ofEntries (entries : list (string * V)) : t :=
  fold_left (fun m kv => set m (fst kv) (snd kv)) entries [].

(** [Array.from(m.values())] *)
Definition values (m : t) : list V := map snd m.

Definition keys (m : t) : list string := map fst m.
End WithValue.
End JsMap.

(** ** Row parsers *)

Open Scope list_scope.

Fixpoint mapi_from {A B} (i : Z) (f : A -> Z -> B) (l : list A) : list B :=
  match l with
  | [] => []
  | a :: l' => f a i :: mapi_from (i + 1) f l'
  end.

(** [l.map((x, idx) => f x idx)] *)
Definition mapi {A B} (f : A -> Z -> B) (l : list A) : list B := mapi_from 0 f l.

(** [jsonData.slice(1)] *)
Definition slice1 {A} (l : list A) : list A := tl l.

Section Parsers.

(** [Number(s)] on a string, the StringToNumber of the JS runtime. *)
Variable parseNumber : string -> number.

(** [Number(x)] *)
Definition Number_ (c : Cell) : number :=
  match c with
  | Undefined => NaN
  | Null => Fin 0
  | CStr s => parseNumber s
  | CNum z => Fin z
  | CBool true => Fin 1
  | CBool false => Fin 0
  end.

(** [Number(x) || 0] *)
Definition numOr0 (c : Cell) : Z :=
  match Number_ c with
  | NaN => 0
  | Fin z => z
  end.

(** the object literal of a Grant row (hook and editor alike) *)
Definition grantOfRow (row : Row) (idx : Z) : Grant.t :=
  {| Grant.id := idx + 1;
     Grant.programType := strOr (cell row 0) EmptyString;
     Grant.grantType := strOr (cell row 1) EmptyString;
     Grant.icocApproval := strOr (cell row 2) EmptyString;
     Grant.totalAwards := numOr0 (cell row 3);
     Grant.awardValue := numOr0 (cell row 4);
     Grant.awardStatus := strOr (cell row 5) "Active";
     Grant.notes := strOrNull (cell row 6);
     Grant.isNew := false |}.

(** the ActiveGrant object literal of [parseExcelFile] *)
Definition activeGrantOfRow_hook (row : Row) : ActiveGrant.t :=
  {| ActiveGrant.grantNumber := strOr (cell row 0) EmptyString;
     ActiveGrant.programType := strOr (cell row 1) EmptyString;
     ActiveGrant.grantType := strOr (cell row 2) EmptyString;
     ActiveGrant.grantTitle := strOr (cell row 3) EmptyString;
     ActiveGrant.diseaseFocus := strOrNull (cell row 4);
     ActiveGrant.principalInvestigator := strOr (cell row 5) EmptyString;
     ActiveGrant.awardValue := numOr0 (cell row 6);
     ActiveGrant.icocApproval := strOrNull (cell row 7);
     ActiveGrant.awardStatus := strOr (cell row 8) "Active";
     ActiveGrant.sortOrder :=
       if defined (cell row 9) then Some (Number_ (cell row 9)) else None;
     ActiveGrant.isNew := Some (flagOr (cell row 10) false);
     ActiveGrant.previousAwardValue := None;
     ActiveGrant.previousAwardStatus := None;
     ActiveGrant.showValueChange := Some (flagOr (cell row 11) true);
     ActiveGrant.showStatusChange := Some (flagOr (cell row 12) true);
     ActiveGrant.detailUrl := None |}.

(** [x !== undefined && x !== ''] *)
Definition definedNonEmpty (c : Cell) : bool :=
  match c with
  | Undefined => false
  | CStr EmptyString => false
  | _ => true
  end.

(** the ActiveGrant object literal of [processEditorFile] *)
Definition activeGrantOfRow_editor (row : Row) : ActiveGrant.t :=
  {| ActiveGrant.grantNumber := strOr (cell row 0) EmptyString;
     ActiveGrant.programType := strOr (cell row 1) EmptyString;
     ActiveGrant.grantType := strOr (cell row 2) EmptyString;
     ActiveGrant.grantTitle := strOr (cell row 3) EmptyString;
     ActiveGrant.diseaseFocus := strOrNull (cell row 4);
     ActiveGrant.principalInvestigator := strOr (cell row 5) EmptyString;
     ActiveGrant.awardValue := numOr0 (cell row 6);
     ActiveGrant.icocApproval := strOrNull (cell row 7);
     ActiveGrant.awardStatus := strOr (cell row 8) "Active";
     ActiveGrant.sortOrder :=
       if defined (cell row 9) then Some (Number_ (cell row 9)) else None;
     ActiveGrant.isNew := Some (flagOr (cell row 10) false);
     ActiveGrant.previousAwardValue :=
       if definedNonEmpty (cell row 13)
       then Some (Number_ (cell row 13)) else None;
     ActiveGrant.previousAwardStatus :=
       if definedNonEmpty (cell row 14)
       then Some (String_ (cell row 14)) else None;
     ActiveGrant.showValueChange := Some (flagOr (cell row 11) false);
     ActiveGrant.showStatusChange := Some (flagOr (cell row 12) false);
     ActiveGrant.detailUrl := None |}.

(** the Paper object literal; [manual] tells whether the literal has the
    [manualUpdateDate] property (the editor's has, the hook's has not) *)
Definition paperOfRow (manual : bool) (row : Row) : Paper.t :=
  let grantNumber := strOr (cell row 5) EmptyString in
  let grantNumbers := GrantNumberRe.matchAll grantNumber in
  {| Paper.title := strOr (cell row 0) EmptyString;
     Paper.researchTopic := strOr (cell row 1) EmptyString;
     Paper.authors := strOr (cell row 2) EmptyString;
     Paper.publication := strOr (cell row 3) EmptyString;
     Paper.publishedOnline := strOrNull (cell row 4);
     Paper.manualUpdateDate :=
       if manual then strOrNull (cell row 10) else None;
     Paper.grantNumber := grantNumber;
     Paper.grantNumbers := grantNumbers;
     Paper.grantType := strOr (cell row 6) EmptyString;
     Paper.programType := strOr (cell row 7) EmptyString;
     Paper.grantTitle := strOr (cell row 8) EmptyString;
     Paper.awardStatus := strOr (cell row 9) EmptyString |}.

(** *** The hook's parsers: [rows.filter(row => row[0] !== undefined &&
    row[0] !== null).map(...)] *)

Definition keptByHook (row : Row) : bool := present (cell row 0).

Definition hookGrants (jsonData : Sheet) : list Grant.t :=
  mapi grantOfRow (filter keptByHook (slice1 jsonData)).

Definition hookActiveGrants (jsonData : Sheet) : list ActiveGrant.t :=
  map activeGrantOfRow_hook (filter keptByHook (slice1 jsonData)).

Definition hookPapers (jsonData : Sheet) : list Paper.t :=
  map (paperOfRow false) (filter keptByHook (slice1 jsonData)).

(** [result.x || []] *)
Definition orNil {A} (o : option (list A)) : list A :=
  match o with Some l => l | None => [] end.

(** one iteration of [workbook.SheetNames.forEach] in [parseExcelFile] *)
Definition parseExcelFile_sheet (result : CIRMData.t) (s : string * Sheet)
  : CIRMData.t :=
  let (sheetName, jsonData) := s in
  match parseExcelFile_sheetType sheetName with
  | grants_t =>
      CIRMData.mk (CIRMData.summary result) (CIRMData.updateDate result)
        (Some (orNil (CIRMData.grants result) ++ hookGrants jsonData))
        (CIRMData.activeGrants result) (CIRMData.papers result)
        (CIRMData.extras result)
  | activeGrants_t =>
      CIRMData.mk (CIRMData.summary result) (CIRMData.updateDate result)
        (CIRMData.grants result)
        (Some (orNil (CIRMData.activeGrants result)
               ++ hookActiveGrants jsonData))
        (CIRMData.papers result) (CIRMData.extras result)
  | papers_t =>
      CIRMData.mk (CIRMData.summary result) (CIRMData.updateDate result)
        (CIRMData.grants result) (CIRMData.activeGrants result)
        (Some (orNil (CIRMData.papers result) ++ hookPapers jsonData))
        (CIRMData.extras result)
  | unknown_t => result
  end.

(** [{ grants: [], papers: [], activeGrants: [] }] *)
Definition emptyResult : CIRMData.t :=
  CIRMData.mk None None (Some []) (Some []) (Some []) [].

(** [parseExcelFile], from the workbook [XLSX.read] returned *)
Definition parseExcelFile (workbook : Workbook) : CIRMData.t :=
  fold_left parseExcelFile_sheet workbook emptyResult.

(** *** The editor's parsers: blank rows are dropped first, then
    [rows.map(...).filter(r => r.primaryField)] *)

(** [cell !== undefined && cell !== null && cell !== ''] *)
Definition filled (c : Cell) : bool :=
  match c with
  | Undefined | Null => false
  | CStr EmptyString => false
  | _ => true
  end.

(** [jsonData.slice(1).filter(row => row.some(filled))] *)
Definition editorRows (jsonData : Sheet) : list Row :=
  filter (fun row => existsb filled row) (slice1 jsonData).

Definition editorGrants (rows : list Row) : list Grant.t :=
  filter (fun g => Str.nonEmpty (Grant.grantType g)) (mapi grantOfRow rows).

Definition editorActiveGrants (rows : list Row) : list ActiveGrant.t :=
  filter (fun ag => Str.nonEmpty (ActiveGrant.grantNumber ag))
         (map activeGrantOfRow_editor rows).

Definition editorPapers (rows : list Row) : list Paper.t :=
  filter (fun p => Str.nonEmpty (Paper.title p)) (map (paperOfRow true) rows).

(** one iteration of [workbook.SheetNames.forEach] in
    [processEditorFile], on [parsedData] *)
Definition processEditorFile_sheet (parsedData : CIRMData.t)
    (s : string * Sheet) : CIRMData.t :=
  let (sheetName, jsonData) := s in
  match jsonData with
  | [] => parsedData
  | _ =>
      let rows := editorRows jsonData in
      match detectSheetType sheetName with
      | grants_t =>
          CIRMData.mk (CIRMData.summary parsedData)
            (CIRMData.updateDate parsedData)
            (Some (orNil (CIRMData.grants parsedData) ++ editorGrants rows))
            (CIRMData.activeGrants parsedData) (CIRMData.papers parsedData)
            (CIRMData.extras parsedData)
      | activeGrants_t =>
          CIRMData.mk (CIRMData.summary parsedData)
            (CIRMData.updateDate parsedData) (CIRMData.grants parsedData)
            (Some (orNil (CIRMData.activeGrants parsedData)
                   ++ editorActiveGrants rows))
            (CIRMData.papers parsedData) (CIRMData.extras parsedData)
      | papers_t =>
          CIRMData.mk (CIRMData.summary parsedData)
            (CIRMData.updateDate parsedData) (CIRMData.grants parsedData)
            (CIRMData.activeGrants parsedData)
            (Some (orNil (CIRMData.papers parsedData) ++ editorPapers rows))
            (CIRMData.extras parsedData)
      | unknown_t => parsedData
      end
  end.

(** the [parsedData] that [processEditorFile] hands to [setEditedData] *)
Definition processEditorFile (workbook : Workbook) : CIRMData.t :=
  fold_left processEditorFile_sheet workbook emptyResult.

End Parsers.

(** ** Merge engine *)

Definition keyed (ag : ActiveGrant.t) : string * ActiveGrant.t :=
  (ActiveGrant.grantNumber ag, ag).

(** the body of [if (existing) { ... }] in [importData]: the two
    assignments to the incoming record *)
Definition detectChanges (existing ag : ActiveGrant.t) : ActiveGrant.t :=
  let ag1 :=
    if ActiveGrant.awardValue existing =? ActiveGrant.awardValue ag then ag
    else ActiveGrant.set_previousAwardValue (ActiveGrant.awardValue existing) ag in
  if String.eqb (ActiveGrant.awardStatus existing) (ActiveGrant.awardStatus ag1)
  then ag1
  else ActiveGrant.set_previousAwardStatus (ActiveGrant.awardStatus existing) ag1.

(** one iteration of [imported.activeGrants.forEach] in [importData] *)
Definition importStep (existingMap : JsMap.t ActiveGrant.t)
    (ag : ActiveGrant.t) : JsMap.t ActiveGrant.t :=
  let ag' :=
    match JsMap.get existingMap (ActiveGrant.grantNumber ag) with
    | Some existing => detectChanges existing ag
    | None => ag
    end in
  JsMap.set existingMap (ActiveGrant.grantNumber ag) ag'.

(** one iteration of [editedData.activeGrants.forEach] in
    [handleApplyChanges] *)
Definition applyStep (existingMap : JsMap.t ActiveGrant.t)
    (ag : ActiveGrant.t) : JsMap.t ActiveGrant.t :=
  JsMap.set existingMap (ActiveGrant.grantNumber ag) ag.

(** [mergedActiveGrants] of both callers; [step] is the loop body *)
Definition mergeActiveGrants
    (step : JsMap.t ActiveGrant.t -> ActiveGrant.t -> JsMap.t ActiveGrant.t)
    (existing incoming : option (list ActiveGrant.t))
  : js (option (list ActiveGrant.t)) :=
  match incoming with
  | Some ((_ :: _) as news) =>
      olds <- prop existing ;;
      Ret (Some (JsMap.values
                   (fold_left step news (JsMap.ofEntries (map keyed olds)))))
  | _ => Ret existing
  end.

(** [l.reduce((sum, x) => sum + f(x), 0)]: the additions of the code,
    from the left, starting at 0 *)
Definition reduceSum {A} (f : A -> Z) (l : list A) : Z :=
  fold_left (fun sum x => sum + f x) l 0.

Definition len {A} (l : list A) : Z := Z.of_nat (List.length l).

(** [o?.length || 0] *)
Definition lenOr0 {A} (o : option (list A)) : Z :=
  match o with Some l => len l | None => 0 end.

(** [o?.reduce((sum, x) => sum + f(x), 0) || 0] *)
Definition sumOr0 {A} (f : A -> Z) (o : option (list A)) : Z :=
  match o with Some l => reduceSum f l | None => 0 end.

(** [imported.x ? [...data.x, ...imported.x] : data.x] *)
Definition appendImported {A} (existing incoming : option (list A))
  : js (option (list A)) :=
  match incoming with
  | Some news => olds <- prop existing ;; Ret (Some (olds ++ news))
  | None => Ret existing
  end.

(** the [if (data) { ... }] branch of [importData], up to [mergedData] *)
Definition mergeImported (data imported : CIRMData.t) : js CIRMData.t :=
  mergedActiveGrants <-
    mergeActiveGrants importStep
      (CIRMData.activeGrants data) (CIRMData.activeGrants imported) ;;
  grants <- appendImported (CIRMData.grants data) (CIRMData.grants imported) ;;
  papers <- appendImported (CIRMData.papers data) (CIRMData.papers imported) ;;
  s <- prop (CIRMData.summary data) ;;
  Ret {| CIRMData.summary := Some
           {| DataSummary.totalGrants :=
                DataSummary.totalGrants s + lenOr0 (CIRMData.grants imported);
              DataSummary.totalProjects :=
                DataSummary.totalProjects s
                + sumOr0 Grant.totalAwards (CIRMData.grants imported);
              DataSummary.totalAmount :=
                DataSummary.totalAmount s
                + sumOr0 Grant.awardValue (CIRMData.grants imported);
              DataSummary.activeProjects := DataSummary.activeProjects s;
              DataSummary.totalPapers :=
                DataSummary.totalPapers s + lenOr0 (CIRMData.papers imported);
              DataSummary.activeGrants := DataSummary.activeGrants s |};
         CIRMData.updateDate := CIRMData.updateDate data;
         CIRMData.grants := grants;
         CIRMData.activeGrants := mergedActiveGrants;
         CIRMData.papers := papers;
         CIRMData.extras := CIRMData.extras data |}.

(** [a || b] on optional arrays (an array is always truthy) *)
Definition orOpt {A} (a b : option A) : option A :=
  match a with Some _ => a | None => b end.

(** [g.awardStatus !== 'Closed'] *)
Definition notClosed (g : Grant.t) : bool :=
  negb (String.eqb (Grant.awardStatus g) "Closed").

(** [newData] of [handleApplyChanges]; on an integer [g.totalAwards || 0]
    is [g.totalAwards], and likewise for [g.awardValue] *)
Definition applyChanges (data editedData : CIRMData.t) : js CIRMData.t :=
  mergedActiveGrants <-
    mergeActiveGrants applyStep
      (CIRMData.activeGrants data) (CIRMData.activeGrants editedData) ;;
  let grants := orOpt (CIRMData.grants editedData) (CIRMData.grants data) in
  let papers := orOpt (CIRMData.papers editedData) (CIRMData.papers data) in
  gs <- prop grants ;;
  ps <- prop papers ;;
  Ret {| CIRMData.summary := Some
           {| DataSummary.totalGrants := len gs;
              DataSummary.totalProjects := reduceSum Grant.totalAwards gs;
              DataSummary.totalAmount := reduceSum Grant.awardValue gs;
              DataSummary.activeProjects :=
                reduceSum Grant.totalAwards (filter notClosed gs);
              DataSummary.totalPapers := len ps;
              DataSummary.activeGrants :=
                match CIRMData.summary data with
                | Some s => DataSummary.activeGrants s
                | None => None
                end |};
         CIRMData.updateDate := CIRMData.updateDate data;
         CIRMData.grants := grants;
         CIRMData.activeGrants := mergedActiveGrants;
         CIRMData.papers := papers;
         CIRMData.extras := CIRMData.extras data |}.

(** ** The hook's state and operations *)

(** what a call reads from the clock and the random source *)
Record Env := {
  now : Z;            (* [Date.now()] *)
  random36 : string;  (* [Math.random().toString(36).substr(2, 9)] *)
  isoNow : string     (* [new Date().toISOString()] *)
}.

(** React state of [useCIRMData] and the two localStorage entries *)
Record Store := {
  data : option CIRMData.t;
  error : option Exn;
  changes : list DataChange.t;
  storedData : option CIRMData.t;              (* key ['cirm-data'] *)
  storedChanges : option (list DataChange.t)   (* key ['cirm-changes'] *)
}.

(** [setData(newData)] and [localStorage.setItem(STORAGE_KEY,
    JSON.stringify(newData))], the write going through *)
Definition saveData (newData : CIRMData.t) (st : Store) : Store :=
  {| data := Some newData;
     error := error st;
     changes := changes st;
     storedData := Some newData;
     storedChanges := storedChanges st |}.

Definition setError (e : Exn) (st : Store) : Store :=
  {| data := data st;
     error := Some e;
     changes := changes st;
     storedData := storedData st;
     storedChanges := storedChanges st |}.

(** [`${Date.now()}-${Math.random().toString(36).substr(2, 9)}`] *)
Definition makeId (env : Env) : string :=
  (decimal (now env) ++ "-" ++ random36 env)%string.

(** [{ ...change, id, timestamp }] *)
Definition newChange (env : Env) (change : ChangeDescr.t) : DataChange.t :=
  {| DataChange.id := makeId env;
     DataChange.type := ChangeDescr.type change;
     DataChange.entityType := ChangeDescr.entityType change;
     DataChange.entityId := ChangeDescr.entityId change;
     DataChange.changes := ChangeDescr.changes change;
     DataChange.timestamp := isoNow env;
     DataChange.snapshot := ChangeDescr.snapshot change |}.

Definition recordChange (env : Env) (change : ChangeDescr.t) (st : Store)
  : Store :=
  let updated := newChange env change :: changes st in
  {| data := data st;
     error := error st;
     changes := updated;
     storedData := storedData st;
     storedChanges := Some updated |}.

(** An uploaded file: its name and what each reader makes of its bytes
    ([None]: the reader throws). *)
Record File := {
  name : string;
  readArray : option Workbook;    (* [XLSX.read(arrayBuffer, { type: 'array' })] *)
  readString : option Workbook;   (* [XLSX.read(text, { type: 'string' })] *)
  parseJSON : option CIRMData.t   (* [JSON.parse(text)] *)
}.

Definition reader {A} (o : option A) : js A :=
  match o with
  | Some a => Ret a
  | None => Throw ReadError
  end.

(** [workbook.Sheets[workbook.SheetNames[0]]] through [sheet_to_json],
    which gives no rows for a missing sheet *)
Definition firstSheet (workbook : Workbook) : Sheet :=
  match workbook with
  | [] => []
  | (_, jsonData) :: _ => jsonData
  end.

(** the change descriptor of a bulk import *)
Definition importDescr (imported : CIRMData.t) : ChangeDescr.t :=
  {| ChangeDescr.type := update;
     ChangeDescr.entityType := grant;
     ChangeDescr.entityId := "bulk-import";
     ChangeDescr.changes :=
       [("imported",
         (PNull, PImportCounts (lenOr0 (CIRMData.grants imported))
                               (lenOr0 (CIRMData.papers imported))))];
     ChangeDescr.snapshot := None |}.

(** the change descriptor of [updateData] *)
Definition updateDescr (old new : Z * Z) : ChangeDescr.t :=
  {| ChangeDescr.type := update;
     ChangeDescr.entityType := grant;
     ChangeDescr.entityId := "data-editor";
     ChangeDescr.changes :=
       [("updated",
         (PTotals (fst old) (snd old), PTotals (fst new) (snd new)))];
     ChangeDescr.snapshot := None |}.

Section Hook.

Variable parseNumber : string -> number.

(** the parsing part of [importData]: [imported] *)
Definition readImported (file : File) : js CIRMData.t :=
  if (Str.endsWith ".xlsx" (name file) || Str.endsWith ".xls" (name file))%bool
  then
    workbook <- reader (readArray file) ;;
    Ret (parseExcelFile parseNumber workbook)
  else if Str.endsWith ".csv" (name file)
  then
    workbook <- reader (readString file) ;;
    Ret (CIRMData.mk None None None None
           (Some (hookPapers (firstSheet workbook))) [])
  else reader (parseJSON file).

(** [if (!imported.grants && !imported.papers) throw ...] *)
Definition validate (imported : CIRMData.t) : js unit :=
  match CIRMData.grants imported, CIRMData.papers imported with
  | None, None =>
      Throw (Error "Invalid data format: No grants or papers found")
  | _, _ => Ret tt
  end.

(** the [try] block of [importData] up to the call of [saveData]:
    the imported object and the data to save *)
Definition importData_try (st : Store) (file : File)
  : js (CIRMData.t * CIRMData.t) :=
  imported <- readImported file ;;
  _ <- validate imported ;;
  match data st with
  | Some d =>
      mergedData <- mergeImported d imported ;;
      Ret (imported, mergedData)
  | None => Ret (imported, imported)
  end.

Definition importData (env : Env) (file : File) (st : Store)
  : Store * bool :=
  match importData_try st file with
  | Ret (imported, newData) =>
      (recordChange env (importDescr imported) (saveData newData st), true)
  | Throw e => (setError e st, false)
  end.

End Hook.

(** [data?.summary.totalGrants || 0] and [data?.summary.totalPapers || 0] *)
Definition oldTotals (d : option CIRMData.t) : js (Z * Z) :=
  match d with
  | None => Ret (0, 0)
  | Some d =>
      s <- prop (CIRMData.summary d) ;;
      Ret (DataSummary.totalGrants s, DataSummary.totalPapers s)
  end.

(** [updateData]: the data is saved before the descriptor is built, so
    an exception there leaves the data saved and nothing recorded *)
Definition updateData (env : Env) (newData : CIRMData.t) (st : Store)
  : Store * option Exn :=
  let st1 := saveData newData st in
  match (old <- oldTotals (data st) ;;
         s <- prop (CIRMData.summary newData) ;;
         Ret (updateDescr old (DataSummary.totalGrants s,
                               DataSummary.totalPapers s))) with
  | Ret descr => (recordChange env descr st1, None)
  | Throw e => (st1, Some e)
  end.

(** [handleApplyChanges] of the editor, with [onUpdateData] bound to
    [updateData] as in [App] *)
Definition handleApplyChanges (env : Env) (editedData : option CIRMData.t)
    (st : Store) : Store * option Exn :=
  match editedData, data st with
  | Some e, Some d =>
      match applyChanges d e with
      | Ret newData => updateData env newData st
      | Throw ex => (st, Some ex)
      end
  | _, _ => (st, None)
  end.

(** Modelled from the spec: [rollbackChange] of the hook, which [App]
    calls ([onRollback]) and the hook's source does not define.  The entry
    is looked up by id; without an entry or without a snapshot the call
    fails; otherwise the snapshot replaces the current state and the log
    is kept. *)
Definition rollbackChange (changeId : string) (st : Store) : Store * bool :=
  match find (fun c => String.eqb (DataChange.id c) changeId) (changes st) with
  | Some c =>
      match DataChange.snapshot c with
      | Some snap =>
          (saveData
             {| CIRMData.summary := Snapshot.summary snap;
                CIRMData.updateDate :=
                  match data st with
                  | Some d => CIRMData.updateDate d
                  | None => None
                  end;
                CIRMData.grants := Snapshot.grants snap;
                CIRMData.activeGrants := Snapshot.activeGrants snap;
                CIRMData.papers := Snapshot.papers snap;
                CIRMData.extras :=
                  match data st with
                  | Some d => CIRMData.extras d
                  | None => []
                  end |} st, true)
      | None => (st, false)
      end
  | None => (st, false)
  end.

(** ** Further operations of the hook *)

(** the descriptor [addGrants] records for one grant *)
Definition addedGrantDescr (g : Grant.t) : ChangeDescr.t :=
  {| ChangeDescr.type := add;
     ChangeDescr.entityType := grant;
     ChangeDescr.entityId := Grant.grantType g;
     ChangeDescr.changes := [("added", (PNull, PGrant g))];
     ChangeDescr.snapshot := None |}.

(** the descriptor [addPapers] records for one paper *)
Definition addedPaperDescr (p : Paper.t) : ChangeDescr.t :=
  {| ChangeDescr.type := add;
     ChangeDescr.entityType := paper;
     ChangeDescr.entityId := Paper.title p;
     ChangeDescr.changes := [("added", (PNull, PPaper p))];
     ChangeDescr.snapshot := None |}.

(** [items.forEach(x => recordChange(descr(x)))]: the call for the item
    of index [i] reads the clock and the random source as [clock i] *)
Fixpoint recordEach {A} (descr : A -> ChangeDescr.t) (clock : nat -> Env)
    (i : nat) (items : list A) (st : Store) : Store :=
  match items with
  | [] => st
  | x :: xs => recordEach descr clock (S i) xs (recordChange (clock i) (descr x) st)
  end.

(** [updatedData] of [addGrants] *)
Definition addGrants_data (d : CIRMData.t) (newGrants : list Grant.t)
  : js CIRMData.t :=
  gs <- prop (CIRMData.grants d) ;;
  s <- prop (CIRMData.summary d) ;;
  Ret {| CIRMData.summary := Some
           {| DataSummary.totalGrants := DataSummary.totalGrants s + len newGrants;
              DataSummary.totalProjects :=
                DataSummary.totalProjects s + reduceSum Grant.totalAwards newGrants;
              DataSummary.totalAmount :=
                DataSummary.totalAmount s + reduceSum Grant.awardValue newGrants;
              DataSummary.activeProjects := DataSummary.activeProjects s;
              DataSummary.totalPapers := DataSummary.totalPapers s;
              DataSummary.activeGrants := DataSummary.activeGrants s |};
         CIRMData.updateDate := CIRMData.updateDate d;
         CIRMData.grants := Some (gs ++ newGrants);
         CIRMData.activeGrants := CIRMData.activeGrants d;
         CIRMData.papers := CIRMData.papers d;
         CIRMData.extras := CIRMData.extras d |}.

(** [addGrants]: nothing without a data set; an exception while the new
    data is built leaves the store as it was *)
Definition addGrants (clock : nat -> Env) (newGrants : list Grant.t)
    (st : Store) : Store * option Exn :=
  match data st with
  | None => (st, None)
  | Some d =>
      match addGrants_data d newGrants with
      | Ret updatedData =>
          (recordEach addedGrantDescr clock 0 newGrants
             (saveData updatedData st), None)
      | Throw e => (st, Some e)
      end
  end.

(** [updatedData] of [addPapers] *)
Definition addPapers_data (d : CIRMData.t) (newPapers : list Paper.t)
  : js CIRMData.t :=
  ps <- prop (CIRMData.papers d) ;;
  s <- prop (CIRMData.summary d) ;;
  Ret {| CIRMData.summary := Some
           {| DataSummary.totalGrants := DataSummary.totalGrants s;
              DataSummary.totalProjects := DataSummary.totalProjects s;
              DataSummary.totalAmount := DataSummary.totalAmount s;
              DataSummary.activeProjects := DataSummary.activeProjects s;
              DataSummary.totalPapers := DataSummary.totalPapers s + len newPapers;
              DataSummary.activeGrants := DataSummary.activeGrants s |};
         CIRMData.updateDate := CIRMData.updateDate d;
         CIRMData.grants := CIRMData.grants d;
         CIRMData.activeGrants := CIRMData.activeGrants d;
         CIRMData.papers := Some (ps ++ newPapers);
         CIRMData.extras := CIRMData.extras d |}.

Definition addPapers (clock : nat -> Env) (newPapers : list Paper.t)
    (st : Store) : Store * option Exn :=
  match data st with
  | None => (st, None)
  | Some d =>
      match addPapers_data d newPapers with
      | Ret updatedData =>
          (recordEach addedPaperDescr clock 0 newPapers
             (saveData updatedData st), None)
      | Throw e => (st, Some e)
      end
  end.

(** a filter value is in force when it is a non-empty string *)
Definition inForce (o : option string) : bool :=
  match o with
  | Some s => Str.nonEmpty s
  | None => false
  end.

(** [filters.x && v !== filters.x] *)
Definition rejects (o : option string) (v : string) : bool :=
  match o with
  | Some s => (Str.nonEmpty s && negb (String.eqb v s))%bool
  | None => false
  end.

Record GrantFilters := {
  gf_programType : option string;
  gf_status : option string;
  gf_search : option string
}.

Record PaperFilters := {
  pf_search : option string;
  pf_publication : option string;
  pf_year : option string
}.

Section Filters.

(** [s.toLowerCase()] of the JS runtime *)
Variable toLowerCase : string -> string.

(** the callback of [data.grants.filter] in [getFilteredGrants] *)
Definition grantPasses (filters : GrantFilters) (g : Grant.t) : bool :=
  if rejects (gf_programType filters) (Grant.programType g) then false
  else if rejects (gf_status filters) (Grant.awardStatus g) then false
  else if inForce (gf_search filters) then
    let search := toLowerCase (match gf_search filters with
                               | Some s => s
                               | None => EmptyString
                               end) in
    (Str.includes search (toLowerCase (Grant.grantType g))
     || Str.includes search (toLowerCase (Grant.programType g)))%bool
  else true.

Definition getFilteredGrants (filters : GrantFilters) (st : Store)
  : js (list Grant.t) :=
  match data st with
  | None => Ret []
  | Some d =>
      gs <- prop (CIRMData.grants d) ;;
      Ret (filter (grantPasses filters) gs)
  end.

(** [filters.year && paper.publishedOnline &&
    !paper.publishedOnline.startsWith(filters.year)] *)
Definition yearRejects (year : option string) (publishedOnline : option string)
  : bool :=
  match year, publishedOnline with
  | Some y, Some p =>
      (Str.nonEmpty y && Str.nonEmpty p && negb (Str.startsWith y p))%bool
  | _, _ => false
  end.

(** [filters.publication && !paper.publication.includes(filters.publication)] *)
Definition publicationRejects (o : option string) (publication : string)
  : bool :=
  match o with
  | Some s => (Str.nonEmpty s && negb (Str.includes s publication))%bool
  | None => false
  end.

(** the callback of [data.papers.filter] in [getFilteredPapers] *)
Definition paperPasses (filters : PaperFilters) (p : Paper.t) : bool :=
  if publicationRejects (pf_publication filters) (Paper.publication p) then false
  else if yearRejects (pf_year filters) (Paper.publishedOnline p) then false
  else if inForce (pf_search filters) then
    let search := toLowerCase (match pf_search filters with
                               | Some s => s
                               | None => EmptyString
                               end) in
    (Str.includes search (toLowerCase (Paper.title p))
     || Str.includes search (toLowerCase (Paper.authors p))
     || Str.includes search (toLowerCase (Paper.grantNumber p)))%bool
  else true.

Definition getFilteredPapers (filters : PaperFilters) (st : Store)
  : js (list Paper.t) :=
  match data st with
  | None => Ret []
  | Some d =>
      ps <- prop (CIRMData.papers d) ;;
      Ret (filter (paperPasses filters) ps)
  end.

End Filters.

(** ** The change marks of the grants view *)

(** [x !== false] on an optional flag *)
Definition notFalse (o : option bool) : bool :=
  match o with
  | Some false => false
  | _ => true
  end.

(** [isStatusChanged] of a project row: [project.showStatusChange !==
    false && project.previousAwardStatus && project.previousAwardStatus
    !== 'Closed' && project.awardStatus === 'Closed'] *)
Definition isStatusChanged (project : ActiveGrant.t) : bool :=
  (notFalse (ActiveGrant.showStatusChange project)
   && match ActiveGrant.previousAwardStatus project with
      | Some s => Str.nonEmpty s && negb (String.eqb s "Closed")
      | None => false
      end
   && String.eqb (ActiveGrant.awardStatus project) "Closed")%bool.

(** [hasValueChange] of a project row: [project.showValueChange !== false
    && previousValue !== undefined && previousValue !== null] *)
Definition hasValueChange (project : ActiveGrant.t) : bool :=
  (notFalse (ActiveGrant.showValueChange project)
   && match ActiveGrant.previousAwardValue project with
      | Some _ => true
      | None => false
      end)%bool.

(** ** The editor's template and upload gate *)

(** [g.notes || ''] *)
Definition notesOrEmpty (o : option string) : string :=
  match o with
  | Some s => s
  | None => EmptyString
  end.

(** [grantsHeaders] of [handleDownloadTemplate] *)
Definition grantsHeaders : Row :=
  [CStr "Program Type"; CStr "Grant Type"; CStr "ICOC Approval";
   CStr "Total Awards"; CStr "Award Value"; CStr "Award Status"; CStr "Notes"].

(** one row of [grantsData] *)
Definition templateGrantRow (g : Grant.t) : Row :=
  [CStr (Grant.programType g); CStr (Grant.grantType g);
   CStr (Grant.icocApproval g); CNum (Grant.totalAwards g);
   CNum (Grant.awardValue g); CStr (Grant.awardStatus g);
   CStr (notesOrEmpty (Grant.notes g))].

(** [[grantsHeaders, ...grantsData]], the rows handed to [aoa_to_sheet]
    for the sheet named Grants *)
Definition templateGrantsSheet (gs : list Grant.t) : Sheet :=
  grantsHeaders :: map templateGrantRow gs.

(** [validTypes] of [handleImportFileUpload] *)
Definition validTypes : list string :=
  ["application/json";
   "application/vnd.openxmlformats-officedocument.spreadsheetml.sheet";
   "text/csv"].

(** whether [handleImportFileUpload] goes on to call [onImport], from the
    file's [type] and [name] *)
Definition uploadAccepted (type_ name_ : string) : bool :=
  negb (negb (existsb (String.eqb type_) validTypes)
        && negb (Str.endsWith ".json" name_)
        && negb (Str.endsWith ".xlsx" name_)
        && negb (Str.endsWith ".csv" name_))%bool.

(** ** The Basic-authentication middleware *)

Module BasicAuth.

(** [s.split(sep)] for a one-character separator *)
Fixpoint split (sep : ascii) (s : string) : list string :=
  match s with
  | EmptyString => [EmptyString]
  | String c s' =>
      if Ascii.eqb c sep then EmptyString :: split sep s'
      else match split sep s' with
           | h :: t => String c h :: t
           | [] => [String c EmptyString]
           end
  end.

(** what [onRequest] returns: the result of [next()], a 401 response
    with its body and whether it carries the [WWW-Authenticate]
    challenge, or the exception of [atob] let through *)
Inductive Outcome :=
| Next
| Unauthorized (body : string) (challenge : bool)
| Throws.

Definition VALID_USERNAME : string := "admin".
Definition VALID_PASSWORD : string := "cirm2026".

(** the element of index [i] of a destructured array, [undefined] past
    the end *)
Definition field (i : nat) (l : list string) : option string := nth_error l i.

(** [x !== v] where [x] may be [undefined] *)
Definition differs (x : option string) (v : string) : bool :=
  match x with
  | Some s => negb (String.eqb s v)
  | None => true
  end.

Section WithAtob.

(** [atob] of the runtime; [None] when it throws *)
Variable atob : string -> option string.

(** [onRequest], from the value of [request.headers.get('Authorization')] *)
Definition onRequest (auth : option string) : Outcome :=
  if negb (inForce auth) then Unauthorized "Authentication required" true
  else
    let parts := split " "%char (match auth with
                                 | Some a => a
                                 | None => EmptyString
                                 end) in
    let scheme := field 0 parts in
    let encoded := field 1 parts in
    if (negb (inForce encoded) || differs scheme "Basic")%bool
    then Unauthorized "Invalid authentication" false
    else
      match atob (match encoded with
                  | Some e => e
                  | None => EmptyString
                  end) with
      | None => Throws
      | Some decoded =>
          let creds := split ":"%char decoded in
          if (differs (field 0 creds) VALID_USERNAME
              || differs (field 1 creds) VALID_PASSWORD)%bool
          then Unauthorized "Invalid credentials" true
          else Next
      end.

End WithAtob.

End BasicAuth.

(** ** Vocabulary of the statements *)

(** the record of an array filed under a grant number (the first one) *)
Definition recordOf (k : string) (l : list ActiveGrant.t)
  : option ActiveGrant.t :=
  find (fun x => String.eqb (ActiveGrant.grantNumber x) k) l.

(** the last record of an array filed under a grant number: the one a
    [Map] built from the array keeps *)
Definition lastRecordOf (k : string) (l : list ActiveGrant.t)
  : option ActiveGrant.t :=
  recordOf k (rev l).

Definition grantNumbersOf (l : list ActiveGrant.t) : list string :=
  map ActiveGrant.grantNumber l.

(** a record without its two change-tracking values *)
Definition eraseHistory (ag : ActiveGrant.t) : ActiveGrant.t :=
  ActiveGrant.mk
    (ActiveGrant.grantNumber ag) (ActiveGrant.programType ag)
    (ActiveGrant.grantType ag) (ActiveGrant.grantTitle ag)
    (ActiveGrant.diseaseFocus ag) (ActiveGrant.principalInvestigator ag)
    (ActiveGrant.awardValue ag) (ActiveGrant.icocApproval ag)
    (ActiveGrant.awardStatus ag) (ActiveGrant.sortOrder ag)
    (ActiveGrant.isNew ag) None None
    (ActiveGrant.showValueChange ag) (ActiveGrant.showStatusChange ag)
    (ActiveGrant.detailUrl ag).

(** every entry of the map is filed under its own grant number *)
Definition Keyed (m : JsMap.t ActiveGrant.t) : Prop :=
  forall k v, In (k, v) m -> ActiveGrant.grantNumber v = k.

(** the value [importStep] files under the key of [ag] *)
Definition importValue (m : JsMap.t ActiveGrant.t) (ag : ActiveGrant.t)
  : ActiveGrant.t :=
  match JsMap.get m (ActiveGrant.grantNumber ag) with
  | Some existing => detectChanges existing ag
  | None => ag
  end.

(** the four totals of a summary are those of the arrays *)
Definition totalsAgree (s : DataSummary.t) (gs : list Grant.t)
    (ps : list Paper.t) : Prop :=
  DataSummary.totalGrants s = len gs /\
  DataSummary.totalPapers s = len ps /\
  DataSummary.totalProjects s = reduceSum Grant.totalAwards gs /\
  DataSummary.totalAmount s = reduceSum Grant.awardValue gs.


(** no character of the string is a hyphen *)
Fixpoint noHyphen (s : string) : bool :=
  match s with
  | EmptyString => true
  | String c s' => (negb (Ascii.eqb c "-"%char) && noHyphen s')%bool
  end.

(** the ids of a change log *)
Definition idsOf (l : list DataChange.t) : list string := map DataChange.id l.

(** ** Vocabulary of the further statements *)

(** no entry of the log carries a snapshot *)
Definition noSnapshot (l : list DataChange.t) : Prop :=
  Forall (fun c => DataChange.snapshot c = None) l.

(** what an operation does to the log: entries without a snapshot are
    put in front of it *)
Definition Extends (st st' : Store) : Prop :=
  exists added, changes st' = added ++ changes st /\ noSnapshot added.

(** a grant as it comes back from the template: renumbered from its
    position, empty notes dropped, never new *)
Definition reparsedGrant (g : Grant.t) (idx : Z) : Grant.t :=
  Grant.mk (idx + 1) (Grant.programType g) (Grant.grantType g)
    (Grant.icocApproval g) (Grant.totalAwards g) (Grant.awardValue g)
    (Grant.awardStatus g)
    (match Grant.notes g with
     | Some n => if Str.nonEmpty n then Some n else None
     | None => None
     end)
    false.

(** some character of the string satisfies [p] *)
Fixpoint anyChar (p : ascii -> bool) (s : string) : bool :=
  match s with
  | EmptyString => false
  | String c s' => (p c || anyChar p s')%bool
  end.

(** the last character of a string *)
Fixpoint lastChar (s : string) : option ascii :=
  match s with
  | EmptyString => None
  | String c EmptyString => Some c
  | String _ s' => lastChar s'
  end.

(** a paper filter without its year *)
Definition withoutYear (f : PaperFilters) : PaperFilters :=
  {| pf_search := pf_search f;
     pf_publication := pf_publication f;
     pf_year := None |}.

(** the string has no occurrence of the character *)
Fixpoint lacks (c : ascii) (s : string) : bool :=
  match s with
  | EmptyString => true
  | String x s' => (negb (Ascii.eqb x c) && lacks c s')%bool
  end.

(** a string that is empty or begins with the character *)
Definition emptyOrFrom (c : ascii) (s : string) : bool :=
  match s with
  | EmptyString => true
  | String x _ => Ascii.eqb x c
  end.

(** an import that carries grants only, papers only *)
Definition grantsOnly (gs : list Grant.t) : CIRMData.t :=
  CIRMData.mk None None (Some gs) None None [].

Definition papersOnly (ps : list Paper.t) : CIRMData.t :=
  CIRMData.mk None None None None (Some ps) [].

(** one call of an operation of the hook or of the editor's apply *)
Inductive HookStep (parseNumber : string -> number) : Store -> Store -> Prop :=
| step_importData env file st :
    HookStep parseNumber st (fst (importData parseNumber env file st))
| step_updateData env newData st :
    HookStep parseNumber st (fst (updateData env newData st))
| step_handleApplyChanges env editedData st :
    HookStep parseNumber st (fst (handleApplyChanges env editedData st))
| step_addGrants clock newGrants st :
    HookStep parseNumber st (fst (addGrants clock newGrants st))
| step_addPapers clock newPapers st :
    HookStep parseNumber st (fst (addPapers clock newPapers st)).

(** any number of calls, one after the other *)
Inductive HookRun (parseNumber : string -> number) : Store -> Store -> Prop :=
| run_nil st : HookRun parseNumber st st
| run_step st st1 st2 :
    HookRun parseNumber st st1 ->
    HookStep parseNumber st1 st2 ->
    HookRun parseNumber st st2.

(** the three extensions that [importData] reads as a spreadsheet *)
Definition isSpreadsheetName (n : string) : bool :=
  (Str.endsWith ".xlsx" n || Str.endsWith ".xls" n || Str.endsWith ".csv" n)%bool.

(** ** Sample data for the concrete cases *)

Module Sample.

(** a string-to-number conversion that knows no numeral: the samples
    keep their numbers in numeric cells *)
Definition noNumber : string -> number := fun _ => NaN.

Definition env0 : Env :=
  {| now := 1700000000000;
     random36 := "k3j9x0q1z";
     isoNow := "2023-11-14T22:13:20.000Z" |}.

Definition grant (i : Z) (ty : string) (awards value : Z) (status : string)
  : Grant.t :=
  Grant.mk i "Discovery" ty "2024-01-01" awards value status None false.

Definition activeGrant (num : string) (value : Z) (status : string)
    (prevValue : option number) : ActiveGrant.t :=
  ActiveGrant.mk num "Discovery" "DISC 1" "Title A" None "PI A" value
    (Some "2024-01-01") status None (Some false) prevValue None
    (Some true) (Some true) None.

Definition summary0 : DataSummary.t :=
  DataSummary.mk 1 2 100 2 0 (Some 1).

(** a data set whose summary agrees with its arrays *)
Definition data0 : CIRMData.t :=
  CIRMData.mk (Some summary0) (Some "2024-06-01")
    (Some [grant 1 "DISC 1" 2 100 "Active"])
    (Some [activeGrant "DISC1-999" 1000000 "Active" None])
    (Some []) [].

(** an import of one more grant category, three awards, all active *)
Definition importGrant : CIRMData.t :=
  CIRMData.mk None None (Some [grant 1 "DISC 2" 3 50 "Active"])
    (Some []) (Some []) [].

Definition importActive (l : list ActiveGrant.t) : CIRMData.t :=
  CIRMData.mk None None (Some []) (Some l) (Some []) [].

(** a data set with two projects *)
Definition data2 : CIRMData.t :=
  CIRMData.mk (Some summary0) (Some "2024-06-01")
    (Some [grant 1 "DISC 1" 2 100 "Active"])
    (Some [activeGrant "DISC1-999" 1000000 "Active" None;
           activeGrant "DISC2-111" 500000 "Active" None])
    (Some []) [].

(** the re-import of the scenario: new value, now Closed *)
Definition reimported : ActiveGrant.t :=
  activeGrant "DISC1-999" 1200000 "Closed" None.

(** an import that carries DISC2-111 with its value unchanged and an
    earlier previous value (as an exported data set does), and
    DISC1-999 twice, the second time with the value the data set has *)
Definition importTwice : CIRMData.t :=
  importActive
    [activeGrant "DISC2-111" 500000 "Active" (Some (Fin 400000));
     activeGrant "DISC1-999" 1200000 "Active" None;
     activeGrant "DISC1-999" 1000000 "Active" None].

(** an import that moves DISC1-999 from Active to Terminated *)
Definition importTerminated : CIRMData.t :=
  importActive [activeGrant "DISC1-999" 1000000 "Terminated" None].

Definition descr0 : ChangeDescr.t := updateDescr (1, 0) (2, 0).

Definition store0 : Store :=
  {| data := Some data0; error := None; changes := [];
     storedData := Some data0; storedChanges := None |}.

(** the store before any data set was loaded *)
Definition emptyStore : Store :=
  {| data := None; error := None; changes := [];
     storedData := None; storedChanges := None |}.

(** the state before an edit, as an entry of the log keeps it *)
Definition snapshot0 : Snapshot.t :=
  {| Snapshot.grants := Some [grant 1 "DISC 1" 2 100 "Active"];
     Snapshot.activeGrants :=
       Some [activeGrant "DISC1-999" 1000000 "Active" None];
     Snapshot.papers := Some [];
     Snapshot.summary := Some summary0 |}.

(** an earlier moment *)
Definition env1 : Env :=
  {| now := 1690000000000;
     random36 := "a1b2c3d4e";
     isoNow := "2023-07-22T04:26:40.000Z" |}.

(** the entry with a snapshot attached *)
Definition withSnapshot (c : DataChange.t) (snap : Snapshot.t)
  : DataChange.t :=
  DataChange.mk (DataChange.id c) (DataChange.type c)
    (DataChange.entityType c) (DataChange.entityId c)
    (DataChange.changes c) (DataChange.timestamp c) (Some snap).

(** a store as the hook loads it from storage: the data set after an
    edit, and a log of two entries, the older one with the snapshot
    taken before the edit, the newer one without *)
Definition loadedStore : Store :=
  {| data := Some data2; error := None;
     changes :=
       [newChange env0 (importDescr importGrant);
        withSnapshot (newChange env1 (updateDescr (1, 0) (1, 0))) snapshot0];
     storedData := Some data2;
     storedChanges :=
       Some [newChange env0 (importDescr importGrant);
             withSnapshot (newChange env1 (updateDescr (1, 0) (1, 0)))
               snapshot0] |}.

(** a store whose data set has no summary, as a first import of a
    workbook leaves it *)
Definition dataNoSummary : CIRMData.t :=
  CIRMData.mk None None
    (Some [grant 1 "DISC 1" 2 100 "Active"])
    (Some [activeGrant "DISC1-999" 1000000 "Active" None])
    (Some []) [].

Definition storeNoSummary : Store :=
  {| data := Some dataNoSummary; error := None; changes := [];
     storedData := Some dataNoSummary; storedChanges := None |}.

Definition paperSheet : Sheet :=
  [ [CStr "Title"; CStr "Research Topic"];
    [CStr "A paper"; CStr "Stem cells"] ].

(** the active-grant sheet of the template the editor exports, with
    one project row *)
Definition activeGrantSheet : Sheet :=
  [ [CStr "Grant Number"; CStr "Program Type"; CStr "Grant Type";
     CStr "Grant Title"; CStr "Disease Focus";
     CStr "Principal Investigator"; CStr "Award Value";
     CStr "ICOC Approval"; CStr "Award Status"; CStr "Sort Order"];
    [CStr "DISC1-999"; CStr "Discovery"; CStr "DISC 1"; CStr "Title A";
     Undefined; CStr "PI A"; CNum 1000000; CStr "2024-01-01";
     CStr "Active"; CNum 1; CStr "TRUE"; CStr "FALSE"; CStr "FALSE"] ].


Definition xlsxFile (n : string) (wb : Workbook) : File :=
  {| name := n; readArray := Some wb; readString := None; parseJSON := None |}.

Definition jsonFile (n : string) (d : CIRMData.t) : File :=
  {| name := n; readArray := None; readString := None; parseJSON := Some d |}.

(** a JSON object with neither grants nor papers *)
Definition emptyImport : CIRMData.t :=
  CIRMData.mk None (Some "2024-06-01") None None None [].

End Sample.

(** ** Sample data for the further cases *)

Module Sample2.

Definition clock0 : nat -> Env := fun _ => Sample.env0.

Definition paper (title_ : string) (published : option string) : Paper.t :=
  Paper.mk title_ "Stem cells" "A. Author; B. Author" "Cell" published None
    "DISC1-999" ["DISC1-999"] "DISC 1" "Discovery" "Title A" "Active".

(** a data set with a dated and an undated paper *)
Definition dataPapers : CIRMData.t :=
  CIRMData.mk (Some (DataSummary.mk 1 2 100 2 2 (Some 1))) (Some "2024-06-01")
    (Some [Sample.grant 1 "DISC 1" 2 100 "Active"])
    (Some [Sample.activeGrant "DISC1-999" 1000000 "Active" None])
    (Some [paper "Dated" (Some "2023-05-01"); paper "Undated" None]) [].

Definition storePapers : Store :=
  {| data := Some dataPapers; error := None; changes := [];
     storedData := Some dataPapers; storedChanges := None |}.

Definition noFilters : GrantFilters :=
  {| gf_programType := None; gf_status := Some EmptyString; gf_search := None |}.

Definition year2024 : PaperFilters :=
  {| pf_search := None; pf_publication := None; pf_year := Some "2024" |}.

(** the identity stands in for [toLowerCase] on the samples *)
Definition sameCase : string -> string := fun s => s.

(** a workbook with the one sheet of the import template the page
    offers for download *)
Definition activeOnlyWorkbook : Workbook :=
  [("进行中项目", Sample.activeGrantSheet)].

Definition xlsFile : File :=
  {| name := "legacy.xls"; readArray := Some []; readString := None;
     parseJSON := None |}.

(** an [atob] that knows the one token of the samples *)
Definition atob0 (s : string) : option string :=
  if String.eqb s "YWRtaW46Y2lybTIwMjY=" then Some "admin:cirm2026" else None.

Definition csvFile : File :=
  {| name := "papers.csv"; readArray := None;
     readString := Some [("Sheet1", Sample.paperSheet)]; parseJSON := None |}.

End Sample2.

(** * Properties *)

(** ** The insertion-ordered map *)

Module JsMapFacts.
Import JsMap.

Section WithValue.
Variable V : Type.
Implicit Types (m : t V) (k : string) (v : V).

Lemma get_set_same m k v : get (set m k v) k = Some v.
Proof.
  induction m as [|[k' v'] m IH]; simpl.
  - now rewrite String.eqb_refl.
  - destruct (String.eqb k' k) eqn:E; simpl; rewrite E; auto.
Qed.

Lemma get_set_other m k k' v : k <> k' -> get (set m k v) k' = get m k'.
Proof.
  intros Hne.
  induction m as [|[k0 v0] m IH]; simpl.
  - destruct (String.eqb k k') eqn:E; auto.
    apply String.eqb_eq in E. contradiction.
  - destruct (String.eqb k0 k) eqn:E; simpl.
    + apply String.eqb_eq in E. subst k0.
      destruct (String.eqb k k') eqn:E'; auto.
      apply String.eqb_eq in E'. contradiction.
    + now rewrite IH.
Qed.

Lemma get_None_keys m k : get m k = None <-> ~ In k (keys m).
Proof.
  induction m as [|[k0 v0] m IH]; simpl.
  - tauto.
  - destruct (String.eqb k0 k) eqn:E.
    + apply String.eqb_eq in E. split; [discriminate | tauto].
    + apply String.eqb_neq in E. tauto.
Qed.

Lemma keys_set_in m k v : In k (keys m) -> keys (set m k v) = keys m.
Proof.
  induction m as [|[k0 v0] m IH]; simpl; [tauto|].
  intros H. destruct (String.eqb k0 k) eqn:E; simpl; auto.
  apply String.eqb_neq in E. f_equal. apply IH. tauto.
Qed.

Lemma keys_set_notin m k v :
  ~ In k (keys m) -> keys (set m k v) = keys m ++ [k].
Proof.
  induction m as [|[k0 v0] m IH]; simpl; auto.
  intros H. destruct (String.eqb k0 k) eqn:E; simpl.
  - apply String.eqb_eq in E. tauto.
  - f_equal. apply IH. tauto.
Qed.

Lemma NoDup_keys_set m k v : NoDup (keys m) -> NoDup (keys (set m k v)).
Proof.
  intros Hnd.
  destruct (in_dec string_dec k (keys m)) as [Hin|Hout].
  - now rewrite keys_set_in.
  - rewrite keys_set_notin by assumption.
    apply NoDup_app; auto.
    + repeat constructor. simpl. tauto.
    + intros x Hx [<-|[]]. contradiction.
Qed.

Lemma In_set m k v k' v' :
  In (k', v') (set m k v) -> (k' = k /\ v' = v) \/ In (k', v') m.
Proof.
  induction m as [|[k0 v0] m IH]; simpl.
  - intros [H|[]]. injection H as <- <-. auto.
  - destruct (String.eqb k0 k) eqn:E; simpl.
    + apply String.eqb_eq in E. subst k0.
      intros [H|H]; [injection H as <- <-|]; auto.
    + intros [H|H]; auto. destruct (IH H); auto.
Qed.

(** a fold of [set]s keeps the keys distinct *)
Lemma NoDup_keys_fold {A} (key : A -> string) (val : t V -> A -> V)
    (l : list A) m :
  NoDup (keys m) ->
  NoDup (keys (fold_left (fun m a => set m (key a) (val m a)) l m)).
Proof.
  revert m. induction l as [|a l IH]; simpl; intros m H; auto.
  apply IH. now apply NoDup_keys_set.
Qed.

Lemma NoDup_keys_ofEntries (entries : list (string * V)) :
  NoDup (keys (ofEntries entries)).
Proof.
  unfold ofEntries.
  apply (NoDup_keys_fold (@fst string V) (fun _ kv => snd kv)).
  constructor.
Qed.

(** a step that writes another key leaves [k] alone *)
Lemma get_fold_other {A} (key : A -> string) (val : t V -> A -> V)
    (l : list A) m k :
  ~ In k (map key l) ->
  get (fold_left (fun m a => set m (key a) (val m a)) l m) k = get m k.
Proof.
  revert m. induction l as [|a l IH]; simpl; intros m H; auto.
  rewrite IH by tauto. apply get_set_other. tauto.
Qed.

End WithValue.
End JsMapFacts.

(** ** Merging active grants through the map *)

Section MergeFacts.
Import JsMap JsMapFacts.

Implicit Types (m : JsMap.t ActiveGrant.t) (ag : ActiveGrant.t).

Lemma detectChanges_grantNumber existing ag :
  ActiveGrant.grantNumber (detectChanges existing ag)
  = ActiveGrant.grantNumber ag.
Proof.
  unfold detectChanges.
  destruct (_ =? _); destruct (String.eqb _ _); reflexivity.
Qed.

Lemma eraseHistory_detectChanges existing ag :
  eraseHistory (detectChanges existing ag) = eraseHistory ag.
Proof.
  unfold detectChanges.
  destruct (_ =? _); destruct (String.eqb _ _); reflexivity.
Qed.

Lemma importStep_eq :
  importStep = fun m ag => set m (ActiveGrant.grantNumber ag) (importValue m ag).
Proof. reflexivity. Qed.

Lemma applyStep_eq :
  applyStep = fun m ag => set m (ActiveGrant.grantNumber ag) ((fun _ a => a) m ag).
Proof. reflexivity. Qed.

Lemma importValue_grantNumber m ag :
  ActiveGrant.grantNumber (importValue m ag) = ActiveGrant.grantNumber ag.
Proof.
  unfold importValue. destruct (get _ _); auto using detectChanges_grantNumber.
Qed.

Lemma Keyed_set m k ag :
  Keyed m -> ActiveGrant.grantNumber ag = k -> Keyed (set m k ag).
Proof.
  intros Hm Hk k' v' Hin.
  destruct (In_set _ _ _ _ _ Hin) as [[-> ->]|H]; auto.
Qed.

Lemma Keyed_fold (val : JsMap.t ActiveGrant.t -> ActiveGrant.t -> ActiveGrant.t)
    (l : list ActiveGrant.t) m :
  (forall m a, ActiveGrant.grantNumber (val m a) = ActiveGrant.grantNumber a) ->
  Keyed m ->
  Keyed (fold_left (fun m a => set m (ActiveGrant.grantNumber a) (val m a)) l m).
Proof.
  intros Hval. revert m.
  induction l as [|a l IH]; simpl; intros m Hm; auto.
  apply IH. apply Keyed_set; auto.
Qed.

Lemma ofEntries_keyed olds :
  ofEntries (map keyed olds)
  = fold_left (fun m a => set m (ActiveGrant.grantNumber a) ((fun _ a => a) m a))
              olds [].
Proof.
  unfold ofEntries. generalize (@nil (string * ActiveGrant.t)).
  induction olds as [|a l IH]; simpl; intros m; auto.
Qed.

Lemma Keyed_ofEntries olds : Keyed (ofEntries (map keyed olds)).
Proof.
  rewrite ofEntries_keyed. apply Keyed_fold; auto.
  intros k v [].
Qed.

Lemma values_grantNumbers m : Keyed m -> grantNumbersOf (values m) = keys m.
Proof.
  unfold grantNumbersOf, values, keys.
  induction m as [|[k v] m IH]; simpl; intros Hm; auto.
  f_equal.
  - apply Hm. now left.
  - apply IH. intros k' v' H. apply Hm. now right.
Qed.

Lemma recordOf_values m k : Keyed m -> recordOf k (values m) = get m k.
Proof.
  unfold recordOf, values.
  induction m as [|[k0 v] m IH]; simpl; intros Hm; auto.
  rewrite (Hm k0 v) by now left.
  destruct (String.eqb k0 k); auto.
  apply IH. intros k' v' H. apply Hm. now right.
Qed.

Lemma recordOf_app k l1 l2 :
  recordOf k (l1 ++ l2)
  = match recordOf k l1 with
    | Some v => Some v
    | None => recordOf k l2
    end.
Proof.
  unfold recordOf. induction l1 as [|a l1 IH]; simpl; auto.
  destruct (String.eqb _ _); auto.
Qed.

Lemma recordOf_None k l : recordOf k l = None <-> ~ In k (grantNumbersOf l).
Proof.
  unfold recordOf, grantNumbersOf.
  induction l as [|a l IH]; simpl; [tauto|].
  destruct (String.eqb _ _) eqn:E.
  - apply String.eqb_eq in E. split; [discriminate | tauto].
  - apply String.eqb_neq in E. tauto.
Qed.

Lemma recordOf_Some k l v :
  recordOf k l = Some v -> In v l /\ ActiveGrant.grantNumber v = k.
Proof.
  unfold recordOf. intros H. apply find_some in H.
  destruct H as [H1 H2]. apply String.eqb_eq in H2. auto.
Qed.

(** in an array with one record per grant number, the last record of a
    number is the record of that number *)
Lemma lastRecordOf_unique l existing :
  NoDup (grantNumbersOf l) ->
  In existing l ->
  lastRecordOf (ActiveGrant.grantNumber existing) l = Some existing.
Proof.
  intros Hnd Hin. unfold lastRecordOf.
  destruct (recordOf (ActiveGrant.grantNumber existing) (rev l)) as [v|] eqn:E.
  - apply recordOf_Some in E. destruct E as [Hv Hk].
    apply in_rev in Hv. f_equal.
    clear -Hnd Hin Hv Hk. unfold grantNumbersOf in Hnd.
    induction l as [|a l IH]; simpl in *; [contradiction|].
    inversion Hnd as [|x xs Hout Hnd']; subst.
    destruct Hin as [->|Hin], Hv as [->|Hv]; auto.
    + exfalso. apply Hout. rewrite <- Hk. now apply in_map.
    + exfalso. apply Hout. rewrite Hk. now apply in_map.
  - apply recordOf_None in E. exfalso. apply E.
    unfold grantNumbersOf. apply in_map. now apply in_rev in Hin.
Qed.

(** a [Map] built from an array keeps, for each key, the last record *)
Lemma get_fold_keyed olds m k :
  get (fold_left (fun m a => set m (ActiveGrant.grantNumber a) a) olds m) k
  = match lastRecordOf k olds with
    | Some v => Some v
    | None => get m k
    end.
Proof.
  unfold lastRecordOf. revert m.
  induction olds as [|a l IH]; simpl; intros m; auto.
  rewrite IH, recordOf_app.
  destruct (recordOf k (rev l)); auto.
  unfold recordOf. simpl.
  destruct (String.eqb (ActiveGrant.grantNumber a) k) eqn:E.
  - apply String.eqb_eq in E. subst k. apply get_set_same.
  - apply String.eqb_neq in E. now apply get_set_other.
Qed.

Lemma get_ofEntries olds k :
  get (ofEntries (map keyed olds)) k = lastRecordOf k olds.
Proof.
  rewrite ofEntries_keyed.
  change (fun m a => set m (ActiveGrant.grantNumber a) ((fun _ a0 => a0) m a))
    with (fun (m : JsMap.t ActiveGrant.t) a => set m (ActiveGrant.grantNumber a) a).
  rewrite get_fold_keyed. simpl. now destruct (lastRecordOf k olds).
Qed.

(** what the import loop leaves under the key of a record that no later
    record of the import shares *)
Lemma get_fold_importStep pre ag post m :
  ~ In (ActiveGrant.grantNumber ag) (grantNumbersOf post) ->
  get (fold_left importStep (pre ++ ag :: post) m) (ActiveGrant.grantNumber ag)
  = Some (importValue (fold_left importStep pre m) ag).
Proof.
  intros Hpost. rewrite fold_left_app. simpl.
  rewrite importStep_eq at 1.
  rewrite (get_fold_other ActiveGrant.grantNumber importValue) by exact Hpost.
  apply get_set_same.
Qed.

Lemma get_fold_importStep_other l m k :
  ~ In k (grantNumbersOf l) -> get (fold_left importStep l m) k = get m k.
Proof.
  intros H. rewrite importStep_eq.
  now apply (get_fold_other ActiveGrant.grantNumber importValue).
Qed.

Lemma get_fold_applyStep pre ag post m :
  ~ In (ActiveGrant.grantNumber ag) (grantNumbersOf post) ->
  get (fold_left applyStep (pre ++ ag :: post) m) (ActiveGrant.grantNumber ag)
  = Some ag.
Proof.
  intros Hpost. rewrite fold_left_app. simpl.
  rewrite applyStep_eq at 1.
  rewrite (get_fold_other ActiveGrant.grantNumber (fun _ a => a)) by exact Hpost.
  apply get_set_same.
Qed.

Lemma Keyed_fold_importStep l m : Keyed m -> Keyed (fold_left importStep l m).
Proof.
  rewrite importStep_eq. apply Keyed_fold. apply importValue_grantNumber.
Qed.

Lemma Keyed_fold_applyStep l m : Keyed m -> Keyed (fold_left applyStep l m).
Proof. rewrite applyStep_eq. apply Keyed_fold. reflexivity. Qed.

Lemma NoDup_fold_importStep l m :
  NoDup (keys m) -> NoDup (keys (fold_left importStep l m)).
Proof.
  rewrite importStep_eq.
  apply (NoDup_keys_fold ActiveGrant.grantNumber importValue).
Qed.

Lemma NoDup_fold_applyStep l m :
  NoDup (keys m) -> NoDup (keys (fold_left applyStep l m)).
Proof.
  rewrite applyStep_eq.
  apply (NoDup_keys_fold ActiveGrant.grantNumber (fun _ a => a)).
Qed.

End MergeFacts.

(** ** The merge of [importData] and of [handleApplyChanges] *)

Section MergeTheorems.
Import JsMap JsMapFacts.

Lemma mergeActiveGrants_inv step olds incoming r :
  mergeActiveGrants step (Some olds) incoming = Ret r ->
  (exists a news, incoming = Some (a :: news) /\
     r = Some (values (fold_left step (a :: news) (ofEntries (map keyed olds)))))
  \/ ((incoming = None \/ incoming = Some []) /\ r = Some olds).
Proof.
  unfold mergeActiveGrants.
  destruct incoming as [[|a news]|]; cbn [bind prop]; intros H; injection H as <-.
  - right. auto.
  - left. exists a, news. auto.
  - right. auto.
Qed.

Lemma mergeImported_activeGrants d x y :
  mergeImported d x = Ret y ->
  mergeActiveGrants importStep (CIRMData.activeGrants d) (CIRMData.activeGrants x)
  = Ret (CIRMData.activeGrants y).
Proof.
  unfold mergeImported.
  destruct (mergeActiveGrants _ _ _) as [ags|]; simpl; [|discriminate].
  destruct (appendImported (CIRMData.grants d) _); simpl; [|discriminate].
  destruct (appendImported (CIRMData.papers d) _); simpl; [|discriminate].
  destruct (CIRMData.summary d); simpl; [|discriminate].
  intros H. injection H as <-. reflexivity.
Qed.

Lemma applyChanges_activeGrants d x y :
  applyChanges d x = Ret y ->
  mergeActiveGrants applyStep (CIRMData.activeGrants d) (CIRMData.activeGrants x)
  = Ret (CIRMData.activeGrants y).
Proof.
  unfold applyChanges.
  destruct (mergeActiveGrants _ _ _) as [ags|]; simpl; [|discriminate].
  destruct (orOpt (CIRMData.grants x) _); simpl; [|discriminate].
  destruct (orOpt (CIRMData.papers x) _); simpl; [|discriminate].
  intros H. injection H as <-. reflexivity.
Qed.

Lemma once_split (news : list ActiveGrant.t) ag :
  In ag news ->
  count_occ string_dec (grantNumbersOf news) (ActiveGrant.grantNumber ag) = 1%nat ->
  exists pre post,
    news = pre ++ ag :: post /\
    ~ In (ActiveGrant.grantNumber ag) (grantNumbersOf pre) /\
    ~ In (ActiveGrant.grantNumber ag) (grantNumbersOf post).
Proof.
  intros Hin Hc. apply in_split in Hin. destruct Hin as (pre & post & ->).
  exists pre, post. split; [reflexivity|].
  unfold grantNumbersOf in *.
  rewrite map_app, count_occ_app in Hc. simpl in Hc.
  destruct (string_dec _ _) as [_|Hne]; [|contradiction].
  split; apply (count_occ_not_In string_dec); lia.
Qed.

(** The record the import merge leaves under a grant number that the
    import carries once: the incoming record after [detectChanges]
    against the record of the data set. *)
Lemma importData_merged_record d imported merged olds news existing ag :
  mergeImported d imported = Ret merged ->
  CIRMData.activeGrants d = Some olds ->
  CIRMData.activeGrants imported = Some news ->
  lastRecordOf (ActiveGrant.grantNumber ag) olds = Some existing ->
  In ag news ->
  count_occ string_dec (grantNumbersOf news) (ActiveGrant.grantNumber ag) = 1%nat ->
  exists l,
    CIRMData.activeGrants merged = Some l /\
    recordOf (ActiveGrant.grantNumber ag) l = Some (detectChanges existing ag).
Proof.
  intros Hm Hd Hi Hex Hin Hc.
  apply mergeImported_activeGrants in Hm. rewrite Hd, Hi in Hm.
  destruct (once_split _ _ Hin Hc) as (pre & post & -> & Hpre & Hpost).
  apply mergeActiveGrants_inv in Hm.
  destruct Hm as [(a & news' & Heq & Hr)|[[Heq|Heq] _]].
  2: discriminate.
  2: { injection Heq as Heq. now destruct pre. }
  injection Heq as Heq. rewrite <- Heq in Hr. clear Heq a news'.
  eexists. split; [exact Hr|].
  rewrite recordOf_values
    by (apply Keyed_fold_importStep, Keyed_ofEntries).
  rewrite get_fold_importStep by exact Hpost.
  unfold importValue.
  rewrite get_fold_importStep_other by exact Hpre.
  now rewrite get_ofEntries, Hex.
Qed.

Lemma detectChanges_previousAwardValue existing ag :
  ActiveGrant.previousAwardValue (detectChanges existing ag)
  = if ActiveGrant.awardValue existing =? ActiveGrant.awardValue ag
    then ActiveGrant.previousAwardValue ag
    else Some (Fin (ActiveGrant.awardValue existing)).
Proof.
  unfold detectChanges.
  destruct (_ =? _); destruct (String.eqb _ _); reflexivity.
Qed.

Lemma detectChanges_previousAwardStatus existing ag :
  ActiveGrant.previousAwardStatus (detectChanges existing ag)
  = if String.eqb (ActiveGrant.awardStatus existing) (ActiveGrant.awardStatus ag)
    then ActiveGrant.previousAwardStatus ag
    else Some (ActiveGrant.awardStatus existing).
Proof.
  unfold detectChanges.
  destruct (_ =? _); simpl; destruct (String.eqb _ _); reflexivity.
Qed.

(** C2 (amended).  Merging an import into a data set, for an incoming
    record whose grant number the import carries once and the data set
    already holds: when the award value of the data set's record differs
    from the incoming one, the merged record's [previousAwardValue] is
    the data set's value; when the two are equal, the merge does not
    assign [previousAwardValue], and the merged record keeps what the
    incoming record carried (nothing, for a spreadsheet row). *)
Theorem importData_previousAwardValue :
  forall d imported merged olds news existing ag,
    mergeImported d imported = Ret merged ->
    CIRMData.activeGrants d = Some olds ->
    CIRMData.activeGrants imported = Some news ->
    lastRecordOf (ActiveGrant.grantNumber ag) olds = Some existing ->
    In ag news ->
    count_occ string_dec (grantNumbersOf news) (ActiveGrant.grantNumber ag) = 1%nat ->
    exists l ag',
      CIRMData.activeGrants merged = Some l /\
      recordOf (ActiveGrant.grantNumber ag) l = Some ag' /\
      (ActiveGrant.awardValue existing <> ActiveGrant.awardValue ag ->
       ActiveGrant.previousAwardValue ag'
       = Some (Fin (ActiveGrant.awardValue existing))) /\
      (ActiveGrant.awardValue existing = ActiveGrant.awardValue ag ->
       ActiveGrant.previousAwardValue ag' = ActiveGrant.previousAwardValue ag).
Proof.
  intros d imported merged olds news existing ag Hm Hd Hi Hex Hin Hc.
  destruct (importData_merged_record _ _ _ Hm Hd Hi Hex Hin Hc) as (l & Hl & Hr).
  exists l, (detectChanges existing ag). repeat split; auto.
  - intros Hne. rewrite detectChanges_previousAwardValue.
    apply Z.eqb_neq in Hne. now rewrite Hne.
  - intros Heq. rewrite detectChanges_previousAwardValue.
    apply Z.eqb_eq in Heq. now rewrite Heq.
Qed.

(** C3 (amended).  Under the same conditions, the merged record's
    [previousAwardStatus] is the status of the data set's record exactly
    when that status differs from the incoming one, whatever the two
    statuses are; when they are equal (Closed to Closed included) the
    merge does not assign it and the merged record keeps what the
    incoming record carried. *)
Theorem importData_previousAwardStatus :
  forall d imported merged olds news existing ag,
    mergeImported d imported = Ret merged ->
    CIRMData.activeGrants d = Some olds ->
    CIRMData.activeGrants imported = Some news ->
    lastRecordOf (ActiveGrant.grantNumber ag) olds = Some existing ->
    In ag news ->
    count_occ string_dec (grantNumbersOf news) (ActiveGrant.grantNumber ag) = 1%nat ->
    exists l ag',
      CIRMData.activeGrants merged = Some l /\
      recordOf (ActiveGrant.grantNumber ag) l = Some ag' /\
      (ActiveGrant.awardStatus existing <> ActiveGrant.awardStatus ag ->
       ActiveGrant.previousAwardStatus ag'
       = Some (ActiveGrant.awardStatus existing)) /\
      (ActiveGrant.awardStatus existing = ActiveGrant.awardStatus ag ->
       ActiveGrant.previousAwardStatus ag' = ActiveGrant.previousAwardStatus ag).
Proof.
  intros d imported merged olds news existing ag Hm Hd Hi Hex Hin Hc.
  destruct (importData_merged_record _ _ _ Hm Hd Hi Hex Hin Hc) as (l & Hl & Hr).
  exists l, (detectChanges existing ag). repeat split; auto.
  - intros Hne. rewrite detectChanges_previousAwardStatus.
    apply String.eqb_neq in Hne. now rewrite Hne.
  - intros Heq. rewrite detectChanges_previousAwardStatus.
    apply String.eqb_eq in Heq. now rewrite Heq.
Qed.

(** C10.  When the data set holds at most one record per grant number,
    so does the merged array, for the import merge and for the editor's
    merge alike; and the record left under a grant number is the last
    incoming record of that number (in the import merge, with the
    change-tracking values the merge assigns; in the editor's merge, the
    record itself). *)
Theorem merged_activeGrants_one_per_grantNumber :
  forall d x y olds,
    CIRMData.activeGrants d = Some olds ->
    NoDup (grantNumbersOf olds) ->
    (mergeImported d x = Ret y \/ applyChanges d x = Ret y) ->
    exists l,
      CIRMData.activeGrants y = Some l /\
      NoDup (grantNumbersOf l) /\
      (forall news pre ag post,
          CIRMData.activeGrants x = Some news ->
          news = pre ++ ag :: post ->
          ~ In (ActiveGrant.grantNumber ag) (grantNumbersOf post) ->
          exists ag',
            recordOf (ActiveGrant.grantNumber ag) l = Some ag' /\
            eraseHistory ag' = eraseHistory ag /\
            (applyChanges d x = Ret y -> ag' = ag)).
Proof.
  intros d x y olds Hd Hnd [Hm|Hm].
  - pose proof (mergeImported_activeGrants _ _ Hm) as Ha. rewrite Hd in Ha.
    apply mergeActiveGrants_inv in Ha.
    destruct Ha as [(a & news' & Hx & Hr)|[Hx Hr]].
    + eexists. split; [exact Hr|]. split.
      * rewrite values_grantNumbers
          by (apply Keyed_fold_importStep, Keyed_ofEntries).
        apply NoDup_fold_importStep, NoDup_keys_ofEntries.
      * intros news pre ag post Hn -> Hpost.
        rewrite Hx in Hn. injection Hn as Hn. rewrite Hn.
        rewrite recordOf_values
          by (apply Keyed_fold_importStep, Keyed_ofEntries).
        rewrite get_fold_importStep by exact Hpost.
        eexists. split; [reflexivity|]. split.
        -- unfold importValue. destruct (get _ _); auto.
           apply eraseHistory_detectChanges.
        -- intros Happ. apply applyChanges_activeGrants in Happ.
           rewrite Hd, Hx in Happ. cbn [mergeActiveGrants bind prop] in Happ.
           injection Happ as Happ.
           change (Some (values (fold_left applyStep (a :: news')
                                   (ofEntries (map keyed olds))))
                   = CIRMData.activeGrants y) in Happ.
           rewrite Hn in Happ, Hr. rewrite Hr in Happ.
           injection Happ as Happ.
           assert (Hg : get (fold_left importStep (pre ++ ag :: post)
                               (ofEntries (map keyed olds)))
                            (ActiveGrant.grantNumber ag)
                        = Some ag).
           { rewrite <- recordOf_values
               by (apply Keyed_fold_importStep, Keyed_ofEntries).
             rewrite <- Happ.
             rewrite recordOf_values
               by (apply Keyed_fold_applyStep, Keyed_ofEntries).
             now apply get_fold_applyStep. }
           rewrite get_fold_importStep in Hg by exact Hpost.
           now injection Hg.
    + exists olds. split; [exact Hr|]. split; auto.
      intros news pre ag post Hn -> _.
      destruct Hx as [Hx|Hx]; rewrite Hx in Hn; [discriminate|].
      injection Hn as Hn. now destruct pre.
  - pose proof (applyChanges_activeGrants _ _ Hm) as Ha. rewrite Hd in Ha.
    apply mergeActiveGrants_inv in Ha.
    destruct Ha as [(a & news' & Hx & Hr)|[Hx Hr]].
    + eexists. split; [exact Hr|]. split.
      * rewrite values_grantNumbers
          by (apply Keyed_fold_applyStep, Keyed_ofEntries).
        apply NoDup_fold_applyStep, NoDup_keys_ofEntries.
      * intros news pre ag post Hn -> Hpost.
        rewrite Hx in Hn. injection Hn as Hn. rewrite Hn.
        rewrite recordOf_values
          by (apply Keyed_fold_applyStep, Keyed_ofEntries).
        rewrite get_fold_applyStep by exact Hpost.
        exists ag. auto.
    + exists olds. split; [exact Hr|]. split; auto.
      intros news pre ag post Hn -> _.
      destruct Hx as [Hx|Hx]; rewrite Hx in Hn; [discriminate|].
      injection Hn as Hn. now destruct pre.
Qed.

End MergeTheorems.

(** ** Summary after a merge *)

Section SummaryFacts.

(** C4 (amended).  The editor's apply recomputes the five summary fields
    from the arrays of the data it saves: [totalGrants] and
    [totalPapers] are their lengths, [totalProjects], [totalAmount] and
    [activeProjects] the code's sums over the grants (the last over
    those not Closed).  The import merge does not recompute: the arrays
    it saves are the previous ones followed by the imported ones, and
    [totalGrants], [totalPapers], [totalProjects] and [totalAmount] are
    the previous summary's values plus the count, respectively the sum,
    of the imported records alone. *)
Theorem summary_after_merge :
  forall d x y,
    (applyChanges d x = Ret y ->
     exists s gs ps,
       CIRMData.summary y = Some s /\
       CIRMData.grants y = Some gs /\
       CIRMData.papers y = Some ps /\
       totalsAgree s gs ps /\
       DataSummary.activeProjects s
       = reduceSum Grant.totalAwards (filter notClosed gs))
    /\
    (mergeImported d x = Ret y ->
     exists s0 s,
       CIRMData.summary d = Some s0 /\
       CIRMData.summary y = Some s /\
       DataSummary.totalGrants s
       = DataSummary.totalGrants s0 + lenOr0 (CIRMData.grants x) /\
       DataSummary.totalPapers s
       = DataSummary.totalPapers s0 + lenOr0 (CIRMData.papers x) /\
       DataSummary.totalProjects s
       = DataSummary.totalProjects s0
         + sumOr0 Grant.totalAwards (CIRMData.grants x) /\
       DataSummary.totalAmount s
       = DataSummary.totalAmount s0
         + sumOr0 Grant.awardValue (CIRMData.grants x) /\
       (forall news,
           CIRMData.grants x = Some news ->
           exists olds,
             CIRMData.grants d = Some olds /\
             CIRMData.grants y = Some (olds ++ news)) /\
       (CIRMData.grants x = None -> CIRMData.grants y = CIRMData.grants d) /\
       (forall news,
           CIRMData.papers x = Some news ->
           exists olds,
             CIRMData.papers d = Some olds /\
             CIRMData.papers y = Some (olds ++ news)) /\
       (CIRMData.papers x = None -> CIRMData.papers y = CIRMData.papers d)).
Proof.
  intros d x y. split.
  - unfold applyChanges.
    destruct (mergeActiveGrants _ _ _) as [ags|]; simpl; [|discriminate].
    destruct (orOpt (CIRMData.grants x) _) as [gs|]; simpl; [|discriminate].
    destruct (orOpt (CIRMData.papers x) _) as [ps|]; simpl; [|discriminate].
    intros H. injection H as <-. simpl.
    eexists _, gs, ps. repeat split.
  - unfold mergeImported.
    destruct (mergeActiveGrants _ _ _) as [ags|]; simpl; [|discriminate].
    destruct (appendImported (CIRMData.grants d) _) as [gs|] eqn:Eg;
      simpl; [|discriminate].
    destruct (appendImported (CIRMData.papers d) _) as [ps|] eqn:Ep;
      simpl; [|discriminate].
    destruct (CIRMData.summary d) as [s0|]; simpl; [|discriminate].
    intros H. injection H as <-. simpl.
    eexists s0, _. do 6 (split; [reflexivity|]).
    unfold appendImported in Eg, Ep.
    destruct (CIRMData.grants x) as [ng|], (CIRMData.papers x) as [np|];
      destruct (CIRMData.grants d) as [og|], (CIRMData.papers d) as [op|];
      simpl in Eg, Ep; try discriminate;
      injection Eg as <-; injection Ep as <-;
      (split; [intros news E; try discriminate; injection E as <-; eauto|]);
      (split; [intros E; try discriminate; reflexivity|]);
      (split; [intros news E; try discriminate; injection E as <-; eauto|]);
      intros E; try discriminate; reflexivity.
Qed.

End SummaryFacts.

(** ** The change log *)

Section ChangeLog.

Lemma noHyphen_uint d : noHyphen (NilEmpty.string_of_uint d) = true.
Proof. induction d; simpl; auto. Qed.

Lemma decimal_nonneg z :
  0 <= z ->
  exists d, Z.to_int z = Decimal.Pos d /\ decimal z = NilEmpty.string_of_uint d.
Proof.
  intros Hz. unfold decimal. destruct z as [|p|p]; simpl.
  - eexists. split; reflexivity.
  - exists (Pos.to_uint p). split; [reflexivity|].
    pose proof (Unsigned.to_uint_nonnil p) as Hn.
    unfold NilZero.string_of_uint. now destruct (Pos.to_uint p).
  - lia.
Qed.

Lemma string_of_uint_inj d d' :
  NilEmpty.string_of_uint d = NilEmpty.string_of_uint d' -> d = d'.
Proof.
  intros H. pose proof (NilEmpty.usu d) as E. rewrite H, NilEmpty.usu in E.
  now injection E.
Qed.

(** the text before the first hyphen and the text after it determine
    each other's split *)
Lemma hyphen_split a a' r r' :
  noHyphen a = true -> noHyphen a' = true ->
  (a ++ "-" ++ r = a' ++ "-" ++ r')%string -> a = a' /\ r = r'.
Proof.
  revert a'. induction a as [|c a IH]; intros [|c' a']; simpl.
  - intros _ _ H. now injection H.
  - intros _ H E. injection E as <- _.
    apply andb_true_iff in H. destruct H as [H _]. discriminate.
  - intros H _ E. injection E as -> _.
    apply andb_true_iff in H. destruct H as [H _]. discriminate.
  - intros H H' E. injection E as <- E.
    apply andb_true_iff in H. apply andb_true_iff in H'.
    destruct (IH a' (proj2 H) (proj2 H') E) as [<- <-]. auto.
Qed.

(** Two ids agree only when they were made at the same millisecond with
    the same random suffix. *)
Lemma makeId_inj env1 env2 :
  0 <= now env1 -> 0 <= now env2 ->
  makeId env1 = makeId env2 ->
  now env1 = now env2 /\ random36 env1 = random36 env2.
Proof.
  intros H1 H2 E. unfold makeId in E.
  destruct (decimal_nonneg H1) as (d1 & T1 & D1).
  destruct (decimal_nonneg H2) as (d2 & T2 & D2).
  rewrite D1, D2 in E.
  apply hyphen_split in E; try apply noHyphen_uint.
  destruct E as [E R]. split; [|exact R].
  apply string_of_uint_inj in E. subst d2.
  apply DecimalZ.to_int_inj. congruence.
Qed.

(** C9 (amended).  [recordChange] builds the entry from the descriptor,
    the id made of the current millisecond and a random suffix, and the
    current timestamp, and puts it in front of the list, whose earlier
    entries stay as they were, in their order; the list is stored as it
    is kept.  The id differs from every id made at another millisecond
    or with another suffix; it is new to the log whenever no entry of
    the log has that same id, and nothing in [recordChange] checks
    that. *)
Theorem recordChange_prepends :
  forall env change st,
    changes (recordChange env change st)
    = newChange env change :: changes st /\
    storedChanges (recordChange env change st)
    = Some (newChange env change :: changes st) /\
    data (recordChange env change st) = data st /\
    DataChange.id (newChange env change) = makeId env /\
    DataChange.timestamp (newChange env change) = isoNow env /\
    (forall env0,
        0 <= now env0 -> 0 <= now env ->
        now env0 <> now env \/ random36 env0 <> random36 env ->
        makeId env0 <> makeId env) /\
    (NoDup (idsOf (changes st)) ->
     ~ In (makeId env) (idsOf (changes st)) ->
     NoDup (idsOf (changes (recordChange env change st)))).
Proof.
  intros env change st. repeat split.
  - intros env0 H0 H1 Hne E.
    destruct (makeId_inj _ _ H0 H1 E) as [En Er]. tauto.
  - intros Hnd Hout. simpl. constructor; assumption.
Qed.

(** C6.  [rollbackChange] fails when no entry has the id and when the
    entry found carries no snapshot, and a failing call leaves the whole
    state as it was; a successful call puts the snapshot's grants,
    active grants, papers and summary in place of the current ones, in
    memory and in storage; the change log is the same after either. *)
Theorem rollbackChange_spec :
  forall changeId st,
    changes (fst (rollbackChange changeId st)) = changes st /\
    (snd (rollbackChange changeId st) = false ->
     fst (rollbackChange changeId st) = st) /\
    ((forall c, In c (changes st) -> DataChange.id c <> changeId) ->
     snd (rollbackChange changeId st) = false) /\
    (forall c,
        find (fun c => String.eqb (DataChange.id c) changeId) (changes st)
        = Some c ->
        match DataChange.snapshot c with
        | None => snd (rollbackChange changeId st) = false
        | Some snap =>
            snd (rollbackChange changeId st) = true /\
            exists d,
              data (fst (rollbackChange changeId st)) = Some d /\
              storedData (fst (rollbackChange changeId st)) = Some d /\
              CIRMData.grants d = Snapshot.grants snap /\
              CIRMData.activeGrants d = Snapshot.activeGrants snap /\
              CIRMData.papers d = Snapshot.papers snap /\
              CIRMData.summary d = Snapshot.summary snap
        end).
Proof.
  intros changeId st. unfold rollbackChange.
  destruct (find _ (changes st)) as [c|] eqn:F.
  - destruct (DataChange.snapshot c) as [snap|] eqn:S; simpl.
    + repeat split; try discriminate.
      * intros Hno. apply find_some in F. destruct F as [Hin Heq].
        apply String.eqb_eq in Heq. now apply Hno in Hin.
      * intros c' E. injection E as <-. rewrite S.
        split; [reflexivity|]. eexists. repeat split.
    + repeat split. intros c' E. injection E as <-. now rewrite S.
  - simpl. repeat split. intros c' E. discriminate.
Qed.

End ChangeLog.

(** ** Sheet classification *)

Lemma parseExcelFile_grant_first sheetName :
  Str.includes "grant" (Str.toLowerCase sheetName) = true ->
  parseExcelFile_sheetType sheetName = grants_t.
Proof. unfold parseExcelFile_sheetType. now intros ->. Qed.

Lemma detectSheetType_active_first sheetName :
  Str.includes "active" (Str.toLowerCase sheetName) = true ->
  detectSheetType sheetName = activeGrants_t.
Proof. unfold detectSheetType. now intros ->. Qed.

(** C1.  The hook's [parseExcelFile] tests the sheet name for "grant"
    before it tests it for "active": the sheet named ActiveGrants, the
    name under which the editor's template is exported, is handed to the
    grant parser, and its project row comes out as a grant whose program
    type is the grant number, while no active grant is read.  The
    editor's [detectSheetType] classifies the same name as an active-grant
    sheet. *)
Theorem parseExcelFile_ActiveGrants_sheet_read_as_grants :
  forall parseNumber,
    parseExcelFile_sheetType "ActiveGrants" = grants_t /\
    detectSheetType "ActiveGrants" = activeGrants_t /\
    CIRMData.activeGrants
      (parseExcelFile parseNumber [("ActiveGrants", Sample.activeGrantSheet)])
    = Some [] /\
    map Grant.programType
      (orNil (CIRMData.grants
                (parseExcelFile parseNumber
                   [("ActiveGrants", Sample.activeGrantSheet)])))
    = ["DISC1-999"].
Proof. intros parseNumber. repeat split. Qed.

(** the grant numbers of a paper's grant-number cell *)
Example grantNumbers_of_cell :
  GrantNumberRe.matchAll "DISC1-12345" = ["DISC1-12345"] /\
  GrantNumberRe.matchAll "DISC1-12345/TRAN1-0001; CLIN2A-99"
  = ["DISC1-12345"; "TRAN1-0001"; "CLIN2A-99"].
Proof. split; reflexivity. Qed.

(** ** Rows kept and rows dropped *)

Section RowFacts.

Variable parseNumber : string -> number.







End RowFacts.

(** ** [importData] and [updateData] on the store *)

Section HookFacts.

Variable parseNumber : string -> number.

Lemma parseExcelFile_sheet_grants result s :
  CIRMData.grants result <> None ->
  CIRMData.grants (parseExcelFile_sheet parseNumber result s) <> None.
Proof.
  destruct s as [sheetName jsonData]. unfold parseExcelFile_sheet.
  destruct (parseExcelFile_sheetType sheetName); simpl; auto; discriminate.
Qed.

Lemma parseExcelFile_grants workbook :
  CIRMData.grants (parseExcelFile parseNumber workbook) <> None.
Proof.
  unfold parseExcelFile.
  assert (H : CIRMData.grants emptyResult <> None) by discriminate.
  revert H. generalize emptyResult.
  induction workbook as [|s wb IH]; simpl; intros r H; auto.
  apply IH. now apply parseExcelFile_sheet_grants.
Qed.

(** a spreadsheet always passes the structure check *)
Lemma spreadsheet_validates file imported :
  isSpreadsheetName (name file) = true ->
  readImported parseNumber file = Ret imported ->
  CIRMData.grants imported <> None \/ CIRMData.papers imported <> None.
Proof.
  unfold isSpreadsheetName, readImported. intros Hn.
  destruct (Str.endsWith ".xlsx" (name file) || Str.endsWith ".xls" (name file))%bool.
  - destruct (readArray file); simpl; [|discriminate].
    intros H. injection H as <-. left. apply parseExcelFile_grants.
  - simpl in Hn. rewrite Hn.
    destruct (readString file); simpl; [|discriminate].
    intros H. injection H as <-. right. discriminate.
Qed.

Lemma validate_ok imported :
  CIRMData.grants imported <> None \/ CIRMData.papers imported <> None ->
  validate imported = Ret tt.
Proof.
  unfold validate.
  destruct (CIRMData.grants imported), (CIRMData.papers imported); auto.
  intros [H|H]; contradiction.
Qed.

(** C5 (amended).  With no data set in the store, an import whose
    content was read and holds grants or papers is accepted as it is:
    it becomes the data in memory and in storage, complete or not, and
    one change is recorded.  Every file read as a spreadsheet (.xlsx,
    .xls, .csv) holds one of the two.  The import is refused, with the
    store's data untouched, when the content holds neither. *)
Theorem importData_first_load :
  forall env file st imported,
    data st = None ->
    readImported parseNumber file = Ret imported ->
    (isSpreadsheetName (name file) = true \/
     CIRMData.grants imported <> None \/
     CIRMData.papers imported <> None ->
     snd (importData parseNumber env file st) = true /\
     data (fst (importData parseNumber env file st)) = Some imported /\
     storedData (fst (importData parseNumber env file st)) = Some imported /\
     changes (fst (importData parseNumber env file st))
     = newChange env (importDescr imported) :: changes st)
    /\
    (CIRMData.grants imported = None ->
     CIRMData.papers imported = None ->
     importData parseNumber env file st
     = (setError (Error "Invalid data format: No grants or papers found") st,
        false)).
Proof.
  intros env file st imported Hd Hr. split.
  - intros Hv.
    assert (Hv' : CIRMData.grants imported <> None
                  \/ CIRMData.papers imported <> None).
    { destruct Hv as [Hn|Hv]; auto. eapply spreadsheet_validates; eauto. }
    unfold importData, importData_try.
    rewrite Hr. simpl. rewrite (validate_ok _ Hv'). simpl. rewrite Hd.
    simpl. auto.
  - intros Hg Hp. unfold importData, importData_try.
    rewrite Hr. simpl. unfold validate. rewrite Hg, Hp. reflexivity.
Qed.

Lemma importData_true env file st st' :
  importData parseNumber env file st = (st', true) ->
  exists imported newData,
    importData_try parseNumber st file = Ret (imported, newData) /\
    st' = recordChange env (importDescr imported) (saveData newData st).
Proof.
  unfold importData.
  destruct (importData_try parseNumber st file) as [[imported newData]|e];
    intros H; [|discriminate].
  injection H as <-. eauto.
Qed.

Lemma oldTotals_throw o e :
  oldTotals o = Throw e ->
  e = TypeError /\ exists d, o = Some d /\ CIRMData.summary d = None.
Proof.
  destruct o as [d|]; simpl; [|discriminate].
  destruct (CIRMData.summary d) as [s|] eqn:Es; simpl; [discriminate|].
  intros H. injection H as <-. eauto.
Qed.

(** the two ways [updateData] ends: the entry recorded over the saved
    data, or the data saved and the exception of the descriptor *)
Lemma updateData_cases env newData st :
  (exists oldG oldP s,
      oldTotals (data st) = Ret (oldG, oldP) /\
      CIRMData.summary newData = Some s /\
      updateData env newData st
      = (recordChange env
           (updateDescr (oldG, oldP)
              (DataSummary.totalGrants s, DataSummary.totalPapers s))
           (saveData newData st), None))
  \/
  ((CIRMData.summary newData = None \/
    exists d, data st = Some d /\ CIRMData.summary d = None) /\
   updateData env newData st = (saveData newData st, Some TypeError)).
Proof.
  unfold updateData.
  destruct (oldTotals (data st)) as [[oldG oldP]|e] eqn:Eo; simpl.
  - destruct (CIRMData.summary newData) as [s|] eqn:Es; simpl.
    + left. exists oldG, oldP, s. auto.
    + right. auto.
  - right. apply oldTotals_throw in Eo. destruct Eo as (-> & d & Hd & Hs).
    split; [right; eauto|reflexivity].
Qed.

(** C7 (amended).  A bulk import that succeeds puts exactly one new
    entry in front of the change log, whose changes are the numbers of
    grants and papers of the imported content; a call of [updateData]
    that returns, and so an editor apply over a data set that has a
    summary, puts exactly one, whose changes are the old and the new
    totals of grants and papers.  Neither entry has a snapshot.  An
    import that fails records nothing, and one refused before the save
    leaves the data as it was.  [updateData] saves the new data before
    it builds the entry: when the new data or the previous data set has
    no summary, and so for an editor apply over a data set without a
    summary, the new data is saved, the call throws, and nothing is
    recorded. *)
Theorem mutation_records_one_entry :
  forall env file newData editedData st st' exn,
    (importData parseNumber env file st = (st', true) ->
     exists imported saved e,
       importData_try parseNumber st file = Ret (imported, saved) /\
       data st' = Some saved /\
       changes st' = e :: changes st /\
       DataChange.entityId e = "bulk-import" /\
       DataChange.changes e
       = [("imported",
           (PNull, PImportCounts (lenOr0 (CIRMData.grants imported))
                                 (lenOr0 (CIRMData.papers imported))))] /\
       DataChange.snapshot e = None)
    /\
    (updateData env newData st = (st', exn) ->
     data st' = Some newData /\
     (exn = None ->
      exists e oldG oldP s,
        oldTotals (data st) = Ret (oldG, oldP) /\
        CIRMData.summary newData = Some s /\
        changes st' = e :: changes st /\
        DataChange.entityId e = "data-editor" /\
        DataChange.changes e
        = [("updated",
            (PTotals oldG oldP,
             PTotals (DataSummary.totalGrants s) (DataSummary.totalPapers s)))] /\
        DataChange.snapshot e = None) /\
     (exn <> None -> changes st' = changes st) /\
     (CIRMData.summary newData = None \/
      (exists d, data st = Some d /\ CIRMData.summary d = None) ->
      exn <> None))
    /\
    (forall d saved,
        handleApplyChanges env (Some editedData) st = (st', exn) ->
        data st = Some d ->
        applyChanges d editedData = Ret saved ->
        data st' = Some saved /\
        (exn = None ->
         exists e s0 s,
           CIRMData.summary d = Some s0 /\
           CIRMData.summary saved = Some s /\
           changes st' = e :: changes st /\
           DataChange.entityId e = "data-editor" /\
           DataChange.changes e
           = [("updated",
               (PTotals (DataSummary.totalGrants s0)
                        (DataSummary.totalPapers s0),
                PTotals (DataSummary.totalGrants s)
                        (DataSummary.totalPapers s)))] /\
           DataChange.snapshot e = None) /\
        (exn <> None -> changes st' = changes st) /\
        (CIRMData.summary d = None -> exn <> None) /\
        (CIRMData.summary d <> None -> exn = None))
    /\
    (importData parseNumber env file st = (st', false) ->
     changes st' = changes st)
    /\
    (forall e,
        importData_try parseNumber st file = Throw e ->
        importData parseNumber env file st = (setError e st, false) /\
        data (setError e st) = data st).
Proof.
  intros env file newData editedData st st' exn.
  split; [|split; [|split; [|split]]].
  - intros H. apply importData_true in H.
    destruct H as (imported & nd & Htry & ->).
    exists imported, nd, (newChange env (importDescr imported)).
    repeat split. exact Htry.
  - intros H.
    destruct (updateData_cases env newData st)
      as [(oldG & oldP & s & Ho & Hs & E)|(Hc & E)];
      rewrite E in H; injection H as <- <-.
    + split; [reflexivity|]. split; [|split].
      * intros _. eexists _, oldG, oldP, s. repeat split; assumption.
      * intros Hn. now elim Hn.
      * intros [Hn|(d & Hd & Hn)]; [congruence|].
        rewrite Hd in Ho. simpl in Ho. rewrite Hn in Ho. discriminate.
    + split; [reflexivity|]. split; [discriminate|].
      split; [reflexivity|discriminate].
  - intros d saved H Hd Ha. unfold handleApplyChanges in H.
    rewrite Hd, Ha in H.
    assert (Hsaved : CIRMData.summary saved <> None).
    { unfold applyChanges in Ha.
      destruct (mergeActiveGrants _ _ _); simpl in Ha; [|discriminate].
      destruct (orOpt (CIRMData.grants editedData) _);
        simpl in Ha; [|discriminate].
      destruct (orOpt (CIRMData.papers editedData) _);
        simpl in Ha; [|discriminate].
      injection Ha as <-. discriminate. }
    destruct (updateData_cases env saved st)
      as [(oldG & oldP & s & Ho & Hs & E)|(Hc & E)];
      rewrite E in H; injection H as <- <-.
    + split; [reflexivity|].
      rewrite Hd in Ho. simpl in Ho.
      destruct (CIRMData.summary d) as [s0|]; simpl in Ho; [|discriminate].
      injection Ho as <- <-.
      split; [|split; [|split]].
      * intros _. eexists _, s0, s. repeat split. exact Hs.
      * intros Hn. now elim Hn.
      * discriminate.
      * reflexivity.
    + split; [reflexivity|].
      destruct Hc as [Hc|(d' & Hd' & Hc)]; [contradiction|].
      rewrite Hd in Hd'. injection Hd' as <-.
      split; [discriminate|]. split; [reflexivity|].
      split; [discriminate|]. intros Hn. contradiction.
  - intros H. unfold importData in H.
    destruct (importData_try parseNumber st file) as [[imported nd]|e];
      [discriminate|].
    injection H as <-. reflexivity.
  - intros e H. unfold importData. rewrite H. split; reflexivity.
Qed.

End HookFacts.

(** * Concrete cases *)

Section Cases.
Import Sample.

(** C2, as stated, fails.  DISC2-111 comes in with the value the data
    set has, and the merged record has a [previousAwardValue] all the
    same, the one the incoming record carried; DISC1-999 comes in twice,
    the merged record has the value of the data set's record, and its
    [previousAwardValue] is the value of the first incoming row. *)
Lemma previousAwardValue_set_though_value_unchanged :
  exists merged l r1 r2,
    mergeImported data2 importTwice = Ret merged /\
    CIRMData.activeGrants merged = Some l /\
    recordOf "DISC2-111" l = Some r2 /\
    ActiveGrant.awardValue r2 = 500000 /\
    ActiveGrant.previousAwardValue r2 = Some (Fin 400000) /\
    recordOf "DISC1-999" l = Some r1 /\
    ActiveGrant.awardValue r1 = 1000000 /\
    ActiveGrant.previousAwardValue r1 = Some (Fin 1200000).
Proof. do 4 eexists. repeat split. Qed.

Lemma importData_previousAwardValue_witness :
  exists merged,
    mergeImported data0 (importActive [reimported]) = Ret merged /\
    exists l ag',
      CIRMData.activeGrants merged = Some l /\
      recordOf "DISC1-999" l = Some ag' /\
      (1000000 <> 1200000 ->
       ActiveGrant.previousAwardValue ag' = Some (Fin 1000000)) /\
      (1000000 = 1200000 ->
       ActiveGrant.previousAwardValue ag' = None).
Proof.
  eexists. split; [reflexivity|].
  apply (@importData_previousAwardValue data0 (importActive [reimported]) _
           [activeGrant "DISC1-999" 1000000 "Active" None] [reimported]
           (activeGrant "DISC1-999" 1000000 "Active" None) reimported);
    try reflexivity.
  simpl; auto.
Defined.

(** C3, as stated, fails.  DISC1-999 goes from Active to Terminated,
    a change that does not end in Closed, and the merged record has
    [previousAwardStatus] Active. *)
Lemma previousAwardStatus_set_without_Closed :
  exists merged l r,
    mergeImported data0 importTerminated = Ret merged /\
    CIRMData.activeGrants merged = Some l /\
    recordOf "DISC1-999" l = Some r /\
    ActiveGrant.awardStatus r = "Terminated" /\
    ActiveGrant.previousAwardStatus r = Some "Active".
Proof. do 3 eexists. repeat split. Qed.

Lemma importData_previousAwardStatus_witness :
  exists merged,
    mergeImported data0 (importActive [reimported]) = Ret merged /\
    exists l ag',
      CIRMData.activeGrants merged = Some l /\
      recordOf "DISC1-999" l = Some ag' /\
      ("Active" <> "Closed" ->
       ActiveGrant.previousAwardStatus ag' = Some "Active") /\
      ("Active" = "Closed" ->
       ActiveGrant.previousAwardStatus ag' = None).
Proof.
  eexists. split; [reflexivity|].
  apply (@importData_previousAwardStatus data0 (importActive [reimported]) _
           [activeGrant "DISC1-999" 1000000 "Active" None] [reimported]
           (activeGrant "DISC1-999" 1000000 "Active" None) reimported);
    try reflexivity.
  simpl; auto.
Defined.

(** C4, as stated, fails.  The summary of [data0] agrees with its
    arrays; after the import of a category of three active awards the
    merged summary still counts two active projects, where the grants
    of the merged data set hold five. *)
Lemma activeProjects_stale_after_import :
  exists merged s gs,
    mergeImported data0 importGrant = Ret merged /\
    CIRMData.summary merged = Some s /\
    CIRMData.grants merged = Some gs /\
    DataSummary.activeProjects s = 2 /\
    reduceSum Grant.totalAwards (filter notClosed gs) = 5.
Proof. do 3 eexists. repeat split. Qed.

Lemma summary_after_merge_witness :
  (exists y,
      applyChanges data0 importGrant = Ret y /\
      exists s gs ps,
        CIRMData.summary y = Some s /\
        CIRMData.grants y = Some gs /\
        CIRMData.papers y = Some ps /\
        totalsAgree s gs ps /\
        DataSummary.activeProjects s
        = reduceSum Grant.totalAwards (filter notClosed gs))
  /\
  (exists y,
      mergeImported data0 importGrant = Ret y /\
      exists s0 s,
        CIRMData.summary data0 = Some s0 /\
        CIRMData.summary y = Some s /\
        DataSummary.totalGrants s = DataSummary.totalGrants s0 + 1).
Proof.
  split.
  - eexists. split; [reflexivity|].
    apply (proj1 (summary_after_merge data0 importGrant _)). reflexivity.
  - eexists. split; [reflexivity|].
    destruct (proj2 (summary_after_merge data0 importGrant _) eq_refl)
      as (s0 & s & H0 & H1 & H2 & _).
    exists s0, s. auto.
Defined.

(** C5, as stated, fails.  With no data set in the store, the import
    of a workbook holding one paper sheet succeeds, and what is stored
    is the partial data read from it, without a summary. *)
Lemma spreadsheet_first_import_accepted :
  exists st' d,
    importData noNumber env0 (xlsxFile "first.xlsx" [("Papers", paperSheet)])
               emptyStore
    = (st', true) /\
    data st' = Some d /\
    storedData st' = Some d /\
    CIRMData.summary d = None /\
    ~ CIRMData.complete d /\
    option_map (map Paper.title) (CIRMData.papers d) = Some ["A paper"].
Proof.
  do 2 eexists. repeat split.
  intros (H & _). now apply H.
Qed.

Lemma importData_first_load_witness :
  data emptyStore = None /\
  readImported noNumber (jsonFile "base.json" data0) = Ret data0 /\
  snd (importData noNumber env0 (jsonFile "base.json" data0) emptyStore) = true /\
  data (fst (importData noNumber env0 (jsonFile "base.json" data0) emptyStore))
  = Some data0.
Proof.
  split; [reflexivity|]. split; [reflexivity|].
  destruct (proj1 (@importData_first_load noNumber env0
                     (jsonFile "base.json" data0) emptyStore data0
                     eq_refl eq_refl))
    as (H1 & H2 & _).
  - right. left. discriminate.
  - auto.
Defined.

Lemma rollbackChange_spec_witness :
  (* no entry of the log has the id *)
  (snd (rollbackChange "1600000000000-zzzzzzzzz" loadedStore) = false /\
   fst (rollbackChange "1600000000000-zzzzzzzzz" loadedStore) = loadedStore)
  /\
  (* the entry found has no snapshot *)
  (snd (rollbackChange (makeId env0) loadedStore) = false /\
   fst (rollbackChange (makeId env0) loadedStore) = loadedStore)
  /\
  (* the entry found has one *)
  (snd (rollbackChange (makeId env1) loadedStore) = true /\
   changes (fst (rollbackChange (makeId env1) loadedStore))
   = changes loadedStore /\
   exists d,
     data (fst (rollbackChange (makeId env1) loadedStore))
     = Some d /\
     storedData (fst (rollbackChange (makeId env1) loadedStore))
     = Some d /\
     CIRMData.grants d = Some [grant 1 "DISC 1" 2 100 "Active"] /\
     CIRMData.activeGrants d
     = Some [activeGrant "DISC1-999" 1000000 "Active" None] /\
     CIRMData.papers d = Some [] /\
     CIRMData.summary d = Some summary0).
Proof.
  split; [|split].
  - destruct (rollbackChange_spec "1600000000000-zzzzzzzzz" loadedStore)
      as (_ & Hsame & Hnone & _).
    assert (Hf : snd (rollbackChange "1600000000000-zzzzzzzzz" loadedStore)
                 = false).
    { apply Hnone. intros c [<-|[<-|[]]]; discriminate. }
    split; [exact Hf|exact (Hsame Hf)].
  - destruct (rollbackChange_spec (makeId env0) loadedStore)
      as (_ & Hsame & _ & Hfound).
    pose proof (Hfound _ eq_refl) as Hf. simpl in Hf.
    split; [exact Hf|exact (Hsame Hf)].
  - destruct (rollbackChange_spec (makeId env1) loadedStore)
      as (Hlog & _ & _ & Hfound).
    pose proof (Hfound _ eq_refl) as Hf.
    cbv beta iota delta [DataChange.snapshot] in Hf.
    destruct Hf as (Ht & d & H1 & H2 & H3 & H4 & H5 & H6).
    split; [exact Ht|]. split; [exact Hlog|].
    exists d. repeat split; assumption.
Defined.

(** C7, as stated, fails.  The import of one more grant category into
    [store0] succeeds and records one entry, which has no snapshot. *)
Lemma import_entry_has_no_snapshot :
  exists st' e,
    importData noNumber env0 (jsonFile "more.json" importGrant) store0
    = (st', true) /\
    changes st' = [e] /\
    DataChange.snapshot e = None.
Proof. do 2 eexists. repeat split. Qed.

Lemma mutation_records_one_entry_witness :
  (exists st' e,
      importData noNumber env0 (jsonFile "more.json" importGrant) store0
      = (st', true) /\
      changes st' = e :: changes store0 /\
      DataChange.changes e = [("imported", (PNull, PImportCounts 1 0))] /\
      DataChange.snapshot e = None)
  /\
  (exists st' e,
      handleApplyChanges env0 (Some importGrant) store0 = (st', None) /\
      changes st' = e :: changes store0 /\
      DataChange.changes e = [("updated", (PTotals 1 0, PTotals 1 0))] /\
      DataChange.snapshot e = None)
  /\
  (exists st' saved,
      handleApplyChanges env0 (Some importGrant) storeNoSummary
      = (st', Some TypeError) /\
      data st' = Some saved /\
      CIRMData.grants saved = Some [grant 1 "DISC 2" 3 50 "Active"] /\
      changes st' = changes storeNoSummary)
  /\
  (importData noNumber env0 (jsonFile "none.json" emptyImport) store0
   = (setError (Error "Invalid data format: No grants or papers found") store0,
      false)).
Proof.
  split; [|split; [|split]].
  - eexists.
    destruct (proj1 (@mutation_records_one_entry noNumber env0
                       (jsonFile "more.json" importGrant) data0 data0 store0
                       _ None) eq_refl)
      as (imported & saved & e & Htry & _ & Hc & _ & Hch & Hs).
    injection Htry as <- _.
    exists e. repeat split; assumption.
  - eexists.
    destruct (proj1 (proj2 (proj2 (@mutation_records_one_entry noNumber env0
                       (jsonFile "more.json" importGrant) data0 importGrant
                       store0 _ None)))
                _ _ eq_refl eq_refl eq_refl)
      as (_ & H & _).
    destruct (H eq_refl) as (e & s0 & s & Hs0 & Hsum & Hc & _ & Hch & Hs).
    injection Hs0 as <-. injection Hsum as <-.
    exists e. repeat split; assumption.
  - eexists.
    destruct (proj1 (proj2 (proj2 (@mutation_records_one_entry noNumber env0
                       (jsonFile "more.json" importGrant) data0 importGrant
                       storeNoSummary _ (Some TypeError))))
                _ _ eq_refl eq_refl eq_refl)
      as (Hd & _ & H & _).
    assert (Hc := H ltac:(discriminate)).
    eexists. split; [reflexivity|]. split; [exact Hd|].
    split; [reflexivity|exact Hc].
  - exact (proj1 (proj2 (proj2 (proj2 (proj2
             (@mutation_records_one_entry noNumber env0
                (jsonFile "none.json" emptyImport) data0 data0 store0
                store0 None))))
             _ eq_refl)).
Defined.


(** C9, as stated, fails.  Two changes recorded at the same millisecond
    with the same random suffix get the same id. *)
Lemma same_instant_same_id :
  idsOf (changes (recordChange env0 descr0 (recordChange env0 descr0 emptyStore)))
  = ["1700000000000-k3j9x0q1z"; "1700000000000-k3j9x0q1z"] /\
  ~ NoDup (idsOf (changes (recordChange env0 descr0
                             (recordChange env0 descr0 emptyStore)))).
Proof.
  split; [reflexivity|].
  intros H. inversion H as [|x l Hin _]. apply Hin. now left.
Qed.

Lemma recordChange_prepends_witness :
  NoDup (idsOf (changes emptyStore)) /\
  ~ In (makeId env0) (idsOf (changes emptyStore)) /\
  NoDup (idsOf (changes (recordChange env0 descr0 emptyStore))).
Proof.
  assert (H1 : NoDup (idsOf (changes emptyStore))) by constructor.
  assert (H2 : ~ In (makeId env0) (idsOf (changes emptyStore)))
    by (intros []).
  split; [exact H1|]. split; [exact H2|].
  apply (recordChange_prepends env0 descr0 emptyStore); assumption.
Defined.

Lemma merged_activeGrants_one_per_grantNumber_witness :
  NoDup (grantNumbersOf [activeGrant "DISC1-999" 1000000 "Active" None]) /\
  exists y,
    mergeImported data0 (importActive [reimported]) = Ret y /\
    exists l,
      CIRMData.activeGrants y = Some l /\ NoDup (grantNumbersOf l).
Proof.
  assert (H : NoDup (grantNumbersOf
                       [activeGrant "DISC1-999" 1000000 "Active" None])).
  { repeat constructor. intros []. }
  split; [exact H|]. eexists. split; [reflexivity|].
  destruct (@merged_activeGrants_one_per_grantNumber
              data0 (importActive [reimported]) _
              [activeGrant "DISC1-999" 1000000 "Active" None]
              eq_refl H (or_introl eq_refl))
    as (l & Hl & Hnd & _).
  exists l. auto.
Defined.

End Cases.


(** * Further properties *)

(** ** The store under the operations of the hook *)

Section StoreFacts.

Variable parseNumber : string -> number.

Lemma noSnapshot_app l1 l2 :
  noSnapshot l1 -> noSnapshot l2 -> noSnapshot (l1 ++ l2).
Proof. unfold noSnapshot. intros H1 H2. apply Forall_app. auto. Qed.

Lemma Extends_refl st : Extends st st.
Proof. exists []. split; [reflexivity|constructor]. Qed.

Lemma Extends_trans st1 st2 st3 :
  Extends st1 st2 -> Extends st2 st3 -> Extends st1 st3.
Proof.
  intros (a1 & E1 & N1) (a2 & E2 & N2).
  exists (a2 ++ a1). rewrite E2, E1, app_assoc.
  split; [reflexivity|]. now apply noSnapshot_app.
Qed.

Lemma Extends_saveData newData st : Extends st (saveData newData st).
Proof. exists []. split; [reflexivity|constructor]. Qed.

Lemma Extends_setError e st : Extends st (setError e st).
Proof. exists []. split; [reflexivity|constructor]. Qed.

Lemma Extends_recordChange env change st :
  ChangeDescr.snapshot change = None ->
  Extends st (recordChange env change st).
Proof.
  intros Hs. exists [newChange env change]. split; [reflexivity|].
  repeat constructor. exact Hs.
Qed.

Lemma Extends_recordEach {A} (descr : A -> ChangeDescr.t) clock items :
  (forall x, ChangeDescr.snapshot (descr x) = None) ->
  forall i st, Extends st (recordEach descr clock i items st).
Proof.
  intros Hd. induction items as [|x xs IH]; simpl; intros i st.
  - apply Extends_refl.
  - eapply Extends_trans; [|apply IH]. now apply Extends_recordChange.
Qed.

Lemma Extends_importData env file st :
  Extends st (fst (importData parseNumber env file st)).
Proof.
  unfold importData.
  destruct (importData_try parseNumber st file) as [[imported newData]|e]; simpl.
  - eapply Extends_trans; [apply Extends_saveData|].
    now apply Extends_recordChange.
  - apply Extends_setError.
Qed.

Lemma Extends_updateData env newData st :
  Extends st (fst (updateData env newData st)).
Proof.
  unfold updateData.
  destruct (oldTotals (data st)) as [old|]; simpl;
    [|apply Extends_saveData].
  destruct (CIRMData.summary newData) as [s|]; simpl;
    [|apply Extends_saveData].
  eapply Extends_trans; [apply Extends_saveData|].
  now apply Extends_recordChange.
Qed.

Lemma Extends_handleApplyChanges env editedData st :
  Extends st (fst (handleApplyChanges env editedData st)).
Proof.
  unfold handleApplyChanges.
  destruct editedData as [e|]; [|apply Extends_refl].
  destruct (data st) as [d|]; [|apply Extends_refl].
  destruct (applyChanges d e); [apply Extends_updateData|apply Extends_refl].
Qed.

Lemma Extends_addGrants clock newGrants st :
  Extends st (fst (addGrants clock newGrants st)).
Proof.
  unfold addGrants.
  destruct (data st) as [d|]; [|apply Extends_refl].
  destruct (addGrants_data d newGrants); simpl; [|apply Extends_refl].
  eapply Extends_trans; [apply Extends_saveData|].
  now apply Extends_recordEach.
Qed.

Lemma Extends_addPapers clock newPapers st :
  Extends st (fst (addPapers clock newPapers st)).
Proof.
  unfold addPapers.
  destruct (data st) as [d|]; [|apply Extends_refl].
  destruct (addPapers_data d newPapers); simpl; [|apply Extends_refl].
  eapply Extends_trans; [apply Extends_saveData|].
  now apply Extends_recordEach.
Qed.

Lemma Extends_run st st' : HookRun parseNumber st st' -> Extends st st'.
Proof.
  induction 1 as [st|st st1 st2 _ IH Hstep]; [apply Extends_refl|].
  eapply Extends_trans; [exact IH|].
  destruct Hstep.
  - apply Extends_importData.
  - apply Extends_updateData.
  - apply Extends_handleApplyChanges.
  - apply Extends_addGrants.
  - apply Extends_addPapers.
Qed.

(** X1.  The change log only grows at its front: whatever imports,
    editor applies, [updateData], [addGrants] and [addPapers] calls are
    made, failing ones included, the log afterwards is the log before
    with new entries in front of it; no earlier entry is removed,
    reordered or altered. *)
Theorem change_log_append_only :
  forall st st',
    HookRun parseNumber st st' ->
    exists added, changes st' = added ++ changes st.
Proof.
  intros st st' H. destruct (Extends_run H) as (added & E & _). eauto.
Qed.

(** X2.  No operation of the hook attaches a snapshot: if no entry of the
    log has one, none has one after any sequence of calls, so the history
    view, which offers the rollback button only for an entry with a
    snapshot, never offers it. *)
Theorem no_entry_gets_a_snapshot :
  forall st st',
    HookRun parseNumber st st' ->
    noSnapshot (changes st) ->
    noSnapshot (changes st').
Proof.
  intros st st' H Hn. destruct (Extends_run H) as (added & E & Na).
  rewrite E. now apply noSnapshot_app.
Qed.

End StoreFacts.

(** ** Adding grants and papers one by one *)

Section AddFacts.

Lemma entityIds_recordEach {A} (descr : A -> ChangeDescr.t) clock items :
  forall i st,
    map DataChange.entityId (changes (recordEach descr clock i items st))
    = rev (map (fun x => ChangeDescr.entityId (descr x)) items)
      ++ map DataChange.entityId (changes st).
Proof.
  induction items as [|x xs IH]; simpl; intros i st; auto.
  rewrite IH. simpl. now rewrite <- app_assoc.
Qed.

Lemma types_recordEach {A} (descr : A -> ChangeDescr.t) clock items ty :
  (forall x, ChangeDescr.type (descr x) = ty) ->
  forall i st,
    map DataChange.type (changes (recordEach descr clock i items st))
    = repeat ty (List.length items) ++ map DataChange.type (changes st).
Proof.
  intros Hty. induction items as [|x xs IH]; simpl; intros i st; auto.
  rewrite IH. simpl. rewrite Hty.
  change (ty :: map DataChange.type (changes st))
    with ([ty] ++ map DataChange.type (changes st)).
  rewrite app_assoc. f_equal.
  rewrite <- (repeat_cons (List.length xs) ty). reflexivity.
Qed.

(** X4.  [addGrants] and [addPapers] build the data set that a bulk
    import carrying just those grants, respectively just those papers,
    merges: the same arrays, the same summary, and an exception in the
    same cases (no grants array, no papers array, no summary). *)
Theorem add_builds_the_import_merge :
  forall d (newGrants : list Grant.t) (newPapers : list Paper.t),
    addGrants_data d newGrants = mergeImported d (grantsOnly newGrants) /\
    addPapers_data d newPapers = mergeImported d (papersOnly newPapers).
Proof.
  intros d newGrants newPapers. split.
  - unfold addGrants_data, mergeImported, grantsOnly. simpl.
    destruct (CIRMData.grants d) as [gs|]; simpl; auto.
    destruct (CIRMData.summary d) as [s|]; simpl; auto.
    now rewrite Z.add_0_r.
  - unfold addPapers_data, mergeImported, papersOnly. simpl.
    destruct (CIRMData.papers d) as [ps|]; simpl; auto.
    destruct (CIRMData.summary d) as [s|]; simpl; auto.
    now rewrite !Z.add_0_r.
Qed.

(** X5.  Where a bulk import records one entry, [addGrants] records one
    [add] entry per grant, filed under the grant type, the last grant's
    entry first; [addPapers] does the same under the paper titles.
    Without a data set neither does anything. *)
Theorem add_records_one_entry_per_item :
  forall clock (newGrants : list Grant.t) (newPapers : list Paper.t) st st',
    (data st = None ->
     addGrants clock newGrants st = (st, None) /\
     addPapers clock newPapers st = (st, None))
    /\
    (data st <> None ->
     addGrants clock newGrants st = (st', None) ->
     map DataChange.entityId (changes st')
     = rev (map Grant.grantType newGrants)
       ++ map DataChange.entityId (changes st) /\
     map DataChange.type (changes st')
     = repeat add (List.length newGrants) ++ map DataChange.type (changes st))
    /\
    (data st <> None ->
     addPapers clock newPapers st = (st', None) ->
     map DataChange.entityId (changes st')
     = rev (map Paper.title newPapers)
       ++ map DataChange.entityId (changes st) /\
     map DataChange.type (changes st')
     = repeat add (List.length newPapers) ++ map DataChange.type (changes st)).
Proof.
  intros clock newGrants newPapers st st'. split; [|split].
  - intros Hd. unfold addGrants, addPapers. now rewrite Hd.
  - intros Hd. unfold addGrants.
    destruct (data st) as [d|]; [|contradiction].
    destruct (addGrants_data d newGrants); [|discriminate].
    intros H. injection H as <-. split.
    + now rewrite entityIds_recordEach.
    + now rewrite (types_recordEach addedGrantDescr clock newGrants (ty:=add)).
  - intros Hd. unfold addPapers.
    destruct (data st) as [d|]; [|contradiction].
    destruct (addPapers_data d newPapers); [|discriminate].
    intros H. injection H as <-. split.
    + now rewrite entityIds_recordEach.
    + now rewrite (types_recordEach addedPaperDescr clock newPapers (ty:=add)).
Qed.

End AddFacts.

(** ** More on the merge of active grants *)

Section MergeOrder.
Import JsMap JsMapFacts.

(** the keys a fold of [set]s adds, after those that were there *)
Lemma keys_fold_added {A} (key : A -> string)
    (val : JsMap.t ActiveGrant.t -> A -> ActiveGrant.t) (l : list A) :
  forall m,
    exists added,
      keys (fold_left (fun m a => set m (key a) (val m a)) l m)
      = keys m ++ added /\
      (forall k, In k added <-> In k (map key l) /\ ~ In k (keys m)).
Proof.
  induction l as [|a l IH]; simpl; intros m.
  - exists []. rewrite app_nil_r. split; [reflexivity|]. simpl. tauto.
  - destruct (IH (set m (key a) (val m a))) as (added & E & Hin).
    destruct (in_dec string_dec (key a) (keys m)) as [Hk|Hk].
    + rewrite keys_set_in in E, Hin by exact Hk.
      exists added. split; [exact E|].
      intros k. rewrite Hin. split; [tauto|].
      intros [[<-|H] Hout]; [contradiction|tauto].
    + rewrite keys_set_notin in E, Hin by exact Hk.
      exists (key a :: added). split.
      * rewrite E, <- app_assoc. reflexivity.
      * intros k. simpl. rewrite Hin, in_app_iff. simpl.
        destruct (string_dec (key a) k) as [<-|Hne]; [tauto|].
        tauto.
Qed.

Lemma keys_fold_keyed (olds : list ActiveGrant.t) :
  forall m,
    NoDup (keys m ++ grantNumbersOf olds) ->
    keys (fold_left (fun m a => set m (ActiveGrant.grantNumber a) a) olds m)
    = keys m ++ grantNumbersOf olds.
Proof.
  induction olds as [|a l IH]; simpl; intros m Hnd.
  - now rewrite app_nil_r.
  - assert (Hout : ~ In (ActiveGrant.grantNumber a) (keys m)).
    { intros Hin. apply NoDup_remove_2 in Hnd. apply Hnd.
      apply in_or_app. now left. }
    rewrite IH; rewrite keys_set_notin by exact Hout.
    + now rewrite <- app_assoc.
    + now rewrite <- app_assoc.
Qed.

Lemma keys_ofEntries olds :
  NoDup (grantNumbersOf olds) ->
  keys (ofEntries (map keyed olds)) = grantNumbersOf olds.
Proof.
  intros Hnd. rewrite ofEntries_keyed.
  change (fun m a => set m (ActiveGrant.grantNumber a) ((fun _ a0 => a0) m a))
    with (fun (m : JsMap.t ActiveGrant.t) a => set m (ActiveGrant.grantNumber a) a).
  now rewrite keys_fold_keyed.
Qed.

Lemma NoDup_app_right {A} (l1 l2 : list A) : NoDup (l1 ++ l2) -> NoDup l2.
Proof.
  induction l1 as [|a l1 IH]; simpl; auto.
  intros H. inversion H. auto.
Qed.

(** the merged array, whatever the loop body *)
Lemma merged_keys step val olds incoming r :
  step = (fun m a => set m (ActiveGrant.grantNumber a) (val m a)) ->
  NoDup (grantNumbersOf olds) ->
  (forall m, Keyed m -> forall l, Keyed (fold_left step l m)) ->
  mergeActiveGrants step (Some olds) incoming = Ret r ->
  exists l added,
    r = Some l /\
    grantNumbersOf l = grantNumbersOf olds ++ added /\
    NoDup added /\
    (forall k, In k added <->
               In k (grantNumbersOf (orNil incoming)) /\
               ~ In k (grantNumbersOf olds)).
Proof.
  intros Hstep Hnd Hkeyed Hm.
  apply mergeActiveGrants_inv in Hm.
  destruct Hm as [(a & news & -> & ->)|[Hx ->]].
  - destruct (keys_fold_added ActiveGrant.grantNumber val (a :: news)
                (ofEntries (map keyed olds))) as (added & E & Hin).
    rewrite keys_ofEntries in E, Hin by exact Hnd.
    eexists _, added. split; [reflexivity|].
    rewrite values_grantNumbers by (apply Hkeyed, Keyed_ofEntries).
    rewrite Hstep. split; [exact E|]. split; [|exact Hin].
    apply (NoDup_app_right (grantNumbersOf olds)). rewrite <- E.
    apply (NoDup_keys_fold ActiveGrant.grantNumber val).
    apply NoDup_keys_ofEntries.
  - exists olds, []. rewrite app_nil_r.
    split; [reflexivity|]. split; [reflexivity|]. split; [constructor|].
    intros k. split; [intros []|].
    intros [H _]. destruct Hx as [-> | ->]; simpl in H; contradiction.
Qed.

(** X7.  A merge keeps the projects of the data set in their places and
    puts the projects with new grant numbers after them: the grant
    numbers of the merged array are those of the data set, in the same
    order, followed by the grant numbers the import brings that the data
    set did not have, each once.  This holds for the import merge and for
    the editor's apply. *)
Theorem merge_keeps_positions :
  forall d x y olds,
    CIRMData.activeGrants d = Some olds ->
    NoDup (grantNumbersOf olds) ->
    (mergeImported d x = Ret y \/ applyChanges d x = Ret y) ->
    exists l added,
      CIRMData.activeGrants y = Some l /\
      grantNumbersOf l = grantNumbersOf olds ++ added /\
      NoDup added /\
      (forall k, In k added <->
                 In k (grantNumbersOf (orNil (CIRMData.activeGrants x))) /\
                 ~ In k (grantNumbersOf olds)).
Proof.
  intros d x y olds Hd Hnd [Hm|Hm].
  - apply mergeImported_activeGrants in Hm. rewrite Hd in Hm.
    eapply merged_keys in Hm; eauto using importStep_eq.
    intros m Hk l. now apply Keyed_fold_importStep.
  - apply applyChanges_activeGrants in Hm. rewrite Hd in Hm.
    eapply merged_keys in Hm; eauto using applyStep_eq.
    intros m Hk l. now apply Keyed_fold_applyStep.
Qed.

(** X8.  A merge deletes nothing and touches only what it is given: a
    project of the data set whose grant number the import does not carry
    is in the merged array, unchanged, under its grant number. *)
Theorem merge_leaves_other_projects :
  forall d x y olds ag,
    CIRMData.activeGrants d = Some olds ->
    NoDup (grantNumbersOf olds) ->
    (mergeImported d x = Ret y \/ applyChanges d x = Ret y) ->
    In ag olds ->
    ~ In (ActiveGrant.grantNumber ag)
         (grantNumbersOf (orNil (CIRMData.activeGrants x))) ->
    exists l,
      CIRMData.activeGrants y = Some l /\
      recordOf (ActiveGrant.grantNumber ag) l = Some ag.
Proof.
  intros d x y olds ag Hd Hnd Hm Hin Hout.
  assert (Hlast := lastRecordOf_unique _ _ Hnd Hin).
  destruct Hm as [Hm|Hm].
  - apply mergeImported_activeGrants in Hm. rewrite Hd in Hm.
    apply mergeActiveGrants_inv in Hm.
    destruct Hm as [(a & news & Hx & Hr)|[Hx Hr]].
    + eexists. split; [exact Hr|]. rewrite Hx in Hout. simpl orNil in Hout.
      rewrite recordOf_values by (apply Keyed_fold_importStep, Keyed_ofEntries).
      rewrite get_fold_importStep_other by exact Hout.
      now rewrite get_ofEntries.
    + exists olds. split; [exact Hr|].
      unfold lastRecordOf in Hlast.
      destruct (recordOf (ActiveGrant.grantNumber ag) olds) as [v|] eqn:E.
      * apply recordOf_Some in E. destruct E as [Hv Hk].
        rewrite <- (lastRecordOf_unique _ _ Hnd Hv), Hk.
        exact (lastRecordOf_unique _ _ Hnd Hin).
      * apply recordOf_None in E. exfalso. apply E.
        unfold grantNumbersOf. now apply in_map.
  - apply applyChanges_activeGrants in Hm. rewrite Hd in Hm.
    apply mergeActiveGrants_inv in Hm.
    destruct Hm as [(a & news & Hx & Hr)|[Hx Hr]].
    + eexists. split; [exact Hr|]. rewrite Hx in Hout. simpl orNil in Hout.
      rewrite recordOf_values by (apply Keyed_fold_applyStep, Keyed_ofEntries).
      rewrite applyStep_eq.
      rewrite (get_fold_other ActiveGrant.grantNumber (fun _ a0 => a0))
        by exact Hout.
      now rewrite get_ofEntries.
    + exists olds. split; [exact Hr|].
      destruct (recordOf (ActiveGrant.grantNumber ag) olds) as [v|] eqn:E.
      * apply recordOf_Some in E. destruct E as [Hv Hk].
        rewrite <- (lastRecordOf_unique _ _ Hnd Hv), Hk.
        exact (lastRecordOf_unique _ _ Hnd Hin).
      * apply recordOf_None in E. exfalso. apply E.
        unfold grantNumbersOf. now apply in_map.
Qed.

End MergeOrder.

(** ** Importing twice, and what the grants view marks *)

Section ReimportFacts.
Import JsMap JsMapFacts.

Lemma detectChanges_awardValue existing ag :
  ActiveGrant.awardValue (detectChanges existing ag) = ActiveGrant.awardValue ag.
Proof.
  unfold detectChanges.
  destruct (_ =? _); destruct (String.eqb _ _); reflexivity.
Qed.

Lemma detectChanges_awardStatus existing ag :
  ActiveGrant.awardStatus (detectChanges existing ag) = ActiveGrant.awardStatus ag.
Proof.
  unfold detectChanges.
  destruct (_ =? _); destruct (String.eqb _ _); reflexivity.
Qed.

(** against a record of the same value and status nothing is assigned *)
Lemma detectChanges_same existing ag :
  ActiveGrant.awardValue existing = ActiveGrant.awardValue ag ->
  ActiveGrant.awardStatus existing = ActiveGrant.awardStatus ag ->
  detectChanges existing ag = ag.
Proof.
  intros Hv Hs. unfold detectChanges.
  rewrite Hv, Z.eqb_refl, Hs, String.eqb_refl. reflexivity.
Qed.

Lemma NoDup_once (l : list string) k :
  NoDup l -> In k l -> count_occ string_dec l k = 1%nat.
Proof.
  intros Hnd Hin.
  pose proof (proj1 (NoDup_count_occ string_dec l) Hnd k) as Hle.
  pose proof (proj1 (count_occ_In string_dec l k) Hin) as Hpos.
  lia.
Qed.

(** the record a first import leaves under the number of an incoming
    record has the value and the status of that record *)
Lemma first_import_record d x y news ag :
  mergeImported d x = Ret y ->
  CIRMData.activeGrants x = Some news ->
  NoDup (grantNumbersOf news) ->
  In ag news ->
  exists l r,
    CIRMData.activeGrants y = Some l /\
    NoDup (grantNumbersOf l) /\
    In r l /\
    ActiveGrant.grantNumber r = ActiveGrant.grantNumber ag /\
    ActiveGrant.awardValue r = ActiveGrant.awardValue ag /\
    ActiveGrant.awardStatus r = ActiveGrant.awardStatus ag.
Proof.
  intros Hm Hx Hnd Hin.
  apply mergeImported_activeGrants in Hm. rewrite Hx in Hm.
  destruct (CIRMData.activeGrants d) as [olds|];
    [|destruct news; [contradiction|discriminate]].
  apply mergeActiveGrants_inv in Hm.
  destruct Hm as [(a & news' & Heq & Hr)|[[Heq|Heq] _]];
    [|discriminate|injection Heq as ->; contradiction].
  injection Heq as Heq. rewrite <- Heq in Hr. clear Heq a news'.
  destruct (once_split _ _ Hin
              (NoDup_once _ Hnd (in_map ActiveGrant.grantNumber _ _ Hin)))
    as (pre & post & -> & Hpre & Hpost).
  set (m := fold_left importStep (pre ++ ag :: post) (ofEntries (map keyed olds))).
  assert (Hk : Keyed m) by apply Keyed_fold_importStep, Keyed_ofEntries.
  assert (Hg : recordOf (ActiveGrant.grantNumber ag) (values m)
               = Some (importValue
                         (fold_left importStep pre (ofEntries (map keyed olds)))
                         ag)).
  { rewrite recordOf_values by exact Hk. now apply get_fold_importStep. }
  apply recordOf_Some in Hg. destruct Hg as [Hr1 Hr2].
  eexists _, _. split; [exact Hr|]. split.
  { rewrite values_grantNumbers by exact Hk.
    apply NoDup_fold_importStep, NoDup_keys_ofEntries. }
  split; [exact Hr1|]. split; [exact Hr2|].
  unfold importValue. destruct (get _ _); auto.
  split; [apply detectChanges_awardValue|apply detectChanges_awardStatus].
Qed.

(** X9.  Importing the same active-grant rows twice in a row leaves
    every imported project exactly as the rows have it: on the second
    import nothing differs, nothing is assigned, and the incoming record
    replaces the merged one, so the previous value and status that the
    first import recorded are gone unless the rows carry them. *)
Theorem reimport_drops_recorded_changes :
  forall d x y z news ag,
    mergeImported d x = Ret y ->
    mergeImported y x = Ret z ->
    CIRMData.activeGrants x = Some news ->
    NoDup (grantNumbersOf news) ->
    In ag news ->
    exists l,
      CIRMData.activeGrants z = Some l /\
      recordOf (ActiveGrant.grantNumber ag) l = Some ag.
Proof.
  intros d x y z news ag Hy Hz Hx Hnd Hin.
  destruct (@first_import_record _ _ _ _ _ Hy Hx Hnd Hin)
    as (ly & r & Hly & Hndy & Hr & Hk & Hv & Hs).
  assert (Hlast : lastRecordOf (ActiveGrant.grantNumber ag) ly = Some r).
  { rewrite <- Hk. now apply lastRecordOf_unique. }
  destruct (importData_merged_record _ _ _ Hz Hly Hx Hlast Hin
              (NoDup_once _ Hnd (in_map ActiveGrant.grantNumber _ _ Hin)))
    as (l & Hl & Hrec).
  exists l. split; [exact Hl|].
  now rewrite Hrec, detectChanges_same.
Qed.

(** X10.  What the grants view marks after an import.  For an incoming
    row that carries no previous status, whose grant number the data set
    holds and the import carries once, the merged project is marked as
    status-changed exactly when its flag is not off, the data set's
    status was a non-empty one other than Closed, and the incoming status
    is Closed; for a row that carries no previous value, it is marked as
    value-changed exactly when its flag is not off and the two award
    values differ. *)
Theorem marks_after_import :
  forall d imported merged olds news existing ag,
    mergeImported d imported = Ret merged ->
    CIRMData.activeGrants d = Some olds ->
    CIRMData.activeGrants imported = Some news ->
    lastRecordOf (ActiveGrant.grantNumber ag) olds = Some existing ->
    In ag news ->
    count_occ string_dec (grantNumbersOf news) (ActiveGrant.grantNumber ag) = 1%nat ->
    exists l r,
      CIRMData.activeGrants merged = Some l /\
      recordOf (ActiveGrant.grantNumber ag) l = Some r /\
      (ActiveGrant.previousAwardStatus ag = None ->
       isStatusChanged r
       = (notFalse (ActiveGrant.showStatusChange ag)
          && Str.nonEmpty (ActiveGrant.awardStatus existing)
          && negb (String.eqb (ActiveGrant.awardStatus existing) "Closed")
          && String.eqb (ActiveGrant.awardStatus ag) "Closed")%bool) /\
      (ActiveGrant.previousAwardValue ag = None ->
       hasValueChange r
       = (notFalse (ActiveGrant.showValueChange ag)
          && negb (ActiveGrant.awardValue existing =? ActiveGrant.awardValue ag))%bool).
Proof.
  intros d imported merged olds news existing ag Hm Hd Hi Hex Hin Hc.
  destruct (importData_merged_record _ _ _ Hm Hd Hi Hex Hin Hc) as (l & Hl & Hr).
  exists l, (detectChanges existing ag).
  split; [exact Hl|]. split; [exact Hr|]. split.
  - intros Hp. unfold isStatusChanged.
    rewrite detectChanges_previousAwardStatus, detectChanges_awardStatus, Hp.
    replace (ActiveGrant.showStatusChange (detectChanges existing ag))
      with (ActiveGrant.showStatusChange ag)
      by (unfold detectChanges;
          destruct (_ =? _); destruct (String.eqb _ _); reflexivity).
    destruct (String.eqb (ActiveGrant.awardStatus existing)
                         (ActiveGrant.awardStatus ag)) eqn:E.
    + apply String.eqb_eq in E. rewrite E.
      destruct (notFalse _), (Str.nonEmpty _),
        (String.eqb (ActiveGrant.awardStatus ag) "Closed"); reflexivity.
    + rewrite !andb_assoc. reflexivity.
  - intros Hp. unfold hasValueChange.
    rewrite detectChanges_previousAwardValue, Hp.
    replace (ActiveGrant.showValueChange (detectChanges existing ag))
      with (ActiveGrant.showValueChange ag)
      by (unfold detectChanges;
          destruct (_ =? _); destruct (String.eqb _ _); reflexivity).
    destruct (_ =? _); destruct (notFalse _); reflexivity.
Qed.

End ReimportFacts.

(** ** Workbooks through the importer and the editor *)

Section WorkbookFacts.

Variable parseNumber : string -> number.

Lemma parseExcelFile_unknown workbook :
  Forall (fun s => parseExcelFile_sheetType (fst s) = unknown_t) workbook ->
  parseExcelFile parseNumber workbook = emptyResult.
Proof.
  unfold parseExcelFile. generalize emptyResult.
  induction workbook as [|[n sh] wb IH]; intros r H; [reflexivity|].
  cbn [fold_left].
  inversion H as [|x l Hx Hl]; subst. simpl in Hx.
  replace (parseExcelFile_sheet parseNumber r (n, sh)) with r
    by (unfold parseExcelFile_sheet; now rewrite Hx).
  now apply IH.
Qed.

Lemma mergeImported_emptyResult d :
  CIRMData.complete d -> mergeImported d emptyResult = Ret d.
Proof.
  intros (Hs & Hg & Ha & Hp).
  destruct d as [[s|] u [gs|] [ags|] [ps|] ex]; simpl in *; try contradiction.
  unfold mergeImported. simpl. rewrite !app_nil_r.
  destruct s. simpl. now rewrite !Z.add_0_r.
Qed.

(** X11.  A workbook none of whose sheet names the importer recognises
    (a workbook without sheets included) is imported as a success: over a
    complete data set the data saved is the data set as it was, and the
    entry logged counts no grant and no paper. *)
Theorem unrecognised_workbook_is_a_successful_import :
  forall env file st d workbook,
    (Str.endsWith ".xlsx" (name file) || Str.endsWith ".xls" (name file))%bool
    = true ->
    readArray file = Some workbook ->
    Forall (fun s => parseExcelFile_sheetType (fst s) = unknown_t) workbook ->
    data st = Some d ->
    CIRMData.complete d ->
    importData parseNumber env file st
    = (recordChange env (importDescr emptyResult) (saveData d st), true) /\
    DataChange.changes (newChange env (importDescr emptyResult))
    = [("imported", (PNull, PImportCounts 0 0))].
Proof.
  intros env file st d workbook Hn Hr Hu Hd Hc. split; [|reflexivity].
  unfold importData, importData_try, readImported.
  rewrite Hn, Hr. simpl. rewrite (parseExcelFile_unknown Hu). simpl.
  rewrite Hd, (mergeImported_emptyResult Hc). reflexivity.
Qed.

(** every array of the editor's parse is there, whatever the workbook *)
Lemma processEditorFile_arrays workbook :
  exists gs ags ps,
    processEditorFile parseNumber workbook
    = CIRMData.mk None None (Some gs) (Some ags) (Some ps) [].
Proof.
  unfold processEditorFile.
  assert (H : exists gs ags ps,
             emptyResult = CIRMData.mk None None (Some gs) (Some ags) (Some ps) [])
    by (exists [], [], []; reflexivity).
  revert H. generalize emptyResult.
  induction workbook as [|[n sh] wb IH]; simpl; intros r H; auto.
  apply IH. destruct H as (gs & ags & ps & ->).
  unfold processEditorFile_sheet.
  destruct sh as [|hd rows]; [eauto|].
  destruct (detectSheetType n); simpl; eauto.
Qed.

Lemma processEditorFile_no_grants workbook :
  Forall (fun s => detectSheetType (fst s) <> grants_t) workbook ->
  CIRMData.grants (processEditorFile parseNumber workbook) = Some [].
Proof.
  unfold processEditorFile.
  assert (H : CIRMData.grants emptyResult = Some []) by reflexivity.
  revert H. generalize emptyResult.
  induction workbook as [|[n sh] wb IH]; simpl; intros r H Hf; auto.
  inversion Hf as [|x l Hx Hl]; subst. simpl in Hx.
  apply IH; auto. unfold processEditorFile_sheet.
  destruct sh as [|hd rows]; auto.
  destruct (detectSheetType n); simpl; auto. contradiction.
Qed.

Lemma processEditorFile_no_papers workbook :
  Forall (fun s => detectSheetType (fst s) <> papers_t) workbook ->
  CIRMData.papers (processEditorFile parseNumber workbook) = Some [].
Proof.
  unfold processEditorFile.
  assert (H : CIRMData.papers emptyResult = Some []) by reflexivity.
  revert H. generalize emptyResult.
  induction workbook as [|[n sh] wb IH]; simpl; intros r H Hf; auto.
  inversion Hf as [|x l Hx Hl]; subst. simpl in Hx.
  apply IH; auto. unfold processEditorFile_sheet.
  destruct sh as [|hd rows]; auto.
  destruct (detectSheetType n); simpl; auto. contradiction.
Qed.

(** X12.  The editor's apply replaces the grants and the papers by what
    the uploaded workbook holds, never falling back on the data set's:
    the parse always hands over both arrays, empty ones included.  So
    applying a workbook without a grant sheet leaves the data set with no
    grant and with [totalGrants], [totalProjects], [totalAmount] and
    [activeProjects] at zero, and applying one without a paper sheet
    leaves it with no paper and [totalPapers] at zero. *)
Theorem apply_replaces_grants_and_papers :
  forall workbook d y,
    applyChanges d (processEditorFile parseNumber workbook) = Ret y ->
    CIRMData.grants y = CIRMData.grants (processEditorFile parseNumber workbook) /\
    CIRMData.papers y = CIRMData.papers (processEditorFile parseNumber workbook) /\
    (Forall (fun s => detectSheetType (fst s) <> grants_t) workbook ->
     CIRMData.grants y = Some [] /\
     exists s,
       CIRMData.summary y = Some s /\
       DataSummary.totalGrants s = 0 /\
       DataSummary.totalProjects s = 0 /\
       DataSummary.totalAmount s = 0 /\
       DataSummary.activeProjects s = 0) /\
    (Forall (fun s => detectSheetType (fst s) <> papers_t) workbook ->
     CIRMData.papers y = Some [] /\
     exists s,
       CIRMData.summary y = Some s /\ DataSummary.totalPapers s = 0).
Proof.
  intros workbook d y H.
  pose proof (processEditorFile_no_grants (workbook:=workbook)) as Hg.
  pose proof (processEditorFile_no_papers (workbook:=workbook)) as Hp.
  destruct (processEditorFile_arrays workbook) as (gs & ags & ps & E).
  rewrite E in *. unfold applyChanges in H.
  destruct (mergeActiveGrants applyStep _ _) as [m|] in H; [|discriminate].
  cbn in H. injection H as <-. simpl.
  split; [reflexivity|]. split; [reflexivity|]. split.
  - intros Hf. specialize (Hg Hf). simpl in Hg. injection Hg as ->.
    split; [reflexivity|]. eexists. split; [reflexivity|]. repeat split.
  - intros Hf. specialize (Hp Hf). simpl in Hp. injection Hp as ->.
    split; [reflexivity|]. eexists. split; reflexivity.
Qed.

Lemma strOr_CStr s : strOr (CStr s) EmptyString = s.
Proof. unfold strOr, orElse. simpl. now destruct s. Qed.

Lemma strOr_CStr_default s dflt :
  s <> EmptyString -> strOr (CStr s) dflt = s.
Proof. unfold strOr, orElse. simpl. destruct s; [contradiction|reflexivity]. Qed.

Lemma mapi_from_map {A B C} (f : B -> Z -> C) (g : A -> B) l :
  forall i, mapi_from i f (map g l) = mapi_from i (fun a => f (g a)) l.
Proof. induction l as [|a l IH]; simpl; intros i; auto. now rewrite IH. Qed.

Lemma mapi_from_ext {A B} (f g : A -> Z -> B) l :
  (forall a i, In a l -> f a i = g a i) ->
  forall i, mapi_from i f l = mapi_from i g l.
Proof.
  induction l as [|a l IH]; simpl; intros H i; auto.
  rewrite H by now left. f_equal. apply IH. intros b j Hb. apply H. now right.
Qed.

Lemma filter_all {A} (p : A -> bool) l :
  (forall a, In a l -> p a = true) -> filter p l = l.
Proof.
  induction l as [|a l IH]; simpl; intros H; auto.
  rewrite H by now left. f_equal. apply IH. intros b Hb. apply H. now right.
Qed.

Lemma In_mapi_from {A B} (f : A -> Z -> B) l b :
  forall i, In b (mapi_from i f l) -> exists a j, In a l /\ b = f a j.
Proof.
  induction l as [|a l IH]; simpl; intros i; [tauto|].
  intros [<-|H]; [eauto|].
  destruct (IH _ H) as (a' & j & Ha & ->). eauto.
Qed.

(** X13.  The Grants sheet of the template read back by the editor: the
    rows that [handleDownloadTemplate] writes for grants whose grant type
    and award status are not empty parse, under the sheet name Grants,
    into the same grants in the same order, with the program type, grant
    type, approval date, award count, award value and status of each;
    the ids are renumbered from 1, empty notes come back as none, and no
    grant comes back as new. *)
Theorem grants_template_round_trip :
  forall gs,
    Forall (fun g => Grant.grantType g <> EmptyString /\
                     Grant.awardStatus g <> EmptyString) gs ->
    CIRMData.grants
      (processEditorFile parseNumber [("Grants", templateGrantsSheet gs)])
    = Some (mapi reparsedGrant gs).
Proof.
  intros gs Hgs. unfold processEditorFile. simpl fold_left.
  unfold processEditorFile_sheet, templateGrantsSheet.
  change (detectSheetType "Grants") with grants_t. simpl CIRMData.grants.
  f_equal. unfold editorRows, slice1. simpl tl.
  rewrite (filter_all (fun row => existsb filled row) (map templateGrantRow gs)).
  2:{ intros row Hrow. apply in_map_iff in Hrow.
      destruct Hrow as (g & <- & _). unfold templateGrantRow. simpl.
      repeat (rewrite ?orb_true_r; simpl). reflexivity. }
  unfold editorGrants, mapi. rewrite mapi_from_map.
  rewrite (@mapi_from_ext _ _
             (fun a => grantOfRow parseNumber (templateGrantRow a))
             reparsedGrant gs).
  - apply filter_all. intros g Hg.
    apply In_mapi_from in Hg. destruct Hg as (a & j & Ha & ->).
    rewrite Forall_forall in Hgs. destruct (Hgs a Ha) as [Ht _].
    simpl. now destruct (Grant.grantType a).
  - intros a i Ha. rewrite Forall_forall in Hgs.
    destruct (Hgs a Ha) as [_ Hst].
    unfold grantOfRow, reparsedGrant, templateGrantRow, cell. simpl.
    rewrite !strOr_CStr, (strOr_CStr_default _ Hst).
    unfold strOrNull, notesOrEmpty. simpl.
    destruct (Grant.notes a) as [n|]; reflexivity.
Qed.

End WorkbookFacts.

(** ** The grant numbers read from a cell *)

Section GrantNumberFacts.
Import GrantNumberRe.

Lemma span_app p s a b : span p s = (a, b) -> s = (a ++ b)%string.
Proof.
  revert a b. induction s as [|c s IH]; simpl; intros a b H.
  - now injection H as <- <-.
  - destruct (p c).
    + destruct (span p s) as [a' b'] eqn:E. injection H as <- <-.
      simpl. f_equal. now apply IH.
    + now injection H as <- <-.
Qed.

Lemma span_all p s a b c :
  span p s = (a, b) -> anyChar (fun x => Ascii.eqb x c) a = true -> p c = true.
Proof.
  revert a b. induction s as [|c0 s IH]; simpl; intros a b H.
  - injection H as <- <-. discriminate.
  - destruct (p c0) eqn:P.
    + destruct (span p s) as [a' b'] eqn:E. injection H as <- <-. simpl.
      intros Hc. apply orb_true_iff in Hc. destruct Hc as [Hc|Hc].
      * apply Ascii.eqb_eq in Hc. now subst.
      * eapply IH; eauto.
    + injection H as <- <-. discriminate.
Qed.

Lemma span_head p s a b c a' :
  span p s = (a, b) -> a = String c a' -> p c = true.
Proof.
  intros H ->. eapply span_all; eauto. simpl. now rewrite Ascii.eqb_refl.
Qed.

Lemma span_none p s :
  anyChar p s = false -> forall a b, span p s = (a, b) -> a = EmptyString.
Proof.
  destruct s as [|c s]; simpl; intros H a b E.
  - now injection E as <- <-.
  - apply orb_false_iff in H. destruct H as [H _]. rewrite H in E.
    now injection E as <- <-.
Qed.

Lemma opt_app p s a b : opt p s = (a, b) -> s = (a ++ b)%string.
Proof.
  destruct s as [|c s]; simpl; intros H.
  - now injection H as <- <-.
  - destruct (p c); now injection H as <- <-.
Qed.

Lemma startsWith_app m r : Str.startsWith m (m ++ r)%string = true.
Proof.
  induction m as [|c m IH]; simpl; [now destruct r|].
  now rewrite Ascii.eqb_refl.
Qed.

Lemma anyChar_app p a b :
  anyChar p (a ++ b)%string = (anyChar p a || anyChar p b)%bool.
Proof.
  induction a as [|c a IH]; simpl; auto. now rewrite IH, orb_assoc.
Qed.

Lemma app_assoc_string (a b c : string) :
  ((a ++ b) ++ c = a ++ (b ++ c))%string.
Proof. induction a as [|x a IH]; simpl; auto. now rewrite IH. Qed.

(** a match at the head of a text: a prefix of it, that begins with a
    capital letter and holds a digit *)
Lemma matchAt_spec s m :
  matchAt s = Some m ->
  Str.startsWith m s = true /\
  (exists c rest, m = String c rest /\ isUpper c = true) /\
  anyChar isDigit m = true.
Proof.
  unfold matchAt.
  destruct (span isUpper s) as [ls r1] eqn:E1.
  destruct (Str.nonEmpty ls) eqn:N1; simpl; [|discriminate].
  destruct (span isDigit r1) as [ds r2] eqn:E2.
  destruct (Str.nonEmpty ds) eqn:N2; simpl; [|discriminate].
  destruct (opt isUpper r2) as [l1 r3] eqn:E3.
  destruct (opt isHyphen r3) as [h r4] eqn:E4.
  destruct (span (fun c => (isDigit c || isUpper c)%bool) r4) as [tl r5] eqn:E5.
  intros H. injection H as <-.
  split; [|split].
  - rewrite (@span_app _ _ _ _ E1), (@span_app _ _ _ _ E2), (@opt_app _ _ _ _ E3),
      (@opt_app _ _ _ _ E4), (@span_app _ _ _ _ E5).
    rewrite <- !app_assoc_string. rewrite !app_assoc_string.
    replace (ls ++ ds ++ l1 ++ h ++ tl ++ r5)%string
      with ((ls ++ ds ++ l1 ++ h ++ tl) ++ r5)%string
      by (now rewrite !app_assoc_string).
    apply startsWith_app.
  - destruct ls as [|c ls']; [discriminate|].
    exists c. eexists. split; [reflexivity|].
    eapply span_head; eauto.
  - rewrite !anyChar_app.
    destruct ds as [|c ds']; [discriminate|].
    assert (Hc : isDigit c = true) by (eapply span_head; eauto).
    simpl. rewrite Hc. simpl. now rewrite orb_true_r.
Qed.

Lemma matchAt_needs p s :
  (p = isUpper \/ p = isDigit) ->
  anyChar p s = false -> matchAt s = None.
Proof.
  intros Hp Hs. unfold matchAt.
  destruct (span isUpper s) as [ls r1] eqn:E1.
  destruct Hp as [-> | ->].
  - rewrite (@span_none _ _ Hs _ _ E1). reflexivity.
  - destruct (Str.nonEmpty ls); simpl; auto.
    destruct (span isDigit r1) as [ds r2] eqn:E2.
    assert (Hr : anyChar isDigit r1 = false).
    { rewrite (@span_app _ _ _ _ E1), anyChar_app in Hs.
      now apply orb_false_iff in Hs. }
    rewrite (@span_none _ _ Hr _ _ E2). reflexivity.
Qed.

Lemma includes_tail p c s :
  Str.includes p s = true -> Str.includes p (String c s) = true.
Proof. intros H. simpl. rewrite H. apply orb_true_r. Qed.

Lemma includes_startsWith p s :
  Str.startsWith p s = true -> Str.includes p s = true.
Proof. intros H. destruct s; simpl in *; now rewrite H. Qed.

Lemma scan_spec s :
  forall skip m,
    In m (scan s skip) ->
    Str.includes m s = true /\
    (exists c rest, m = String c rest /\ isUpper c = true) /\
    anyChar isDigit m = true.
Proof.
  induction s as [|c s IH]; simpl; intros skip m H; [contradiction|].
  destruct skip as [|k].
  - destruct (matchAt (String c s)) as [m0|] eqn:E.
    + destruct H as [<-|H].
      * destruct (@matchAt_spec _ _ E) as (H1 & H2 & H3).
        split; [|auto]. simpl in H1. now rewrite H1.
      * destruct (IH _ _ H) as (H1 & H2). split; [|exact H2].
        rewrite H1. apply orb_true_r.
    + destruct (IH _ _ H) as (H1 & H2). split; [|exact H2].
      rewrite H1. apply orb_true_r.
  - destruct (IH _ _ H) as (H1 & H2). split; [|exact H2].
    rewrite H1. apply orb_true_r.
Qed.

Lemma scan_needs p s :
  (p = isUpper \/ p = isDigit) ->
  anyChar p s = false -> forall skip, scan s skip = [].
Proof.
  intros Hp. induction s as [|c s IH]; simpl; intros Hs skip; auto.
  assert (Hs' : anyChar p s = false) by (now apply orb_false_iff in Hs).
  destruct skip; auto.
  rewrite (@matchAt_needs p (String c s) Hp Hs). auto.
Qed.

(** X14.  Every grant number extracted from a cell is a piece of the
    cell's text, begins with a capital letter and holds a digit; and a
    text without a capital letter, or without a digit, yields none, so
    grant numbers typed in lower case are not recognised. *)
Theorem grantNumbers_shape :
  forall s,
    (forall m,
        In m (matchAll s) ->
        Str.includes m s = true /\
        (exists c rest, m = String c rest /\ isUpper c = true) /\
        anyChar isDigit m = true)
    /\
    (anyChar isUpper s = false \/ anyChar isDigit s = false ->
     matchAll s = []).
Proof.
  intros s. split.
  - intros m. apply scan_spec.
  - intros [H|H]; unfold matchAll.
    + now apply (scan_needs (p:=isUpper)); auto.
    + now apply (scan_needs (p:=isDigit)); auto.
Qed.

End GrantNumberFacts.

(** ** The filters of the tables *)

Section FilterFacts.

Variable toLowerCase : string -> string.

Lemma inForce_rejects o v : inForce o = false -> rejects o v = false.
Proof. destruct o as [s|]; simpl; auto. now intros ->. Qed.

(** X15.  A filter that is absent or the empty string filters nothing:
    with the three filters of a table absent or empty, the call returns
    every grant, respectively every paper, of the data set in order; and
    with no data set loaded it returns the empty list. *)
Theorem empty_filters_return_everything :
  forall gf pf st,
    (data st = None ->
     getFilteredGrants toLowerCase gf st = Ret [] /\
     getFilteredPapers toLowerCase pf st = Ret [])
    /\
    (forall d gs,
        data st = Some d -> CIRMData.grants d = Some gs ->
        inForce (gf_programType gf) = false ->
        inForce (gf_status gf) = false ->
        inForce (gf_search gf) = false ->
        getFilteredGrants toLowerCase gf st = Ret gs)
    /\
    (forall d ps,
        data st = Some d -> CIRMData.papers d = Some ps ->
        inForce (pf_publication pf) = false ->
        inForce (pf_year pf) = false ->
        inForce (pf_search pf) = false ->
        getFilteredPapers toLowerCase pf st = Ret ps).
Proof.
  intros gf pf st. split; [|split].
  - intros Hd. unfold getFilteredGrants, getFilteredPapers. now rewrite Hd.
  - intros d gs Hd Hg H1 H2 H3. unfold getFilteredGrants.
    rewrite Hd, Hg. simpl. f_equal. apply filter_all.
    intros g _. unfold grantPasses.
    now rewrite (inForce_rejects _ _ H1), (inForce_rejects _ _ H2), H3.
  - intros d ps Hd Hp H1 H2 H3. unfold getFilteredPapers.
    rewrite Hd, Hp. simpl. f_equal. apply filter_all.
    intros p _. unfold paperPasses.
    replace (publicationRejects (pf_publication pf) (Paper.publication p))
      with false
      by (destruct (pf_publication pf); simpl in *; [now rewrite H1|reflexivity]).
    replace (yearRejects (pf_year pf) (Paper.publishedOnline p)) with false
      by (destruct (pf_year pf); simpl in *;
          [rewrite H2; now destruct (Paper.publishedOnline p)|reflexivity]).
    now rewrite H3.
Qed.

(** X16.  The year filter passes every paper that has no publication
    date: such a paper is in the result of a query exactly when it is in
    the result of the same query without the year. *)
Theorem year_filter_passes_undated_papers :
  forall pf st l l' p,
    getFilteredPapers toLowerCase pf st = Ret l ->
    getFilteredPapers toLowerCase (withoutYear pf) st = Ret l' ->
    inForce (Paper.publishedOnline p) = false ->
    (In p l <-> In p l').
Proof.
  intros pf st l l' p. unfold getFilteredPapers.
  destruct (data st) as [d|].
  - destruct (CIRMData.papers d) as [ps|]; simpl; [|discriminate].
    intros H H' Hp. injection H as <-. injection H' as <-.
    rewrite !filter_In.
    assert (E : paperPasses toLowerCase pf p
                = paperPasses toLowerCase (withoutYear pf) p).
    { unfold paperPasses, withoutYear. simpl.
      replace (yearRejects (pf_year pf) (Paper.publishedOnline p)) with false.
      - reflexivity.
      - unfold yearRejects. destruct (pf_year pf) as [y|]; auto.
        destruct (Paper.publishedOnline p) as [q|]; auto.
        simpl in Hp. rewrite Hp. now rewrite andb_false_r. }
    now rewrite E.
  - intros H H' _. injection H as <-. injection H' as <-. tauto.
Qed.

End FilterFacts.

(** ** The upload gate and the readers of [importData] *)

Section GateFacts.

Variable parseNumber : string -> number.

Lemma endsWith_nonEmpty p s :
  Str.endsWith p s = true -> p <> EmptyString -> s <> EmptyString.
Proof.
  intros H Hp ->. simpl in H. rewrite orb_false_r in H.
  apply String.eqb_eq in H. contradiction.
Qed.

Lemma endsWith_lastChar p s :
  p <> EmptyString -> Str.endsWith p s = true -> lastChar s = lastChar p.
Proof.
  intros Hp. induction s as [|c s IH]; intros H.
  - exfalso. exact (@endsWith_nonEmpty _ _ H Hp eq_refl).
  - simpl in H. apply orb_true_iff in H. destruct H as [H|H].
    + apply String.eqb_eq in H. now subst.
    + rewrite <- (IH H). simpl.
      destruct s; [|reflexivity].
      exfalso. exact (@endsWith_nonEmpty _ _ H Hp eq_refl).
Qed.

Lemma endsWith_clash p q s :
  p <> EmptyString -> q <> EmptyString ->
  lastChar p <> lastChar q ->
  Str.endsWith p s = true -> Str.endsWith q s = false.
Proof.
  intros Hp Hq Hne H.
  destruct (Str.endsWith q s) eqn:E; auto.
  exfalso. apply Hne.
  now rewrite <- (@endsWith_lastChar _ _ Hp H), <- (@endsWith_lastChar _ _ Hq E).
Qed.

(** X17.  The upload handler and the importer disagree on .xls: a file
    whose name ends in .xls and whose declared type is not one of the
    three listed ones is turned away by [handleImportFileUpload], though
    [importData] would read it as a workbook. *)
Theorem xls_refused_at_the_gate :
  forall type_ file workbook,
    Str.endsWith ".xls" (name file) = true ->
    existsb (String.eqb type_) validTypes = false ->
    readArray file = Some workbook ->
    uploadAccepted type_ (name file) = false /\
    readImported parseNumber file = Ret (parseExcelFile parseNumber workbook).
Proof.
  intros type_ file workbook Hn Ht Hr. split.
  - unfold uploadAccepted. rewrite Ht.
    rewrite (@endsWith_clash ".xls" ".json" (name file)); auto; try discriminate.
    rewrite (@endsWith_clash ".xls" ".xlsx" (name file)); auto; try discriminate.
    rewrite (@endsWith_clash ".xls" ".csv" (name file)); auto; discriminate.
  - unfold readImported. rewrite Hn, orb_true_r, Hr. reflexivity.
Qed.

(** every array of the importer's parse is there, and no summary *)
Lemma parseExcelFile_arrays workbook :
  exists gs ags ps,
    parseExcelFile parseNumber workbook
    = CIRMData.mk None None (Some gs) (Some ags) (Some ps) [].
Proof.
  unfold parseExcelFile.
  assert (H : exists gs ags ps,
             emptyResult = CIRMData.mk None None (Some gs) (Some ags) (Some ps) [])
    by (exists [], [], []; reflexivity).
  revert H. generalize emptyResult.
  induction workbook as [|[n sh] wb IH]; simpl; intros r H; auto.
  apply IH. destruct H as (gs & ags & ps & ->).
  unfold parseExcelFile_sheet.
  destruct (parseExcelFile_sheetType n); simpl; eauto.
Qed.

(** X18.  No content of a workbook is refused.  Over a complete data
    set, for a workbook that could be read, whatever its sheets and rows
    hold, the [try] block of [importData] reaches the call of [saveData]:
    reading, the structure check and the merge throw nothing, and what
    is handed to [saveData] is the merge of the parsed content into the
    data set. *)
Theorem readable_workbook_is_never_refused :
  forall file st d workbook,
    (Str.endsWith ".xlsx" (name file) || Str.endsWith ".xls" (name file))%bool
    = true ->
    readArray file = Some workbook ->
    data st = Some d ->
    CIRMData.complete d ->
    exists merged,
      mergeImported d (parseExcelFile parseNumber workbook) = Ret merged /\
      importData_try parseNumber st file
      = Ret (parseExcelFile parseNumber workbook, merged).
Proof.
  intros file st d workbook Hn Hr Hd (Hs & Hg & Ha & Hp).
  destruct (parseExcelFile_arrays workbook) as (gs & ags & ps & E).
  destruct d as [[s|] u [gs0|] [ags0|] [ps0|] ex]; simpl in *; try contradiction.
  assert (Hm : exists merged,
             mergeImported (CIRMData.mk (Some s) u (Some gs0) (Some ags0) (Some ps0) ex)
               (parseExcelFile parseNumber workbook) = Ret merged).
  { rewrite E. unfold mergeImported. simpl.
    destruct ags as [|a ags']; simpl; eauto. }
  destruct Hm as (merged & Hm). exists merged. split; [exact Hm|].
  unfold importData_try, readImported.
  rewrite Hn, Hr. simpl.
  rewrite (@validate_ok _ (or_introl (parseExcelFile_grants parseNumber workbook))).
  simpl. rewrite Hd, Hm. reflexivity.
Qed.

End GateFacts.

(** ** The Basic-authentication middleware *)

Section BasicAuthFacts.
Import BasicAuth.

Variable atob : string -> option string.

Lemma split_nonnil sep s : split sep s <> [].
Proof.
  destruct s as [|c s]; simpl; [discriminate|].
  destruct (Ascii.eqb c sep); [discriminate|].
  destruct (split sep s); discriminate.
Qed.

Lemma split_first sep s h t :
  split sep s = h :: t ->
  lacks sep h = true /\
  ((t = [] /\ s = h) \/
   (exists s2, s = (h ++ String sep s2)%string /\ t = split sep s2)).
Proof.
  revert h t. induction s as [|c s IH]; simpl; intros h t H.
  - injection H as <- <-. auto.
  - destruct (Ascii.eqb c sep) eqn:E.
    + injection H as <- <-. apply Ascii.eqb_eq in E. subst c.
      split; [reflexivity|]. right. exists s. auto.
    + destruct (split sep s) as [|h' t'] eqn:S.
      * exfalso. now apply (split_nonnil sep s).
      * injection H as <- <-.
        destruct (IH _ _ eq_refl) as (L & [(-> & ->)|(s2 & -> & ->)]).
        -- simpl. rewrite E, L. auto.
        -- simpl. rewrite E, L. split; [reflexivity|]. right. exists s2. auto.
Qed.

Lemma split_lacks sep h : lacks sep h = true -> split sep h = [h].
Proof.
  induction h as [|c h IH]; simpl; auto.
  intros H. apply andb_true_iff in H. destruct H as [Hc Hh].
  apply negb_true_iff in Hc. rewrite Hc, (IH Hh). reflexivity.
Qed.

Lemma split_app sep h s2 :
  lacks sep h = true ->
  split sep (h ++ String sep s2)%string = h :: split sep s2.
Proof.
  induction h as [|c h IH]; simpl.
  - intros _. now rewrite Ascii.eqb_refl.
  - intros H. apply andb_true_iff in H. destruct H as [Hc Hh].
    apply negb_true_iff in Hc. rewrite Hc, (IH Hh). reflexivity.
Qed.

(** the first two fields of a split, when both are there *)
Lemma split_two sep s a b t :
  split sep s = a :: b :: t ->
  lacks sep a = true /\ lacks sep b = true /\
  exists rest,
    s = (a ++ String sep (b ++ rest))%string /\ emptyOrFrom sep rest = true.
Proof.
  intros H. destruct (@split_first _ _ _ _ H) as (La & [(Ht & _)|(s2 & -> & Ht)]);
    [discriminate|].
  symmetry in Ht. destruct (@split_first _ _ _ _ Ht) as (Lb & [(_ & ->)|(s3 & -> & _)]).
  - split; [exact La|]. split; [exact Lb|]. exists EmptyString.
    split; [|reflexivity]. f_equal. f_equal.
    clear. induction b; simpl; congruence.
  - split; [exact La|]. split; [exact Lb|]. exists (String sep s3).
    split; [reflexivity|]. simpl. apply Ascii.eqb_refl.
Qed.

Lemma split_two_of sep a b rest :
  lacks sep a = true -> lacks sep b = true -> emptyOrFrom sep rest = true ->
  exists t, split sep (a ++ String sep (b ++ rest))%string = a :: b :: t.
Proof.
  intros La Lb Hr. rewrite (@split_app _ _ _ La).
  destruct rest as [|c rest'].
  - replace (b ++ EmptyString)%string with b
      by (clear; induction b; simpl; congruence).
    rewrite (@split_lacks _ _ Lb). eauto.
  - simpl in Hr. apply Ascii.eqb_eq in Hr. subst c.
    rewrite (@split_app _ _ _ Lb). eauto.
Qed.

(** X19.  The request goes on to [next()] exactly when its
    Authorization header is the word Basic, one space, and a non-empty
    token without a space, followed by nothing or by a space and anything
    at all, and the token decodes to admin:cirm2026 followed by nothing or
    by a colon and anything at all.  Whatever comes after a second space
    of the header or a second colon of the credentials is not looked at;
    a missing or empty header, another scheme, a token that [atob]
    rejects or other credentials never reach [next()]. *)
Theorem basic_auth_lets_through_exactly :
  forall auth,
    onRequest atob auth = Next <->
    exists encoded rest tail,
      auth = Some ("Basic " ++ encoded ++ rest)%string /\
      Str.nonEmpty encoded = true /\
      lacks " "%char encoded = true /\
      emptyOrFrom " "%char rest = true /\
      atob encoded = Some ("admin:cirm2026" ++ tail)%string /\
      emptyOrFrom ":"%char tail = true.
Proof.
  intros auth. unfold onRequest. split.
  - destruct auth as [a|]; simpl inForce; [|discriminate].
    destruct (Str.nonEmpty a); simpl negb; cbv iota; [|discriminate].
    destruct (split " "%char a) as [|scheme [|encoded t]] eqn:S;
      simpl; try discriminate.
    destruct (Str.nonEmpty encoded) eqn:Ne; simpl; [|discriminate].
    destruct (String.eqb scheme "Basic") eqn:Es; simpl; [|discriminate].
    apply String.eqb_eq in Es. subst scheme.
    destruct (atob encoded) as [decoded|] eqn:Ea; [|discriminate].
    destruct (split ":"%char decoded) as [|u [|pw t']] eqn:S';
      simpl; try discriminate.
    { now rewrite orb_true_r. }
    destruct (String.eqb u VALID_USERNAME) eqn:Eu; simpl; [|discriminate].
    destruct (String.eqb pw VALID_PASSWORD) eqn:Ep; simpl; [|discriminate].
    intros _. apply String.eqb_eq in Eu, Ep. subst u pw.
    destruct (@split_two _ _ _ _ _ S) as (_ & Le & rest & -> & Hr).
    destruct (@split_two _ _ _ _ _ S') as (_ & _ & tail & -> & Ht).
    exists encoded, rest, tail. repeat split; auto.
  - intros (encoded & rest & tail & -> & Ne & Le & Hr & Ea & Ht).
    destruct (@split_two_of " "%char "Basic" encoded rest eq_refl Le Hr)
      as (t & S).
    change ("Basic" ++ String " " (encoded ++ rest))%string
      with ("Basic " ++ encoded ++ rest)%string in S.
    destruct (@split_two_of ":"%char "admin" "cirm2026" tail eq_refl eq_refl Ht)
      as (t' & S').
    change ("admin" ++ String ":" ("cirm2026" ++ tail))%string
      with ("admin:cirm2026" ++ tail)%string in S'.
    replace (inForce (Some ("Basic " ++ encoded ++ rest)%string)) with true
      by reflexivity.
    cbv beta iota zeta delta [negb]. rewrite S.
    cbv beta iota zeta delta [field nth_error inForce differs negb orb].
    rewrite Ne. rewrite String.eqb_refl. rewrite Ea. rewrite S'.
    reflexivity.
Qed.

End BasicAuthFacts.

(** * Concrete cases of the further properties *)

Section FurtherCases.
Import Sample Sample2.

Lemma step0 :
  HookRun noNumber store0
    (fst (importData noNumber env0 (jsonFile "more.json" importGrant) store0)).
Proof. eapply run_step; [apply run_nil|apply step_importData]. Defined.

Lemma complete_data0 : CIRMData.complete data0.
Proof. repeat split; discriminate. Defined.

Lemma change_log_append_only_witness :
  HookRun noNumber store0
    (fst (importData noNumber env0 (jsonFile "more.json" importGrant) store0)) /\
  exists added,
    changes (fst (importData noNumber env0 (jsonFile "more.json" importGrant) store0))
    = added ++ changes store0.
Proof. split; [exact step0|]. exact (change_log_append_only step0). Defined.

Lemma no_entry_gets_a_snapshot_witness :
  noSnapshot (changes store0) /\
  noSnapshot
    (changes (fst (importData noNumber env0 (jsonFile "more.json" importGrant) store0))).
Proof.
  assert (H : noSnapshot (changes store0)) by constructor.
  split; [exact H|]. exact (no_entry_gets_a_snapshot step0 H).
Defined.

Lemma add_records_one_entry_per_item_witness :
  data store0 <> None /\
  exists st',
    addGrants clock0 [grant 1 "DISC 2" 3 50 "Active"] store0 = (st', None) /\
    map DataChange.entityId (changes st') = ["DISC 2"].
Proof.
  assert (H : data store0 <> None) by discriminate.
  split; [exact H|]. eexists. split; [reflexivity|].
  exact (proj1 (proj1 (proj2 (add_records_one_entry_per_item clock0
                                [grant 1 "DISC 2" 3 50 "Active"] [] store0 _))
                  H eq_refl)).
Defined.

Lemma nodup_olds0 :
  NoDup (grantNumbersOf [activeGrant "DISC1-999" 1000000 "Active" None]).
Proof. repeat constructor. intros []. Defined.

Lemma merge_keeps_positions_witness :
  exists y,
    mergeImported data0 (importActive [reimported]) = Ret y /\
    exists l added,
      CIRMData.activeGrants y = Some l /\
      grantNumbersOf l = ["DISC1-999"] ++ added.
Proof.
  eexists. split; [reflexivity|].
  destruct (@merge_keeps_positions data0 (importActive [reimported]) _
              [activeGrant "DISC1-999" 1000000 "Active" None]
              eq_refl nodup_olds0 (or_introl eq_refl))
    as (l & added & H1 & H2 & _).
  exists l, added. auto.
Defined.

Lemma merge_leaves_other_projects_witness :
  exists y,
    mergeImported data0 (importActive [activeGrant "DISC2-111" 5 "Active" None])
    = Ret y /\
    exists l,
      CIRMData.activeGrants y = Some l /\
      recordOf "DISC1-999" l = Some (activeGrant "DISC1-999" 1000000 "Active" None).
Proof.
  eexists. split; [reflexivity|].
  apply (@merge_leaves_other_projects data0
           (importActive [activeGrant "DISC2-111" 5 "Active" None]) _
           [activeGrant "DISC1-999" 1000000 "Active" None]
           (activeGrant "DISC1-999" 1000000 "Active" None)
           eq_refl nodup_olds0 (or_introl eq_refl)).
  - now left.
  - simpl. intros [H|[]]. discriminate.
Defined.

Lemma reimport_drops_recorded_changes_witness :
  exists y z,
    mergeImported data0 (importActive [reimported]) = Ret y /\
    mergeImported y (importActive [reimported]) = Ret z /\
    exists l,
      CIRMData.activeGrants z = Some l /\
      recordOf "DISC1-999" l = Some reimported.
Proof.
  eexists. eexists. split; [reflexivity|]. split; [reflexivity|].
  apply (@reimport_drops_recorded_changes data0 (importActive [reimported])
           _ _ [reimported] reimported eq_refl eq_refl eq_refl).
  - repeat constructor. intros [].
  - now left.
Defined.

Lemma marks_after_import_witness :
  exists merged,
    mergeImported data0 (importActive [reimported]) = Ret merged /\
    exists l r,
      CIRMData.activeGrants merged = Some l /\
      recordOf "DISC1-999" l = Some r /\
      isStatusChanged r = true /\
      hasValueChange r = true.
Proof.
  eexists. split; [reflexivity|].
  destruct (@marks_after_import data0 (importActive [reimported]) _
              [activeGrant "DISC1-999" 1000000 "Active" None] [reimported]
              (activeGrant "DISC1-999" 1000000 "Active" None) reimported
              eq_refl eq_refl eq_refl eq_refl (or_introl eq_refl) eq_refl)
    as (l & r & H1 & H2 & H3 & H4).
  exists l, r. split; [exact H1|]. split; [exact H2|].
  split; [exact (H3 eq_refl)|exact (H4 eq_refl)].
Defined.

Lemma unrecognised_workbook_is_a_successful_import_witness :
  Forall (fun s => parseExcelFile_sheetType (fst s) = unknown_t)
         [("Sheet1", paperSheet)] /\
  importData noNumber env0 (xlsxFile "odd.xlsx" [("Sheet1", paperSheet)]) store0
  = (recordChange env0 (importDescr emptyResult) (saveData data0 store0), true).
Proof.
  assert (H : Forall (fun s => parseExcelFile_sheetType (fst s) = unknown_t)
                     [("Sheet1", paperSheet)])
    by (repeat constructor).
  split; [exact H|].
  exact (proj1 (@unrecognised_workbook_is_a_successful_import noNumber env0
                  (xlsxFile "odd.xlsx" [("Sheet1", paperSheet)]) store0 data0
                  [("Sheet1", paperSheet)] eq_refl eq_refl H eq_refl
                  complete_data0)).
Defined.

Lemma apply_replaces_grants_and_papers_witness :
  Forall (fun s => detectSheetType (fst s) <> grants_t) activeOnlyWorkbook /\
  exists y,
    applyChanges data0 (processEditorFile noNumber activeOnlyWorkbook) = Ret y /\
    CIRMData.grants y = Some [].
Proof.
  assert (H : Forall (fun s => detectSheetType (fst s) <> grants_t)
                     activeOnlyWorkbook)
    by (repeat constructor; discriminate).
  split; [exact H|]. eexists. split; [reflexivity|].
  exact (proj1 (proj1 (proj2 (proj2
           (@apply_replaces_grants_and_papers noNumber activeOnlyWorkbook
              data0 _ eq_refl))) H)).
Defined.

Lemma grants_template_round_trip_witness :
  Forall (fun g => Grant.grantType g <> EmptyString /\
                   Grant.awardStatus g <> EmptyString)
         [grant 7 "DISC 1" 2 100 "Active"] /\
  CIRMData.grants
    (processEditorFile noNumber
       [("Grants", templateGrantsSheet [grant 7 "DISC 1" 2 100 "Active"])])
  = Some (mapi reparsedGrant [grant 7 "DISC 1" 2 100 "Active"]).
Proof.
  assert (H : Forall (fun g => Grant.grantType g <> EmptyString /\
                               Grant.awardStatus g <> EmptyString)
                     [grant 7 "DISC 1" 2 100 "Active"])
    by (repeat constructor; discriminate).
  split; [exact H|]. exact (grants_template_round_trip noNumber H).
Defined.

Lemma grantNumbers_shape_witness :
  In "DISC1-12345" (GrantNumberRe.matchAll "see DISC1-12345") /\
  Str.includes "DISC1-12345" "see DISC1-12345" = true /\
  GrantNumberRe.matchAll "disc1-12345" = [].
Proof.
  assert (H : In "DISC1-12345" (GrantNumberRe.matchAll "see DISC1-12345"))
    by (now left).
  split; [exact H|]. split.
  - exact (proj1 (proj1 (grantNumbers_shape "see DISC1-12345") _ H)).
  - apply (proj2 (grantNumbers_shape "disc1-12345")). left. reflexivity.
Defined.

Lemma empty_filters_return_everything_witness :
  data store0 = Some data0 /\
  getFilteredGrants sameCase noFilters store0
  = Ret [grant 1 "DISC 1" 2 100 "Active"].
Proof.
  split; [reflexivity|].
  exact (proj1 (proj2 (empty_filters_return_everything sameCase noFilters
                         year2024 store0))
           data0 _ eq_refl eq_refl eq_refl eq_refl eq_refl).
Defined.

Lemma year_filter_passes_undated_papers_witness :
  exists l l',
    getFilteredPapers sameCase year2024 storePapers = Ret l /\
    getFilteredPapers sameCase (withoutYear year2024) storePapers = Ret l' /\
    (In (paper "Undated" None) l <-> In (paper "Undated" None) l').
Proof.
  eexists. eexists. split; [reflexivity|]. split; [reflexivity|].
  apply (@year_filter_passes_undated_papers sameCase year2024 storePapers
           _ _ (paper "Undated" None) eq_refl eq_refl eq_refl).
Defined.

Lemma xls_refused_at_the_gate_witness :
  Str.endsWith ".xls" (name xlsFile) = true /\
  uploadAccepted "application/vnd.ms-excel" (name xlsFile) = false.
Proof.
  split; [reflexivity|].
  exact (proj1 (@xls_refused_at_the_gate noNumber "application/vnd.ms-excel"
                  xlsFile [] eq_refl eq_refl eq_refl)).
Defined.

Lemma readable_workbook_is_never_refused_witness :
  CIRMData.complete data0 /\
  exists merged,
    mergeImported data0 (parseExcelFile noNumber [("Papers", paperSheet)])
    = Ret merged /\
    importData_try noNumber store0 (xlsxFile "a.xlsx" [("Papers", paperSheet)])
    = Ret (parseExcelFile noNumber [("Papers", paperSheet)], merged).
Proof.
  split; [exact complete_data0|].
  exact (@readable_workbook_is_never_refused noNumber
           (xlsxFile "a.xlsx" [("Papers", paperSheet)]) store0 data0
           [("Papers", paperSheet)] eq_refl eq_refl eq_refl complete_data0).
Defined.

Lemma basic_auth_lets_through_exactly_witness :
  BasicAuth.onRequest atob0 (Some "Basic YWRtaW46Y2lybTIwMjY=") = BasicAuth.Next.
Proof.
  apply (proj2 (basic_auth_lets_through_exactly atob0
                  (Some "Basic YWRtaW46Y2lybTIwMjY="))).
  exists "YWRtaW46Y2lybTIwMjY=", EmptyString, EmptyString.
  repeat split.
Defined.

End FurtherCases.

(** ** CSV imports and repeated imports *)

Section AppendFacts.

Variable parseNumber : string -> number.

(** X20.  A CSV import touches the papers only.  A file whose name ends
    in .csv is never taken for a workbook of several sheets: the rows of
    its first sheet are read as papers, whatever they hold, and over a
    complete data set the import succeeds, leaves the grants and the
    active grants as they were, puts the papers read after the existing
    ones, and adds their number to [totalPapers] and nothing to the other
    totals. *)
Theorem csv_import_adds_papers_only :
  forall env file st d workbook s0 ps0,
    Str.endsWith ".csv" (name file) = true ->
    readString file = Some workbook ->
    data st = Some d ->
    CIRMData.summary d = Some s0 ->
    CIRMData.papers d = Some ps0 ->
    exists merged s,
      importData parseNumber env file st
      = (recordChange env
           (importDescr (papersOnly (hookPapers (firstSheet workbook))))
           (saveData merged st), true) /\
      CIRMData.grants merged = CIRMData.grants d /\
      CIRMData.activeGrants merged = CIRMData.activeGrants d /\
      CIRMData.papers merged = Some (ps0 ++ hookPapers (firstSheet workbook)) /\
      CIRMData.summary merged = Some s /\
      DataSummary.totalPapers s
      = DataSummary.totalPapers s0 + len (hookPapers (firstSheet workbook)) /\
      DataSummary.totalGrants s = DataSummary.totalGrants s0 /\
      DataSummary.totalProjects s = DataSummary.totalProjects s0 /\
      DataSummary.totalAmount s = DataSummary.totalAmount s0 /\
      DataSummary.activeProjects s = DataSummary.activeProjects s0.
Proof.
  intros env file st d workbook s0 ps0 Hn Hr Hd Hs Hp.
  unfold importData, importData_try, readImported.
  rewrite (@endsWith_clash ".csv" ".xlsx" (name file)); auto; try discriminate.
  rewrite (@endsWith_clash ".csv" ".xls" (name file)); auto; try discriminate.
  simpl orb. cbv iota. rewrite Hn, Hr. simpl. rewrite Hd.
  unfold mergeImported. simpl. rewrite Hp, Hs. simpl.
  eexists _, _. split; [reflexivity|]. simpl.
  repeat split; simpl; try reflexivity; lia.
Qed.

(** X21.  Grants and papers are appended without any check for
    duplicates: importing the same content twice leaves the grants of the
    data set followed by two copies of the imported grants, and likewise
    for the papers, and adds the count, respectively the sum, of the
    imported records to [totalGrants], [totalPapers], [totalProjects]
    and [totalAmount] a second time: each is the previous value plus
    that count or sum, plus the same count or sum again. *)
Theorem import_twice_counts_twice :
  forall d x y z s0 gs0 ps0 gs ps,
    CIRMData.summary d = Some s0 ->
    CIRMData.grants d = Some gs0 ->
    CIRMData.papers d = Some ps0 ->
    CIRMData.grants x = Some gs ->
    CIRMData.papers x = Some ps ->
    mergeImported d x = Ret y ->
    mergeImported y x = Ret z ->
    exists s,
      CIRMData.grants z = Some (gs0 ++ gs ++ gs) /\
      CIRMData.papers z = Some (ps0 ++ ps ++ ps) /\
      CIRMData.summary z = Some s /\
      DataSummary.totalGrants s
      = DataSummary.totalGrants s0 + len gs + len gs /\
      DataSummary.totalPapers s
      = DataSummary.totalPapers s0 + len ps + len ps /\
      DataSummary.totalProjects s
      = DataSummary.totalProjects s0
        + reduceSum Grant.totalAwards gs + reduceSum Grant.totalAwards gs /\
      DataSummary.totalAmount s
      = DataSummary.totalAmount s0
        + reduceSum Grant.awardValue gs + reduceSum Grant.awardValue gs.
Proof.
  intros d x y z s0 gs0 ps0 gs ps Hs Hg Hp Hxg Hxp Hy Hz.
  unfold mergeImported in Hy.
  destruct (mergeActiveGrants importStep (CIRMData.activeGrants d) _)
    as [ags|] in Hy; [|discriminate].
  rewrite Hg, Hp, Hs, Hxg, Hxp in Hy. cbn in Hy. injection Hy as <-.
  unfold mergeImported in Hz. cbn [CIRMData.activeGrants CIRMData.grants
    CIRMData.papers CIRMData.summary CIRMData.updateDate CIRMData.extras] in Hz.
  destruct (mergeActiveGrants importStep ags _) as [ags'|] in Hz; [|discriminate].
  rewrite Hxg, Hxp in Hz. cbn in Hz. injection Hz as <-.
  cbn [CIRMData.grants CIRMData.papers CIRMData.summary].
  eexists. rewrite <- !app_assoc.
  split; [reflexivity|]. split; [reflexivity|]. split; [reflexivity|].
  cbn [DataSummary.totalGrants DataSummary.totalPapers
       DataSummary.totalProjects DataSummary.totalAmount lenOr0 sumOr0].
  repeat split.
Qed.

End AppendFacts.

Section AppendCases.
Import Sample Sample2.

Lemma csv_import_adds_papers_only_witness :
  Str.endsWith ".csv" (name csvFile) = true /\
  exists merged,
    snd (importData noNumber env0 csvFile store0) = true /\
    data (fst (importData noNumber env0 csvFile store0)) = Some merged /\
    CIRMData.grants merged = CIRMData.grants data0.
Proof.
  split; [reflexivity|].
  destruct (@csv_import_adds_papers_only noNumber env0 csvFile store0 data0
              [("Sheet1", paperSheet)] summary0 []
              eq_refl eq_refl eq_refl eq_refl eq_refl)
    as (merged & s & H & Hg & _).
  exists merged. rewrite H. auto.
Defined.

Lemma import_twice_counts_twice_witness :
  exists y z,
    mergeImported data0 importGrant = Ret y /\
    mergeImported y importGrant = Ret z /\
    exists s,
      CIRMData.grants z
      = Some ([grant 1 "DISC 1" 2 100 "Active"]
              ++ [grant 1 "DISC 2" 3 50 "Active"]
              ++ [grant 1 "DISC 2" 3 50 "Active"]) /\
      CIRMData.summary z = Some s /\
      DataSummary.totalProjects s = 2 + 3 + 3.
Proof.
  eexists. eexists. split; [reflexivity|]. split; [reflexivity|].
  destruct (@import_twice_counts_twice data0 importGrant _ _ summary0
              [grant 1 "DISC 1" 2 100 "Active"] []
              [grant 1 "DISC 2" 3 50 "Active"] []
              eq_refl eq_refl eq_refl eq_refl eq_refl eq_refl eq_refl)
    as (s & H1 & _ & H3 & _ & _ & H6 & _).
  exists s. auto.
Defined.

End AppendCases.
